(** * ffmpeg-GUI: the non-GUI engine of [ffmpeggui.py] (V0.1) and
      [ffmpeggui.V0.2.py] (V0.2), embedded and verified

    The development models, from the two Python sources,
    - the command builders ([FFmpegGUI.build_ffmpeg_command] of V0.1 and
      [FFmpegCommandBuilder.build_command] of V0.2),
    - the hardware detection ([detect_hardware_acceleration],
      [detect_hardware_encoders]) together with the regular expression it
      searches the encoder listing with,
    - the completion polling of V0.1 ([check_completion_status],
      [verify_file_stable]),
    - the fallback decryption of V0.1 ([decrypt_ncm_fallback]).

    Conventions.  A Python [str] is a [string]: the bytes of its UTF-8
    text, so that [==], concatenation, [join] and [replace] are exact.  The
    whitespace class ([str.split], [\s]) is Python's on the code points
    below 128, and [str.lower] acts on the letters A-Z; the non-ASCII
    Unicode spaces and letters are ordinary characters here.
    A Python [dict] that is iterated or built by assignment is an
    association list in insertion order; the file system is a finite map
    from paths to byte contents. *)

From Stdlib Require Import String Ascii ZArith NArith Strings.Byte Lia Bool.
From stdpp Require Import base option list strings gmap.

Local Open Scope string_scope.
Local Open Scope list_scope.

(** ** Python primitives used by the sources *)

Module Py.

(** Truth value of a [str]: the empty string is false. *)
Definition truthy (s : string) : bool := negb (s =? "")%string.

(** [str.isspace] on one character, for the code points below 128:
    TAB, LF, VT, FF, CR, the four separators FS GS RS US, and SPACE. *)
Definition isspace (c : ascii) : bool :=
  let n := N_of_ascii c in
  ((9 <=? n) && (n <=? 13) || (28 <=? n) && (n <=? 32))%N.

(** [str.split()] without arguments: the maximal runs of non-space
    characters, in order; [cur] is the run being read, reversed. *)
Fixpoint split_from (cur : list ascii) (s : list ascii) : list (list ascii) :=
  match s with
  | [] => match cur with [] => [] | _ => [rev cur] end
  | c :: s' =>
      if isspace c
      then match cur with
           | [] => split_from [] s'
           | _ => rev cur :: split_from [] s'
           end
      else split_from (c :: cur) s'
  end.

Definition split (s : string) : list string :=
  map string_of_list_ascii (split_from [] (list_ascii_of_string s)).

(** [sep.join(items)] *)
Fixpoint join (sep : string) (items : list string) : string :=
  match items with
  | [] => ""
  | [x] => x
  | x :: rest => x +:+ sep +:+ join sep rest
  end.

(** [s.replace(old, new)] for a non-empty [old]: leftmost occurrences,
    not overlapping.  [skip] counts the characters of a replaced
    occurrence that are still to be dropped. *)
Fixpoint replace_from (old new : string) (skip : nat) (s : string) : string :=
  match s with
  | EmptyString => EmptyString
  | String c s' =>
      match skip with
      | S k => replace_from old new k s'
      | O =>
          if String.prefix old s
          then new +:+ replace_from old new (String.length old - 1) s'
          else String c (replace_from old new 0 s')
      end
  end.

(** With an empty [old] Python puts [new] before every character and at
    the end. *)
Fixpoint intersperse (new : string) (s : string) : string :=
  match s with
  | EmptyString => new
  | String c s' => new +:+ String c (intersperse new s')
  end.

Definition replace (s old new : string) : string :=
  match old with
  | EmptyString => intersperse new s
  | _ => replace_from old new 0 s
  end.

(** [str.lower] on the letters A-Z. *)
Definition lower_char (c : ascii) : ascii :=
  let n := N_of_ascii c in
  if ((65 <=? n) && (n <=? 90))%N then ascii_of_N (n + 32) else c.

Fixpoint lower (s : string) : string :=
  match s with
  | EmptyString => EmptyString
  | String c s' => String (lower_char c) (lower s')
  end.

(** [needle in hay] for strings. *)
Fixpoint contains (needle hay : string) : bool :=
  String.prefix needle hay ||
  match hay with
  | EmptyString => false
  | String _ hay' => contains needle hay'
  end.

(** [d.get(k)] on a dict kept as an association list with unique keys. *)
Fixpoint dict_get {V} (d : list (string * V)) (k : string) : option V :=
  match d with
  | [] => None
  | (k', v) :: d' => if (k' =? k)%string then Some v else dict_get d' k
  end.

(** [d[k] = v]: the value of an existing key is replaced in place, a new
    key goes to the end. *)
Fixpoint dict_set {V} (d : list (string * V)) (k : string) (v : V) : list (string * V) :=
  match d with
  | [] => [(k, v)]
  | (k', v') :: d' =>
      if (k' =? k)%string then (k, v) :: d' else (k', v') :: dict_set d' k v
  end.

(** The exceptions that the modelled code can meet; all of them are
    subclasses of [Exception].  [exn_str] is [str(e)]. *)
Inductive exn_class : Type :=
| TimeoutExpired
| CalledProcessError
| OSError
| ImportError
| UnicodeDecodeError
| ValueError
| ZeroDivisionError
| PlainException.

Record exn : Type := { exn_type : exn_class; exn_str : string }.

(** What a call does: it returns, it raises, or it never comes back. *)
Inductive outcome (A : Type) : Type :=
| Returns (a : A)
| Raises (e : exn)
| Blocks.
Arguments Returns {A} a.
Arguments Raises {A} e.
Arguments Blocks {A}.

(** [s.endswith(suffix)]: the characters of [suffix], read from the end. *)
Fixpoint starts_with (prefix s : list ascii) : bool :=
  match prefix, s with
  | [], _ => true
  | x :: prefix', y :: s' => Ascii.eqb x y && starts_with prefix' s'
  | _ :: _, [] => false
  end.

Definition endswith (s suffix : string) : bool :=
  starts_with (rev (list_ascii_of_string suffix)) (rev (list_ascii_of_string s)).

(** [s.rfind(c)] for one character: the index of its last occurrence. *)
Fixpoint rfind_last (c : ascii) (s : list ascii) : option nat :=
  match s with
  | [] => None
  | x :: s' =>
      match rfind_last c s' with
      | Some i => Some (S i)
      | None => if Ascii.eqb x c then Some 0%nat else None
      end
  end.

Definition rfind (c : ascii) (s : list ascii) : Z :=
  match rfind_last c s with
  | Some i => Z.of_nat i
  | None => (-1)%Z
  end.

(** [os.path.splitext(p)] of [posixpath]: [genericpath._splitext] with
    the separator [/] and the extension separator [.].  The extension
    starts at the last dot, when that dot comes after the last separator
    and some character of the file name before it is not a dot (the loop
    that skips the leading dots); otherwise it is empty. *)
Definition splitext_chars (p : list ascii) : list ascii * list ascii :=
  let sepIndex := rfind "/" p in
  let dotIndex := rfind "." p in
  if (dotIndex >? sepIndex)%Z then
    let filenameIndex := (sepIndex + 1)%Z in
    let leading :=
      take (Z.to_nat (dotIndex - filenameIndex)) (drop (Z.to_nat filenameIndex) p) in
    if existsb (fun c => negb (Ascii.eqb c ".")) leading
    then (take (Z.to_nat dotIndex) p, drop (Z.to_nat dotIndex) p)
    else (p, [])
  else (p, []).

Definition splitext (p : string) : string * string :=
  let (root, ext) := splitext_chars (list_ascii_of_string p) in
  (string_of_list_ascii root, string_of_list_ascii ext).

(** The number of lines that iterating over a text stream yields: one per
    newline, and one more for what follows the last newline when that is
    not empty. *)
Fixpoint count_lines_from (pending : bool) (s : string) : nat :=
  match s with
  | EmptyString => if pending then 1%nat else 0%nat
  | String c s' =>
      if Ascii.eqb c "010"
      then S (count_lines_from false s')
      else count_lines_from true s'
  end.

Definition count_lines (s : string) : nat := count_lines_from false s.

(** [str(n)] for an [int] *)
Fixpoint digits (fuel : nat) (n : N) (acc : string) : string :=
  match fuel with
  | O => acc
  | S fuel' =>
      let acc := String (ascii_of_N (48 + n mod 10)) acc in
      if (n <? 10)%N then acc else digits fuel' (n / 10) acc
  end.

Definition str_of_Z (z : Z) : string :=
  match z with
  | Z0 => "0"
  | Zpos p => digits (S (N.to_nat (N.log2 (Npos p)))) (Npos p) ""
  | Zneg p => String "-" (digits (S (N.to_nat (N.log2 (Npos p)))) (Npos p) "")
  end.

End Py.

Import Py.

(** ** Regular expressions, as [re.search] decides them

    The patterns of the sources use [^] at their head only, character
    classes, literals, concatenation, [*] and [+].  [re.search] is asked
    for a truth value only, so the matcher decides whether some match
    exists; it does so with derivatives. *)

Module Regex.

Inductive re : Type :=
| Void
| Eps
| Class (p : ascii -> bool)
| Cat (r1 r2 : re)
| Alt (r1 r2 : re)
| Star (r : re).


Fixpoint nullable (r : re) : bool :=
  match r with
  | Void => false
  | Eps => true
  | Class _ => false
  | Cat r1 r2 => nullable r1 && nullable r2
  | Alt r1 r2 => nullable r1 || nullable r2
  | Star _ => true
  end.

Fixpoint deriv (c : ascii) (r : re) : re :=
  match r with
  | Void => Void
  | Eps => Void
  | Class p => if p c then Eps else Void
  | Cat r1 r2 =>
      if nullable r1
      then Alt (Cat (deriv c r1) r2) (deriv c r2)
      else Cat (deriv c r1) r2
  | Alt r1 r2 => Alt (deriv c r1) (deriv c r2)
  | Star r1 => Cat (deriv c r1) (Star r1)
  end.

(** Does some prefix of [s] match [r]? *)
Fixpoint match_prefix (r : re) (s : list ascii) : bool :=
  nullable r ||
  match s with
  | [] => false
  | c :: s' => match_prefix (deriv c r) s'
  end.

Definition newline : ascii := "010"%char.

(** [re.search('^' + body, s, re.MULTILINE)] finds a match: a match of
    [body] begins at the start of the text or just after a newline.
    [bol] tells whether the current position is such a place. *)
Fixpoint search_from (bol : bool) (body : re) (s : list ascii) : bool :=
  bol && match_prefix body s ||
  match s with
  | [] => false
  | c :: s' => search_from (Ascii.eqb c newline) body s'
  end.

Definition search_bol_multiline (body : re) (text : string) : bool :=
  search_from true body (list_ascii_of_string text).

(** The pieces of the two patterns. *)
Definition space : re := Class isspace.                         (* \s *)
Definition nonspace : re := Class (fun c => negb (isspace c)).  (* \S *)
Definition chr (a : ascii) : re := Class (Ascii.eqb a).
Definition plus (r : re) : re := Cat r (Star r).                (* r+ *)

(** A literal word; the encoder names consist of letters, digits and
    underscores, which stand for themselves in a pattern. *)
Fixpoint lit (s : list ascii) : re :=
  match s with
  | [] => Eps
  | c :: s' => Cat (chr c) (lit s')
  end.

End Regex.

(** ** The translation tables

    Only the keys that the modelled functions look up are kept; the values
    are the ones of both sources, which agree on them.  The four
    [custom_*] keys exist in V0.2 only. *)

Module Lang.

Definition zh_CN_common : list (string * string) :=
  [ ("high_quality", "高质量");
    ("medium_quality", "中等");
    ("low_quality", "低质量");
    ("original_quality", "原质量");
    ("original_resolution", "原分辨率");
    ("original_fps", "原帧率");
    ("hwaccel_none", "❌ 无硬件加速");
    ("hwaccel_cuda", "🎮 NVIDIA CUDA");
    ("hwaccel_qsv", "🔵 Intel Quick Sync");
    ("hwaccel_vaapi", "🔴 VA-API");
    ("hwaccel_d3d11va", "🟢 Direct3D 11");
    ("hwaccel_videotoolbox", "🍎 Apple VideoToolbox");
    ("hwaccel_amf", "🟣 AMD AMF") ].

Definition en_US_common : list (string * string) :=
  [ ("high_quality", "High Quality");
    ("medium_quality", "Medium");
    ("low_quality", "Low Quality");
    ("original_quality", "Original Quality");
    ("original_resolution", "Original Resolution");
    ("original_fps", "Original FPS");
    ("hwaccel_none", "❌ No Hardware Acceleration");
    ("hwaccel_cuda", "🎮 NVIDIA CUDA");
    ("hwaccel_qsv", "🔵 Intel Quick Sync");
    ("hwaccel_vaapi", "🔴 VA-API");
    ("hwaccel_d3d11va", "🟢 Direct3D 11");
    ("hwaccel_videotoolbox", "🍎 Apple VideoToolbox");
    ("hwaccel_amf", "🟣 AMD AMF") ].

Definition zh_CN_custom : list (string * string) :=
  [ ("custom_resolution", "自定义分辨率");
    ("custom_fps", "自定义帧率");
    ("custom_sample_rate", "自定义采样率");
    ("custom_bitrate", "自定义比特率") ].

Definition en_US_custom : list (string * string) :=
  [ ("custom_resolution", "Custom Resolution");
    ("custom_fps", "Custom FPS");
    ("custom_sample_rate", "Custom Sample Rate");
    ("custom_bitrate", "Custom Bitrate") ].

End Lang.

(** ** The environment: processes and files *)

Module Os.

(** What the external executable does when it is launched. *)
Inductive behaviour : Type :=
| Exits (returncode : Z) (stdout : string)  (* runs to its end; [stdout] as decoded *)
| Fails (e : exn)       (* cannot be started, or its output cannot be read *)
| Hangs.                (* does not exit, however long one waits *)

Record CompletedProcess : Type := { returncode : Z; stdout : string }.

(** [subprocess.run(args, capture_output=True, text=True, check=..., timeout=...)] *)
Definition subprocess_run (check : bool) (timeout : option Z) (b : behaviour)
  : outcome CompletedProcess :=
  match b with
  | Exits rc out =>
      if check && negb (rc =? 0)%Z
      then Raises {| exn_type := CalledProcessError;
                     exn_str := "Command returned non-zero exit status" |}
      else Returns {| returncode := rc; stdout := out |}
  | Fails e => Raises e
  | Hangs =>
      match timeout with
      | Some _ => Raises {| exn_type := TimeoutExpired;
                            exn_str := "Command timed out" |}
      | None => Blocks
      end
  end.

(** The files: a path has contents or does not exist. *)
Abbreviation filesystem := (gmap string (list byte)).

(** [open(path, 'rb').read()] *)
Definition read_bytes (fs : filesystem) (path : string) : outcome (list byte) :=
  match fs !! path with
  | Some data => Returns data
  | None => Raises {| exn_type := OSError;
                      exn_str := "[Errno 2] No such file or directory: '" +:+ path +:+ "'" |}
  end.

(** [open(path, 'wb').write(data)] *)
Definition write_bytes (fs : filesystem) (path : string) (data : list byte) : filesystem :=
  <[path := data]> fs.

(** [os.path.join(a, b)] for a relative [b], with the POSIX separator. *)
Definition path_join (a b : string) : string :=
  match a with
  | EmptyString => b
  | _ => if String.eqb (substring (String.length a - 1) 1 a) "/" then a +:+ b else a +:+ "/" +:+ b
  end.

(** [os.path.exists(path)] *)
Definition exists_ (fs : filesystem) (path : string) : bool :=
  match fs !! path with
  | Some _ => true
  | None => false
  end.

(** [os.remove(path)] *)
Definition remove (fs : filesystem) (path : string) : outcome filesystem :=
  match fs !! path with
  | Some _ => Returns (delete path fs)
  | None => Raises {| exn_type := OSError;
                      exn_str := "[Errno 2] No such file or directory: '" +:+ path +:+ "'" |}
  end.

(** [shutil.move(src, dst)] for a destination that is no directory: the
    file goes to [dst], replacing what was there. *)
Definition move (fs : filesystem) (src dst : string) : outcome filesystem :=
  match fs !! src with
  | Some data => Returns (<[dst := data]> (delete src fs))
  | None => Raises {| exn_type := OSError;
                      exn_str := "[Errno 2] No such file or directory: '" +:+ src +:+ "'" |}
  end.

(** A run of an executable that touches files: the files it leaves, how it
    ends, and what it wrote to its standard error. *)
Record run : Type := { after : filesystem; ends : behaviour; stderr : string }.

(** An executable, from its argument vector and the files it finds. *)
Abbreviation program := (list string -> filesystem -> run).

End Os.

(** ** V0.1: class [FFmpegGUI] ([ffmpeggui.py]) *)

Module V01.

(** *** Translation *)

Inductive language : Type := zh_CN | en_US.

(** [self.languages], built by [load_language_resources] *)
Definition languages (l : language) : list (string * string) :=
  match l with
  | zh_CN => Lang.zh_CN_common
  | en_US => Lang.en_US_common
  end.

(** [FFmpegGUI.t]: [self.languages[self.current_language].get(key, key)] *)
Definition t (current_language : language) (key : string) : string :=
  default key (dict_get (languages current_language) key).

(** *** The object *)

(** One entry of a hardware table: [{"name": ..., "supported": ...}] *)
Record info : Type := { name : string; supported : bool }.

(** The Tk variables that the command is built from. *)
Record Variables : Type := {
  input_file : string;
  output_file : string;
  hwaccel_var : string;
  video_codec : string;
  resolution : string;
  fps : string;
  audio_codec : string;
  sample_rate : string;
  channels : string;
  audio_bitrate : string;
  enable_crop : bool;
  crop_params : string;
  enable_scale : bool;
  enable_rotate : bool;
  rotate_angle : string;
  enable_volume : bool;
  volume_factor : string;
  video_quality : string;
  custom_args : string
}.

Record FFmpegGUI : Type := {
  current_language : language;
  hardware_acceleration : list (string * info);
  hardware_encoders : list (string * info);
  vars : Variables
}.

Definition set_hardware_acceleration (self : FFmpegGUI) (d : list (string * info)) : FFmpegGUI :=
  {| current_language := current_language self;
     hardware_acceleration := d;
     hardware_encoders := hardware_encoders self;
     vars := vars self |}.

Definition set_hardware_encoders (self : FFmpegGUI) (d : list (string * info)) : FFmpegGUI :=
  {| current_language := current_language self;
     hardware_acceleration := hardware_acceleration self;
     hardware_encoders := d;
     vars := vars self |}.

(** *** Hardware detection *)

Definition hwaccels_to_check : list (string * string) :=
  [ ("cuda", "🎮 NVIDIA CUDA");
    ("qsv", "🔵 Intel Quick Sync");
    ("vaapi", "🔴 VA-API");
    ("d3d11va", "🟢 Direct3D 11");
    ("videotoolbox", "🍎 Apple VideoToolbox");
    ("amf", "🟣 AMD AMF") ].

Definition encoder_mapping : list (string * string) :=
  [ ("h264_nvenc", "NVIDIA H.264");
    ("hevc_nvenc", "NVIDIA H.265");
    ("h264_qsv", "Intel H.264");
    ("hevc_qsv", "Intel H.265");
    ("h264_amf", "AMD H.264");
    ("hevc_amf", "AMD H.265");
    ("h264_vaapi", "VA-API H.264");
    ("hevc_vaapi", "VA-API H.265");
    ("h264_videotoolbox", "VideoToolbox H.264");
    ("hevc_videotoolbox", "VideoToolbox H.265") ].

(** [for key, display_name in table.items(): d[key] = {"name":
    display_name, "supported": test(key)}] *)
Definition fill (table : list (string * string)) (test : string -> bool)
  (d : list (string * info)) : list (string * info) :=
  fold_left (fun d entry =>
               dict_set d (fst entry) {| name := snd entry; supported := test (fst entry) |})
            table d.

(** [detect_hardware_acceleration]: [check=True], no timeout; the
    [except Exception] branch marks every entry unsupported. *)
Definition detect_hardware_acceleration (self : FFmpegGUI) (ffmpeg : Os.behaviour)
  : outcome FFmpegGUI :=
  let self := set_hardware_acceleration self [] in
  match Os.subprocess_run true None ffmpeg with
  | Returns result =>
      let output := lower (Os.stdout result) in
      Returns (set_hardware_acceleration self
                 (fill hwaccels_to_check (fun hwaccel => contains hwaccel output)
                    (hardware_acceleration self)))
  | Raises e =>
      Returns (set_hardware_acceleration self
                 (fill hwaccels_to_check (fun _ => false) (hardware_acceleration self)))
  | Blocks => Blocks
  end.

(** The pattern [rf"^\s*V\S*\s+{encoder}"], without its leading [^]. *)
Definition encoder_pattern (encoder : string) : Regex.re :=
  Regex.Cat (Regex.Star Regex.space)
    (Regex.Cat (Regex.chr "V")
       (Regex.Cat (Regex.Star Regex.nonspace)
          (Regex.Cat (Regex.plus Regex.space)
             (Regex.lit (list_ascii_of_string encoder))))).

(** [detect_hardware_encoders] *)
Definition detect_hardware_encoders (self : FFmpegGUI) (ffmpeg : Os.behaviour)
  : outcome FFmpegGUI :=
  let self := set_hardware_encoders self [] in
  match Os.subprocess_run true None ffmpeg with
  | Returns result =>
      let output := Os.stdout result in
      Returns (set_hardware_encoders self
                 (fill encoder_mapping
                    (fun encoder => Regex.search_bol_multiline (encoder_pattern encoder) output)
                    (hardware_encoders self)))
  | Raises e =>
      Returns (set_hardware_encoders self
                 (fill encoder_mapping (fun _ => false) (hardware_encoders self)))
  | Blocks => Blocks
  end.

(** *** The command *)

(** [FFmpegGUI.build_ffmpeg_command]: [None] after the error box when a
    path is empty.  The [hasattr] guards hold: the variables exist once
    the tabs have been created, which is before a command can be asked
    for. *)
Definition build_ffmpeg_command (self : FFmpegGUI) : option (list string) :=
  let t := t (current_language self) in
  let v := vars self in
  if negb (truthy (input_file v)) || negb (truthy (output_file v)) then None else
  let cmd := ["ffmpeg"] in
  let hwaccel := hwaccel_var v in
  let cmd :=
    if negb (hwaccel =? t "hwaccel_none")%string then
      if (hwaccel =? t "hwaccel_cuda")%string then cmd ++ ["-hwaccel"; "cuda"]
      else if (hwaccel =? t "hwaccel_qsv")%string then cmd ++ ["-hwaccel"; "qsv"]
      else if (hwaccel =? t "hwaccel_vaapi")%string then cmd ++ ["-hwaccel"; "vaapi"]
      else if (hwaccel =? t "hwaccel_d3d11va")%string then cmd ++ ["-hwaccel"; "d3d11va"]
      else if (hwaccel =? t "hwaccel_videotoolbox")%string then cmd ++ ["-hwaccel"; "videotoolbox"]
      else if (hwaccel =? t "hwaccel_amf")%string then cmd ++ ["-hwaccel"; "amf"]
      else cmd
    else cmd in
  let cmd := cmd ++ ["-i"; input_file v; "-y"] in
  let cmd :=
    if negb (video_codec v =? "copy")%string
    then cmd ++ ["-c:v"; video_codec v] else cmd in
  let cmd :=
    if negb (resolution v =? t "original_resolution")%string
    then cmd ++ ["-s"; resolution v] else cmd in
  let cmd :=
    if negb (fps v =? t "original_fps")%string
    then cmd ++ ["-r"; fps v] else cmd in
  let cmd := cmd ++ ["-c:a"; audio_codec v] in
  let cmd := cmd ++ ["-ar"; sample_rate v] in
  let cmd :=
    if negb (channels v =? replace (t "original_quality") "质量" "声道")%string
    then cmd ++ ["-ac"; channels v] else cmd in
  let cmd := cmd ++ ["-b:a"; audio_bitrate v] in
  let vf_filters := [] in
  let vf_filters :=
    if enable_crop v then vf_filters ++ ["crop=" +:+ crop_params v] else vf_filters in
  let vf_filters :=
    if enable_scale v && negb (resolution v =? t "original_resolution")%string
    then vf_filters ++ ["scale=" +:+ replace (resolution v) "x" ":"]
    else vf_filters in
  let vf_filters :=
    if enable_rotate v then vf_filters ++ ["transpose=" +:+ rotate_angle v] else vf_filters in
  let cmd :=
    match vf_filters with
    | [] => cmd
    | _ => cmd ++ ["-vf"; join "," vf_filters]
    end in
  let af_filters := [] in
  let af_filters :=
    if enable_volume v then af_filters ++ ["volume=" +:+ volume_factor v] else af_filters in
  let cmd :=
    match af_filters with
    | [] => cmd
    | _ => cmd ++ ["-af"; join "," af_filters]
    end in
  let quality := video_quality v in
  let cmd :=
    if (quality =? t "high_quality")%string then cmd ++ ["-crf"; "18"; "-preset"; "slow"]
    else if (quality =? t "medium_quality")%string then cmd ++ ["-crf"; "23"; "-preset"; "medium"]
    else if (quality =? t "low_quality")%string then cmd ++ ["-crf"; "28"; "-preset"; "fast"]
    else cmd in
  let cmd :=
    if truthy (custom_args v)
    then (let custom_args_list := split (custom_args v) in cmd ++ custom_args_list)
    else cmd in
  Some (cmd ++ [output_file v]).

(** *** Completion polling

    [check_completion_status] and [verify_file_stable] re-arm each other
    through [self.root.after(1000, ...)]: at most one of them is pending,
    and each run of a pending callback is one poll of the output file.  A
    poll observes [Some size] when the file exists and [None] when it does
    not. *)

Inductive callback : Type :=
| check_completion (* self.check_completion_status *)
| verify_stable (previous_size : Z). (* lambda: self.verify_file_stable(file_path, previous_size) *)

Record Job : Type := {
  is_processing : bool;
  progress_check_count : Z;
  completed : bool;            (* [on_processing_complete] has run *)
  faulted : bool;              (* a callback died with an exception *)
  pending : option callback    (* what [root.after] holds *)
}.

(** [check_completion_status] *)
Definition check_completion_status (self : Job) (observed : option Z) : Job :=
  if negb (is_processing self) then
    {| is_processing := is_processing self;
       progress_check_count := progress_check_count self;
       completed := completed self; faulted := faulted self;
       pending := None |}
  else
    match observed with
    | Some current_size =>
        {| is_processing := is_processing self;
           progress_check_count := progress_check_count self;
           completed := completed self; faulted := faulted self;
           pending := Some (verify_stable current_size) |}
    | None =>
        {| is_processing := is_processing self;
           progress_check_count := progress_check_count self;
           completed := completed self; faulted := faulted self;
           pending := Some check_completion |}
    end.

(** [verify_file_stable]; [os.path.getsize] raises when the file is not
    there, and then nothing is re-armed. *)
Definition verify_file_stable (self : Job) (previous_size : Z) (observed : option Z) : Job :=
  if negb (is_processing self) then
    {| is_processing := is_processing self;
       progress_check_count := progress_check_count self;
       completed := completed self; faulted := faulted self;
       pending := None |}
  else
    match observed with
    | None =>
        {| is_processing := is_processing self;
           progress_check_count := progress_check_count self;
           completed := completed self; faulted := true;
           pending := None |}
    | Some current_size =>
        if (current_size =? previous_size)%Z then
          let count := (progress_check_count self + 1)%Z in
          if (count >=? 2)%Z then
            {| is_processing := false;
               progress_check_count := count;
               completed := true; faulted := faulted self;
               pending := None |}
          else
            {| is_processing := is_processing self;
               progress_check_count := count;
               completed := completed self; faulted := faulted self;
               pending := Some (verify_stable current_size) |}
        else
          {| is_processing := is_processing self;
             progress_check_count := 0;
             completed := completed self; faulted := faulted self;
             pending := Some check_completion |}
    end.

(** One poll: the pending callback runs on what it observes. *)
Definition poll (self : Job) (observed : option Z) : Job :=
  match pending self with
  | Some check_completion => check_completion_status self observed
  | Some (verify_stable previous_size) => verify_file_stable self previous_size observed
  | None => self
  end.

(** The polls of a run, in order. *)
Definition polls (self : Job) (observations : list (option Z)) : Job :=
  fold_left poll observations self.

(** The job as [simulate_progress] leaves it when the estimate has come to
    99: the counter is reset and [check_completion_status] is armed. *)
Definition finalizing : Job :=
  {| is_processing := true;
     progress_check_count := 0;
     completed := false; faulted := false;
     pending := Some check_completion |}.

(** *** Decryption of an NCM container *)

Section Decrypt.

(** [hashlib.md5(data).digest()] *)
Variable md5_digest : list byte -> list byte.

(** Whether [Crypto.Cipher] can be imported, the directory of
    [tempfile.gettempdir()] *)
Variable crypto_importable : bool.
Variable temp_dir : string.

(** [b'CTENFDAM\x00\x00'] *)
Definition signature : list byte := list_byte_of_string "CTENFDAM" ++ [x00; x00].

Definition core_key : list byte := list_byte_of_string "hzHRAmso5kInbaxW".

Fixpoint bytes_eqb (a b : list byte) : bool :=
  match a, b with
  | [], [] => true
  | x :: a', y :: b' => Byte.eqb x y && bytes_eqb a' b'
  | _, _ => false
  end.

Definition len (data : list byte) : Z := Z.of_nat (length data).

(** [data[lo:hi]] for [0 <= lo <= hi] *)
Definition slice (data : list byte) (lo hi : Z) : list byte :=
  take (Z.to_nat (hi - lo)) (drop (Z.to_nat lo) data).

(** [data[lo:]] *)
Definition slice_from (data : list byte) (lo : Z) : list byte :=
  drop (Z.to_nat lo) data.

(** [struct.unpack('<I', b)[0]] *)
Definition unpack_le32 (b : list byte) : Z :=
  fold_right (fun x acc => (Z.of_N (Byte.to_N x) + 256 * acc)%Z) 0%Z b.

Definition byte_xor (a b : byte) : byte :=
  default x00 (Byte.of_N (N.lxor (Byte.to_N a) (Byte.to_N b))).

(** [encrypted_data[i] ^ key[i % len(key)]] for every [i] *)
Definition xor_with_key (key encrypted_data : list byte) : list byte :=
  imap (fun i b => byte_xor b (default x00 (key !! (i mod length key)%nat))) encrypted_data.

Definition value_error (msg : string) : exn :=
  {| exn_type := ValueError; exn_str := msg |}.

(** The body of the [try] of [decrypt_ncm_fallback] up to the decrypted
    bytes: what is written afterwards, or the exception. *)
Definition decrypt_bytes (data : list byte) : outcome (list byte) :=
  if (len data <? 10)%Z || negb (bytes_eqb (slice data 0 10) signature)
  then Raises (value_error "不是有效的NCM文件") else
  let offset := 10%Z in
  if (len data <? offset + 4)%Z then Raises (value_error "文件格式错误") else
  let key_length := unpack_le32 (slice data offset (offset + 4)) in
  let offset := (offset + 4)%Z in
  if (len data <? offset + key_length)%Z then Raises (value_error "密钥数据不完整") else
  let key_data := slice data offset (offset + key_length) in
  let offset := (offset + key_length)%Z in
  if (len data <? offset + 4)%Z then Raises (value_error "元数据长度错误") else
  let meta_length := unpack_le32 (slice data offset (offset + 4)) in
  let offset := (offset + 4)%Z in
  if (len data <? offset + meta_length)%Z then Raises (value_error "元数据不完整") else
  let offset := (offset + meta_length)%Z in
  if (len data <? offset + 4)%Z then Raises (value_error "封面数据长度错误") else
  let image_size := unpack_le32 (slice data offset (offset + 4)) in
  let offset := (offset + 4)%Z in
  if (image_size >? 0)%Z && (len data <? offset + image_size)%Z
  then Raises (value_error "封面数据不完整") else
  let offset := if (image_size >? 0)%Z then (offset + image_size)%Z else offset in
  let encrypted_data := slice_from data offset in
  match encrypted_data with
  | [] => Raises (value_error "没有找到加密的音乐数据")
  | _ =>
      let key := md5_digest core_key in
      match key with
      | [] => Raises {| exn_type := ZeroDivisionError;
                        exn_str := "integer division or modulo by zero" |}
      | _ => Returns (xor_with_key key encrypted_data)
      end
  end.

(** The message of the exception that [decrypt_ncm_fallback] raises. *)
Definition error_msg (e : exn) : string :=
  "NCM文件解密失败:" +:+ String "010" (exn_str e) +:+ String "010" (String "010"
  ("请确保：" +:+ String "010" ("1. 文件是有效的NCM格式" +:+ String "010"
  ("2. 文件没有被损坏" +:+ String "010" "3. 尝试使用在线转换工具")))).

(** [decrypt_ncm_fallback]: the files after the call and its outcome;
    [uuid_hex] is the [uuid.uuid4().hex] of this call. *)
Definition decrypt_ncm_fallback (uuid_hex : string) (fs : Os.filesystem)
  (ncm_file_path : string) : Os.filesystem * outcome string :=
  let body : Os.filesystem * outcome string :=
    if negb crypto_importable
    then (fs, Raises {| exn_type := ImportError; exn_str := "No module named 'Crypto'" |})
    else
      match Os.read_bytes fs ncm_file_path with
      | Returns data =>
          match decrypt_bytes data with
          | Returns decrypted_data =>
              let temp_filename := "ncm_decrypted_" +:+ uuid_hex +:+ ".mp3" in
              let temp_file_path := Os.path_join temp_dir temp_filename in
              (Os.write_bytes fs temp_file_path decrypted_data, Returns temp_file_path)
          | Raises e => (fs, Raises e)
          | Blocks => (fs, Blocks)
          end
      | Raises e => (fs, Raises e)
      | Blocks => (fs, Blocks)
      end in
  match body with
  | (fs', Raises e) =>
      (fs', Raises {| exn_type := PlainException; exn_str := error_msg e |})
  | result => result
  end.

(** [ncmdump.dump], when the module can be imported: a routine of a
    library, taken as it comes. *)
Variable ncmdump : option (Os.filesystem -> string -> Os.filesystem * outcome string).

(** [decrypt_ncm_file]: the library routine first when it is there; the
    fallback when the import fails, and again from the outer handler when
    anything raised. *)
Definition decrypt_ncm_file (uuid_hex1 uuid_hex2 : string) (fs : Os.filesystem)
  (ncm_file_path : string) : Os.filesystem * outcome string :=
  let attempt :=
    match ncmdump with
    | None => decrypt_ncm_fallback uuid_hex1 fs ncm_file_path
    | Some dump => dump fs ncm_file_path
    end in
  match attempt with
  | (fs', Raises e) => decrypt_ncm_fallback uuid_hex2 fs' ncm_file_path
  | result => result
  end.

End Decrypt.

(** *** The choices offered after detection *)


(** [self.video_codec.set(value)] *)
Definition set_video_codec (self : FFmpegGUI) (value : string) : FFmpegGUI :=
  let v := vars self in
  {| current_language := current_language self;
     hardware_acceleration := hardware_acceleration self;
     hardware_encoders := hardware_encoders self;
     vars :=
       {| input_file := input_file v; output_file := output_file v;
          hwaccel_var := hwaccel_var v; video_codec := value;
          resolution := resolution v; fps := fps v;
          audio_codec := audio_codec v; sample_rate := sample_rate v;
          channels := channels v; audio_bitrate := audio_bitrate v;
          enable_crop := enable_crop v; crop_params := crop_params v;
          enable_scale := enable_scale v; enable_rotate := enable_rotate v;
          rotate_angle := rotate_angle v; enable_volume := enable_volume v;
          volume_factor := volume_factor v; video_quality := video_quality v;
          custom_args := custom_args v |} |}.

(** [refresh_video_encoder_options]: the values given to the codec box,
    and the object after the call. *)
Definition refresh_video_encoder_options (self : FFmpegGUI) : list string * FFmpegGUI :=
  let codecs := ["libx264"; "libx265"; "mpeg4"; "vp9"; "copy"] in
  let codecs :=
    fold_left (fun codecs entry =>
                 if supported (snd entry) then codecs ++ [fst entry] else codecs)
              (hardware_encoders self) codecs in
  let current_value := video_codec (vars self) in
  if negb (existsb (String.eqb current_value) codecs)
  then (codecs, set_video_codec self "libx264")
  else (codecs, self).

(** *** The window: conversion of NCM files, the file dialogs

    What the callbacks below read and write of the object.  The text of
    the file-information box, which [get_file_info] fills, is not part of
    it; [self.root.update()] redraws and is taken to run no other
    callback. *)

Module Window.

Inductive box_kind : Type := showinfo | showwarning | showerror.

(** A [messagebox] that was shown. *)
Record box : Type := { kind : box_kind; title : string; message : string }.

Record State : Type := {
  gui : FFmpegGUI;                (* the language, the tables, the variables of the command *)
  format_var : string;
  is_processing : bool;
  progress_var : Z;
  progress_percent : string;
  status_label : string;
  process_btn : string;
  boxes : list box;               (* the message boxes shown so far, in order *)
  launched : list (list string)   (* the commands given to [subprocess.run] so far *)
}.

(** [self.input_file.set(value)], [self.output_file.set(value)] *)
Definition set_paths (g : FFmpegGUI) (input output : string) : FFmpegGUI :=
  let v := vars g in
  {| current_language := current_language g;
     hardware_acceleration := hardware_acceleration g;
     hardware_encoders := hardware_encoders g;
     vars :=
       {| input_file := input; output_file := output;
          hwaccel_var := hwaccel_var v; video_codec := video_codec v;
          resolution := resolution v; fps := fps v;
          audio_codec := audio_codec v; sample_rate := sample_rate v;
          channels := channels v; audio_bitrate := audio_bitrate v;
          enable_crop := enable_crop v; crop_params := crop_params v;
          enable_scale := enable_scale v; enable_rotate := enable_rotate v;
          rotate_angle := rotate_angle v; enable_volume := enable_volume v;
          volume_factor := volume_factor v; video_quality := video_quality v;
          custom_args := custom_args v |} |}.

Definition set_input_file (self : State) (value : string) : State :=
  {| gui := set_paths (gui self) value (output_file (vars (gui self)));
     format_var := format_var self; is_processing := is_processing self;
     progress_var := progress_var self; progress_percent := progress_percent self;
     status_label := status_label self; process_btn := process_btn self;
     boxes := boxes self; launched := launched self |}.

Definition set_output_file (self : State) (value : string) : State :=
  {| gui := set_paths (gui self) (input_file (vars (gui self))) value;
     format_var := format_var self; is_processing := is_processing self;
     progress_var := progress_var self; progress_percent := progress_percent self;
     status_label := status_label self; process_btn := process_btn self;
     boxes := boxes self; launched := launched self |}.

Definition set_format_var (self : State) (value : string) : State :=
  {| gui := gui self;
     format_var := value; is_processing := is_processing self;
     progress_var := progress_var self; progress_percent := progress_percent self;
     status_label := status_label self; process_btn := process_btn self;
     boxes := boxes self; launched := launched self |}.

(** [self.status_label.config(text=value)] *)
Definition set_status (self : State) (value : string) : State :=
  {| gui := gui self;
     format_var := format_var self; is_processing := is_processing self;
     progress_var := progress_var self; progress_percent := progress_percent self;
     status_label := value; process_btn := process_btn self;
     boxes := boxes self; launched := launched self |}.

(** [self.progress_var.set(value); self.progress_percent.set(percent)] *)
Definition set_progress (self : State) (value : Z) (percent : string) : State :=
  {| gui := gui self;
     format_var := format_var self; is_processing := is_processing self;
     progress_var := value; progress_percent := percent;
     status_label := status_label self; process_btn := process_btn self;
     boxes := boxes self; launched := launched self |}.

(** [messagebox.show...(title, message)] *)
Definition show (self : State) (kind : box_kind) (title message : string) : State :=
  {| gui := gui self;
     format_var := format_var self; is_processing := is_processing self;
     progress_var := progress_var self; progress_percent := progress_percent self;
     status_label := status_label self; process_btn := process_btn self;
     boxes := boxes self ++ [{| kind := kind; title := title; message := message |}];
     launched := launched self |}.

Definition launch (self : State) (cmd : list string) : State :=
  {| gui := gui self;
     format_var := format_var self; is_processing := is_processing self;
     progress_var := progress_var self; progress_percent := progress_percent self;
     status_label := status_label self; process_btn := process_btn self;
     boxes := boxes self; launched := launched self ++ [cmd] |}.

(** The [finally] of [convert_ncm_to_mp3]:
    [self.process_btn.config(text=...); self.is_processing = False] *)
Definition reset_button (self : State) (text : string) : State :=
  {| gui := gui self;
     format_var := format_var self; is_processing := false;
     progress_var := progress_var self; progress_percent := progress_percent self;
     status_label := status_label self; process_btn := text;
     boxes := boxes self; launched := launched self |}.

Section Callbacks.

(** [self.t]: the text of a key in the language of the window. *)
Variable t : string -> string.

(** As for [decrypt_ncm_fallback]: the digest, whether [Crypto.Cipher] can
    be imported, the directory for temporary files. *)
Variable md5_digest : list byte -> list byte.
Variable crypto_importable : bool.
Variable temp_dir : string.

(** [from ncmdump import dump; dump(input_file)]: [None] when the import
    fails, else the routine of the library with one argument, taken as it
    comes. *)
Variable dump : option (Os.filesystem -> string -> Os.filesystem * outcome string).

(** The executable behind [subprocess.run(cmd, ...)]. *)
Variable ffmpeg : Os.program.

(** The two handlers of [convert_ncm_to_mp3] and its [finally]. *)
Definition conversion_failed (self : State) (message : string) : State :=
  let self := set_status self "❌ 转换失败" in
  let self := show self showerror "错误" message in
  reset_button self (t "start_processing").

(** [convert_ncm_to_mp3]: the object and the files after the call;
    [uuid_hex] is the [uuid.uuid4().hex] of the fallback. *)
Definition convert_ncm_to_mp3 (uuid_hex : string) (self : State) (fs : Os.filesystem)
  : outcome (State * Os.filesystem) :=
  let input_file := input_file (vars (gui self)) in
  let output_file := output_file (vars (gui self)) in
  let self := set_status self "🔓 正在解密NCM文件..." in
  let self := set_progress self 10 "10%" in
  (* the inner [try]: the library, the fallback on [ImportError] *)
  let fallback (self : State) (fs : Os.filesystem) :=
    let self := set_status self "🔓 使用内置解密方法..." in
    (self, decrypt_ncm_fallback md5_digest crypto_importable temp_dir uuid_hex fs input_file) in
  let decrypted : State * (Os.filesystem * outcome string) :=
    match dump with
    | None => fallback self fs
    | Some dump =>
        match dump fs input_file with
        | (fs', Raises e) =>
            match exn_type e with
            | ImportError => fallback self fs'
            | _ => (self, (fs', Raises {| exn_type := PlainException;
                                          exn_str := "NCM解密失败: " +:+ exn_str e |}))
            end
        | result => (self, result)
        end
    end in
  match decrypted with
  | (self, (fs, Blocks)) => Blocks
  | (self, (fs, Raises e)) =>
      Returns (conversion_failed self ("NCM转MP3失败:" +:+ String "010" (exn_str e)), fs)
  | (self, (fs, Returns decrypted_file)) =>
      let self := set_progress self 50 "50%" in
      let self := set_status self "🔄 正在转换格式..." in
      let done (self : State) (fs : Os.filesystem) :=
        let self := set_progress self 100 "100%" in
        let self := set_status self "✅ NCM转MP3完成！" in
        let self := show self showinfo "完成"
                      ("NCM文件已成功转换为MP3:" +:+ String "010" output_file) in
        Returns (reset_button self (t "start_processing"), fs) in
      if negb (endswith (lower decrypted_file) ".mp3") then
        let cmd := ["ffmpeg"; "-i"; decrypted_file; "-codec:a"; "libmp3lame";
                    "-q:a"; "2"; "-y"; output_file] in
        let self := launch self cmd in
        let r := ffmpeg cmd fs in
        let fs := Os.after r in
        match Os.subprocess_run true None (Os.ends r) with
        | Returns result =>
            (* [try: os.remove(decrypted_file) except: pass] *)
            let fs := match Os.remove fs decrypted_file with
                      | Returns fs' => fs'
                      | _ => fs
                      end in
            done self fs
        | Raises e =>
            match exn_type e with
            | CalledProcessError =>
                Returns (conversion_failed self
                           ("FFmpeg转换失败:" +:+ String "010" (Os.stderr r)), fs)
            | _ =>
                Returns (conversion_failed self
                           ("NCM转MP3失败:" +:+ String "010" (exn_str e)), fs)
            end
        | Blocks => Blocks
        end
      else
        match Os.move fs decrypted_file output_file with
        | Returns fs => done self fs
        | Raises e =>
            Returns (conversion_failed self
                       ("NCM转MP3失败:" +:+ String "010" (exn_str e)), fs)
        | Blocks => Blocks
        end
  end.

(** [quick_ncm_to_mp3] *)
Definition quick_ncm_to_mp3 (uuid_hex : string) (self : State) (fs : Os.filesystem)
  : outcome (State * Os.filesystem) :=
  if negb (truthy (input_file (vars (gui self)))) then
    Returns (show self showerror (t "error") (t "select_input_file"), fs)
  else
    let input_file := input_file (vars (gui self)) in
    if negb (endswith (lower input_file) ".ncm") then
      Returns (show self showwarning "警告" "请选择.ncm文件", fs)
    else
      let base := fst (splitext input_file) in
      let output_file := base +:+ ".mp3" in
      let self := set_output_file self output_file in
      let self := set_format_var self "ncm_to_mp3" in
      convert_ncm_to_mp3 uuid_hex self fs.

End Callbacks.

(** How a Tk callback ends: it returns, or it dies with an exception,
    which Tk reports before it goes on with the main loop. *)
Inductive ending : Type :=
| returned
| UnboundLocalError (variable : string).

(** [browse_input_file] once the dialog has given [filename], the empty
    string when it was cancelled.  [hasattr(self, 'format_var')] holds. *)
Definition browse_input_file (filename : string) (self : State) : State :=
  if truthy filename then
    let self := set_input_file self filename in
    if negb (truthy (output_file (vars (gui self)))) then
      let (base, ext) := splitext filename in
      let output_ext := "." +:+ format_var self in
      set_output_file self (base +:+ "_converted" +:+ output_ext)
    else self
  else self.

(** [browse_output_file] once the dialog has given [filename].  [base]
    and [output_ext] are locals that only some branches assign. *)
Definition browse_output_file (filename : string) (self : State) : State * ending :=
  if truthy filename then
    let self := set_input_file self filename in
    let locals : option string * option string :=   (* base, output_ext *)
      if negb (truthy (output_file (vars (gui self)))) then
        let (base, ext) := splitext filename in
        if (lower ext =? ".ncm")%string then (Some base, Some ".mp3") else (Some base, None)
      else (None, Some ("." +:+ format_var self)) in
    match locals with
    | (None, _) => (self, UnboundLocalError "base")
    | (Some base, None) => (self, UnboundLocalError "output_ext")
    | (Some base, Some output_ext) =>
        let self := set_output_file self (base +:+ "_converted" +:+ output_ext) in
        let self := set_output_file self filename in
        (self, returned)
    end
  else (self, returned).

End Window.

(** *** The window: a job from the click to its completion

    [start_processing] starts a thread that runs [run_ffmpeg_command];
    [simulate_progress], [check_completion_status] and
    [verify_file_stable] re-arm themselves and each other with
    [self.root.after].  Each callback runs to its end before the next one
    begins, and so do the two parts of the thread, before and after its
    [subprocess.run].  The labels for the estimated time and for the file
    being processed are not part of the state. *)

Module Processing.

Record State : Type := {
  gui : FFmpegGUI;
  is_processing : bool;
  waiting_for_completion : bool;
  progress_check_count : Z;
  progress_var : Z;
  progress_percent : string;
  status_label : string;
  waiting_label : string;
  process_btn : string;
  command_preview : string;
  boxes : list Window.box;              (* the message boxes shown so far *)
  threads : list (list string);         (* the commands of the threads started so far *)
  simulate_scheduled : nat;             (* pending [after(500, self.simulate_progress)] *)
  completion_scheduled : list callback; (* pending checks of the output file *)
  completions : nat;                    (* how often [on_processing_complete] has run *)
  faulted : bool                        (* a callback died with an exception *)
}.

(** [self.is_processing], [self.waiting_for_completion],
    [self.progress_check_count] *)
Definition set_flags (self : State) (processing waiting : bool) (count : Z) : State :=
  {| gui := gui self;
     is_processing := processing; waiting_for_completion := waiting;
     progress_check_count := count;
     progress_var := progress_var self; progress_percent := progress_percent self;
     status_label := status_label self; waiting_label := waiting_label self;
     process_btn := process_btn self; command_preview := command_preview self;
     boxes := boxes self; threads := threads self;
     simulate_scheduled := simulate_scheduled self;
     completion_scheduled := completion_scheduled self;
     completions := completions self; faulted := faulted self |}.

(** [self.progress_var.set(value); self.progress_percent.set(percent)] *)
Definition set_progress (self : State) (value : Z) (percent : string) : State :=
  {| gui := gui self;
     is_processing := is_processing self;
     waiting_for_completion := waiting_for_completion self;
     progress_check_count := progress_check_count self;
     progress_var := value; progress_percent := percent;
     status_label := status_label self; waiting_label := waiting_label self;
     process_btn := process_btn self; command_preview := command_preview self;
     boxes := boxes self; threads := threads self;
     simulate_scheduled := simulate_scheduled self;
     completion_scheduled := completion_scheduled self;
     completions := completions self; faulted := faulted self |}.

(** The texts of the status label, the waiting label, the process button
    and the preview. *)
Definition set_labels (self : State) (status waiting button preview : string) : State :=
  {| gui := gui self;
     is_processing := is_processing self;
     waiting_for_completion := waiting_for_completion self;
     progress_check_count := progress_check_count self;
     progress_var := progress_var self; progress_percent := progress_percent self;
     status_label := status; waiting_label := waiting;
     process_btn := button; command_preview := preview;
     boxes := boxes self; threads := threads self;
     simulate_scheduled := simulate_scheduled self;
     completion_scheduled := completion_scheduled self;
     completions := completions self; faulted := faulted self |}.

Definition set_status (self : State) (text : string) : State :=
  set_labels self text (waiting_label self) (process_btn self) (command_preview self).

Definition set_waiting_label (self : State) (text : string) : State :=
  set_labels self (status_label self) text (process_btn self) (command_preview self).

Definition set_process_btn (self : State) (text : string) : State :=
  set_labels self (status_label self) (waiting_label self) text (command_preview self).

Definition set_preview (self : State) (text : string) : State :=
  set_labels self (status_label self) (waiting_label self) (process_btn self) text.

(** The message boxes, the threads, the pending callbacks, the two marks. *)
Definition set_rest (self : State) (boxes : list Window.box) (threads : list (list string))
  (simulate : nat) (completion : list callback) (completions : nat) (faulted : bool)
  : State :=
  {| gui := gui self;
     is_processing := is_processing self;
     waiting_for_completion := waiting_for_completion self;
     progress_check_count := progress_check_count self;
     progress_var := progress_var self; progress_percent := progress_percent self;
     status_label := status_label self; waiting_label := waiting_label self;
     process_btn := process_btn self; command_preview := command_preview self;
     boxes := boxes; threads := threads;
     simulate_scheduled := simulate;
     completion_scheduled := completion;
     completions := completions; faulted := faulted |}.

Definition show (self : State) (kind : Window.box_kind) (title message : string) : State :=
  set_rest self
    (boxes self ++ [{| Window.kind := kind; Window.title := title;
                       Window.message := message |}])
    (threads self) (simulate_scheduled self) (completion_scheduled self)
    (completions self) (faulted self).

(** [threading.Thread(target=self.run_ffmpeg_command, args=(cmd,)).start()] *)
Definition start_thread (self : State) (cmd : list string) : State :=
  set_rest self (boxes self) (threads self ++ [cmd]) (simulate_scheduled self)
    (completion_scheduled self) (completions self) (faulted self).

(** [self.root.after(500, self.simulate_progress)] *)
Definition schedule_simulate (self : State) : State :=
  set_rest self (boxes self) (threads self) (S (simulate_scheduled self))
    (completion_scheduled self) (completions self) (faulted self).

(** [self.root.after(..., self.check_completion_status)] or
    [self.root.after(1000, lambda: self.verify_file_stable(...))] *)
Definition schedule_completion (self : State) (c : callback) : State :=
  set_rest self (boxes self) (threads self) (simulate_scheduled self)
    (completion_scheduled self ++ [c]) (completions self) (faulted self).

Definition set_pending (self : State) (simulate : nat) (completion : list callback) : State :=
  set_rest self (boxes self) (threads self) simulate completion
    (completions self) (faulted self).

Definition mark (self : State) (completions : nat) (faulted : bool) : State :=
  set_rest self (boxes self) (threads self) (simulate_scheduled self)
    (completion_scheduled self) completions faulted.

Section Callbacks.

(** [self.t]: the text of a key in the language of the window. *)
Variable t : string -> string.

(** [update_preview] *)
Definition update_preview (self : State) : State :=
  match build_ffmpeg_command (gui self) with
  | None =>
      let self := show self Window.showerror (t "error") (t "select_input_output") in
      set_preview self ""
  | Some cmd =>
      match cmd with
      | [] => set_preview self ""
      | _ => set_preview self (join " " cmd)
      end
  end.

(** [on_processing_complete] *)
Definition on_processing_complete (self : State) : State :=
  let self := set_status self (t "completed") in
  let self := set_waiting_label self "" in
  let self := set_process_btn self (t "start_processing") in
  let self := set_progress self 100 "100%" in
  let self := show self Window.showinfo (t "success") (t "completed") in
  mark self (S (completions self)) (faulted self).

(** [check_completion_status], on what it observes of the output file:
    its size, or that it is not there. *)
Definition check_completion_status (self : State) (observed : option Z) : State :=
  if negb (is_processing self) then set_waiting_label self ""
  else
    match observed with
    | Some current_size => schedule_completion self (verify_stable current_size)
    | None => schedule_completion self check_completion
    end.

(** [verify_file_stable]; [os.path.getsize] raises when the file is not
    there. *)
Definition verify_file_stable (self : State) (previous_size : Z) (observed : option Z)
  : State :=
  if negb (is_processing self) then set_waiting_label self ""
  else
    match observed with
    | None => mark self (completions self) true
    | Some current_size =>
        if (current_size =? previous_size)%Z then
          let self := set_flags self (is_processing self) (waiting_for_completion self)
                        (progress_check_count self + 1) in
          if (progress_check_count self >=? 2)%Z then
            let self := set_flags self false (waiting_for_completion self)
                          (progress_check_count self) in
            on_processing_complete self
          else schedule_completion self (verify_stable current_size)
        else
          let self := set_flags self (is_processing self) (waiting_for_completion self) 0 in
          schedule_completion self check_completion
    end.

(** [simulate_progress] *)
Definition simulate_progress (self : State) : State :=
  let current_progress := progress_var self in
  if (current_progress <? 99)%Z && is_processing self then
    let new_progress := Z.min (current_progress + 2) 99 in
    let self := set_progress self new_progress (str_of_Z new_progress +:+ "%") in
    schedule_simulate self
  else if (current_progress >=? 99)%Z && is_processing self then
    if negb (waiting_for_completion self) then
      let self := set_flags self (is_processing self) true (progress_check_count self) in
      let self := set_waiting_label self (t "finalizing_processing") in
      let self := set_flags self (is_processing self) (waiting_for_completion self) 0 in
      schedule_completion self check_completion
    else self
  else self.

(** [run_ffmpeg_command], up to its [subprocess.run] *)
Definition run_ffmpeg_command_begins (self : State) : State :=
  let self := update_preview self in
  let self := set_status self (t "processing") in
  let self := set_flags self (is_processing self) false 0 in
  let self := set_waiting_label self "" in
  let self := set_progress self 0 "0%" in
  simulate_progress self.

(** The handlers of [run_ffmpeg_command] *)
Definition processing_failed (self : State) (message : string) : State :=
  let self := set_flags self false (waiting_for_completion self)
                (progress_check_count self) in
  let self := set_status self (t "failed") in
  let self := set_waiting_label self "" in
  let self := set_progress self 0 "0%" in
  show self Window.showerror (t "error") message.

(** [run_ffmpeg_command], from the end of its [subprocess.run]: [ended] is
    how the executable ended, [stderr] what it wrote to its standard
    error.  An executable that never ends never gets here. *)
Definition run_ffmpeg_command_ends (self : State) (ended : Os.behaviour) (stderr : string)
  : State :=
  match Os.subprocess_run true None ended with
  | Returns result =>
      if is_processing self then set_progress self 99 "99%" else self
  | Raises e =>
      match exn_type e with
      | CalledProcessError =>
          processing_failed self (t "failed" +:+ ":" +:+ String "010" stderr)
      | _ => processing_failed self (t "failed" +:+ ": " +:+ exn_str e)
      end
  | Blocks => self
  end.

(** [start_processing] *)
Definition start_processing (self : State) : State :=
  if is_processing self then self else
  let v := vars (gui self) in
  if negb (truthy (input_file v)) || negb (truthy (output_file v))
  then show self Window.showerror (t "error") (t "select_input_output")
  else
    let self := set_flags self true false 0 in
    let self := set_progress self 0 "0%" in
    let self := set_waiting_label self "" in
    let self := set_process_btn self (t "processing") in
    match build_ffmpeg_command (gui self) with
    | None => show self Window.showerror (t "error") (t "select_input_output")
    | Some [] => self
    | Some cmd => start_thread self cmd
    end.

(** What the main loop and the thread do to the window, step by step: a
    click on the process button, the thread getting to its
    [subprocess.run] and coming back from it, a pending
    [simulate_progress] running, the pending completion callback number
    [i] running on what it observes. *)
Inductive event : Type :=
| click_process
| thread_begins
| thread_ends (ended : Os.behaviour) (stderr : string)
| tick
| poll (i : nat) (observed : option Z).

Definition handle (self : State) (e : event) : State :=
  match e with
  | click_process => start_processing self
  | thread_begins => run_ffmpeg_command_begins self
  | thread_ends ended stderr => run_ffmpeg_command_ends self ended stderr
  | tick =>
      match simulate_scheduled self with
      | O => self
      | S n => simulate_progress (set_pending self n (completion_scheduled self))
      end
  | poll i observed =>
      match completion_scheduled self !! i with
      | None => self
      | Some c =>
          let self := set_pending self (simulate_scheduled self)
                        (delete i (completion_scheduled self)) in
          match c with
          | check_completion => check_completion_status self observed
          | verify_stable previous_size => verify_file_stable self previous_size observed
          end
      end
  end.

Definition handles (self : State) (events : list event) : State :=
  fold_left handle events self.

End Callbacks.

End Processing.

End V01.

(** ** V0.2: [HardwareDetector], [FFmpegCommandBuilder], [MainWindow]
       ([ffmpeggui.V0.2.py]) *)

Module V02.

(** [LanguageManager.languages] *)
Definition languages : list (string * list (string * string)) :=
  [ ("zh_CN", Lang.zh_CN_common ++ Lang.zh_CN_custom);
    ("en_US", Lang.en_US_common ++ Lang.en_US_custom) ].

(** [LanguageManager.get_text]:
    [self.languages.get(language, {}).get(key, key)] *)
Definition get_text (language key : string) : string :=
  default key (dict_get (default [] (dict_get languages language)) key).

(** *** [HardwareDetector] *)

Record info : Type := { name : string; supported : bool }.

Record HardwareDetector : Type := {
  hardware_acceleration : list (string * info);
  hardware_encoders : list (string * info)
}.

Definition hwaccels_to_check : list (string * string) :=
  [ ("cuda", "NVIDIA CUDA");
    ("qsv", "Intel Quick Sync");
    ("vaapi", "VA-API");
    ("d3d11va", "Direct3D 11");
    ("videotoolbox", "Apple VideoToolbox");
    ("amf", "AMD AMF") ].

Definition encoder_mapping : list (string * string) :=
  [ ("h264_nvenc", "NVIDIA H.264");
    ("hevc_nvenc", "NVIDIA H.265");
    ("h264_qsv", "Intel H.264");
    ("hevc_qsv", "Intel H.265");
    ("h264_amf", "AMD H.264");
    ("hevc_amf", "AMD H.265");
    ("h264_vaapi", "VA-API H.264");
    ("hevc_vaapi", "VA-API H.265");
    ("h264_videotoolbox", "VideoToolbox H.264");
    ("hevc_videotoolbox", "VideoToolbox H.265") ].

(** [for key, display_name in table.items(): d[key] = {"name":
    display_name, "supported": test(key)}] *)
Definition fill (table : list (string * string)) (test : string -> bool)
  (d : list (string * info)) : list (string * info) :=
  fold_left (fun d entry =>
               dict_set d (fst entry) {| name := snd entry; supported := test (fst entry) |})
            table d.

(** [_mark_all_unsupported] *)
Definition _mark_all_unsupported (self : HardwareDetector)
  (hwaccels_to_check : list (string * string)) : HardwareDetector :=
  {| hardware_acceleration :=
       fill hwaccels_to_check (fun _ => false) (hardware_acceleration self);
     hardware_encoders := hardware_encoders self |}.

(** [_mark_all_encoders_unsupported] *)
Definition _mark_all_encoders_unsupported (self : HardwareDetector)
  (encoder_mapping : list (string * string)) : HardwareDetector :=
  {| hardware_acceleration := hardware_acceleration self;
     hardware_encoders :=
       fill encoder_mapping (fun _ => false) (hardware_encoders self) |}.

(** [detect_hardware_acceleration]: no [check], [timeout=10]; the handler
    is [except (subprocess.TimeoutExpired, Exception)]. *)
Definition detect_hardware_acceleration (self : HardwareDetector) (ffmpeg : Os.behaviour)
  : outcome HardwareDetector :=
  let self := {| hardware_acceleration := [];
                 hardware_encoders := hardware_encoders self |} in
  match Os.subprocess_run false (Some 10%Z) ffmpeg with
  | Returns result =>
      if (Os.returncode result =? 0)%Z then
        let output := lower (Os.stdout result) in
        Returns {| hardware_acceleration :=
                     fill hwaccels_to_check (fun hwaccel => contains hwaccel output)
                       (hardware_acceleration self);
                   hardware_encoders := hardware_encoders self |}
      else Returns (_mark_all_unsupported self hwaccels_to_check)
  | Raises e => Returns (_mark_all_unsupported self hwaccels_to_check)
  | Blocks => Blocks
  end.

(** The pattern [rf'^\s*V\S*\s+{encoder}\s'], without its leading [^]. *)
Definition encoder_pattern (encoder : string) : Regex.re :=
  Regex.Cat (Regex.Star Regex.space)
    (Regex.Cat (Regex.chr "V")
       (Regex.Cat (Regex.Star Regex.nonspace)
          (Regex.Cat (Regex.plus Regex.space)
             (Regex.Cat (Regex.lit (list_ascii_of_string encoder)) Regex.space)))).

(** [detect_hardware_encoders] *)
Definition detect_hardware_encoders (self : HardwareDetector) (ffmpeg : Os.behaviour)
  : outcome HardwareDetector :=
  let self := {| hardware_acceleration := hardware_acceleration self;
                 hardware_encoders := [] |} in
  match Os.subprocess_run false (Some 10%Z) ffmpeg with
  | Returns result =>
      if (Os.returncode result =? 0)%Z then
        let output := Os.stdout result in
        Returns {| hardware_acceleration := hardware_acceleration self;
                   hardware_encoders :=
                     fill encoder_mapping
                       (fun encoder =>
                          Regex.search_bol_multiline (encoder_pattern encoder) output)
                       (hardware_encoders self) |}
      else Returns (_mark_all_encoders_unsupported self encoder_mapping)
  | Raises e => Returns (_mark_all_encoders_unsupported self encoder_mapping)
  | Blocks => Blocks
  end.

(** [detect_all]: the two detections in turn, each with its own launch of
    the executable. *)
Definition detect_all (self : HardwareDetector) (hwaccels encoders : Os.behaviour)
  : outcome HardwareDetector :=
  match detect_hardware_acceleration self hwaccels with
  | Returns self => detect_hardware_encoders self encoders
  | Raises e => Raises e
  | Blocks => Blocks
  end.

(** *** [FFmpegCommandBuilder] *)

(** [FFmpegCommandBuilder._t] *)
Definition _t (key : string) : string := get_text "zh_CN" key.

(** The [params] dict of [build_command].  Its keys are fixed, so it is
    a record: a text key read with [params.get] is an [option string]
    ([None] when the key is missing), a toggle is a [bool] (a missing
    toggle is false), and the two keys read with [params[...]] are always
    there. *)
Record Params : Type := {
  input_file : string;
  output_file : string;
  video_codec : option string;
  audio_codec : option string;
  resolution : option string;
  custom_resolution : option string;
  fps : option string;
  custom_fps : option string;
  sample_rate : option string;
  custom_sample_rate : option string;
  channels : option string;
  bitrate : option string;
  custom_bitrate : option string;
  video_quality : option string;
  hwaccel : option string;
  crop_enabled : bool;
  crop_params : option string;
  scale_enabled : bool;
  rotate_enabled : bool;
  rotate_angle : option string;
  volume_enabled : bool;
  volume_factor : option string;
  custom_args : option string
}.

Definition hwaccel_mapping : list (string * string) :=
  [ (_t "hwaccel_cuda", "cuda");
    (_t "hwaccel_qsv", "qsv");
    (_t "hwaccel_vaapi", "vaapi");
    (_t "hwaccel_d3d11va", "d3d11va");
    (_t "hwaccel_videotoolbox", "videotoolbox");
    (_t "hwaccel_amf", "amf") ].

Definition _get_hwaccel_internal_name (hwaccel_display : string) : option string :=
  if (hwaccel_display =? _t "hwaccel_none")%string || negb (truthy hwaccel_display)
  then None
  else dict_get hwaccel_mapping hwaccel_display.

Definition _get_resolution (params : Params) : option string :=
  let resolution := default "" (resolution params) in
  let custom_resolution := default "" (custom_resolution params) in
  if (resolution =? _t "custom_resolution")%string && truthy custom_resolution
  then Some custom_resolution
  else if negb (existsb (String.eqb resolution)
                  [_t "original_resolution"; _t "custom_resolution"])
  then Some resolution
  else None.

Definition _get_fps (params : Params) : option string :=
  let fps := default "" (fps params) in
  let custom_fps := default "" (custom_fps params) in
  if (fps =? _t "custom_fps")%string && truthy custom_fps
  then Some custom_fps
  else if negb (existsb (String.eqb fps) [_t "original_fps"; _t "custom_fps"])
  then Some fps
  else None.

Definition _get_sample_rate (params : Params) : option string :=
  let sample_rate := default "" (sample_rate params) in
  let custom_sample_rate := default "" (custom_sample_rate params) in
  if (sample_rate =? _t "custom_sample_rate")%string && truthy custom_sample_rate
  then Some custom_sample_rate
  else if negb (sample_rate =? _t "custom_sample_rate")%string
  then Some sample_rate
  else None.

Definition _get_bitrate (params : Params) : option string :=
  let bitrate := default "" (bitrate params) in
  let custom_bitrate := default "" (custom_bitrate params) in
  if (bitrate =? _t "custom_bitrate")%string && truthy custom_bitrate
  then Some custom_bitrate
  else if negb (bitrate =? _t "custom_bitrate")%string
  then Some bitrate
  else None.

Definition _build_video_filters (params : Params) : list string :=
  let filters := [] in
  let filters :=
    if crop_enabled params
    then filters ++ ["crop=" +:+ default "iw:ih:0:0" (crop_params params)]
    else filters in
  let filters :=
    if scale_enabled params
    then match _get_resolution params with
         | Some resolution =>
             if truthy resolution
             then filters ++ ["scale=" +:+ replace resolution "x" ":"]
             else filters
         | None => filters
         end
    else filters in
  let filters :=
    if rotate_enabled params
    then filters ++ ["transpose=" +:+ default "90" (rotate_angle params)]
    else filters in
  filters.

Definition _build_audio_filters (params : Params) : list string :=
  let filters := [] in
  let filters :=
    if volume_enabled params
    then filters ++ ["volume=" +:+ default "1.0" (volume_factor params)]
    else filters in
  filters.

Definition _get_quality_params (params : Params) : list string :=
  let video_quality := default "" (video_quality params) in
  if (video_quality =? _t "high_quality")%string
  then ["-crf"; "18"; "-preset"; "slow"]
  else if (video_quality =? _t "medium_quality")%string
  then ["-crf"; "23"; "-preset"; "medium"]
  else if (video_quality =? _t "low_quality")%string
  then ["-crf"; "28"; "-preset"; "fast"]
  else [].

(** [if x := e: cmd.extend([flag, x])] for an [Optional[str]] [e]. *)
Definition extend_if (cmd : list string) (flag : string) (value : option string) : list string :=
  match value with
  | Some x => if truthy x then cmd ++ [flag; x] else cmd
  | None => cmd
  end.

(** [FFmpegCommandBuilder.build_command]: [cmd] is the list the method
    grows, statement by statement. *)
Definition build_command (params : Params) : list string :=
  let cmd := ["ffmpeg"] in
  let hwaccel_display := default "" (hwaccel params) in
  let hwaccel_internal := _get_hwaccel_internal_name hwaccel_display in
  let cmd := extend_if cmd "-hwaccel" hwaccel_internal in
  let cmd := cmd ++ ["-i"; input_file params] in
  let cmd := cmd ++ ["-y"] in
  let cmd :=
    match video_codec params with
    | Some codec =>
        if truthy codec && negb (codec =? "copy")%string
        then cmd ++ ["-c:v"; codec]
        else cmd
    | None => cmd
    end in
  let cmd := extend_if cmd "-s" (_get_resolution params) in
  let cmd := extend_if cmd "-r" (_get_fps params) in
  let cmd := extend_if cmd "-c:a" (audio_codec params) in
  let cmd := extend_if cmd "-ar" (_get_sample_rate params) in
  let cmd := extend_if cmd "-ac" (channels params) in
  let cmd := extend_if cmd "-b:a" (_get_bitrate params) in
  let cmd :=
    match _build_video_filters params with
    | [] => cmd
    | vf_filters => cmd ++ ["-vf"; join "," vf_filters]
    end in
  let cmd :=
    match _build_audio_filters params with
    | [] => cmd
    | af_filters => cmd ++ ["-af"; join "," af_filters]
    end in
  let cmd :=
    match _get_quality_params params with
    | [] => cmd
    | quality_params => cmd ++ quality_params
    end in
  let cmd :=
    match custom_args params with
    | Some args => if truthy args then cmd ++ split args else cmd
    | None => cmd
    end in
  cmd ++ [output_file params].

(** *** [MainWindow] *)

(** The window holds the detector and the widgets; [widgets] is what the
    dict literal of [build_ffmpeg_command] reads from them. *)
Record MainWindow : Type := {
  hardware_detector : HardwareDetector;
  widgets : Params
}.

(** [MainWindow.build_ffmpeg_command]: the guard on the two paths ([None]
    after the error box), then the builder on the values of the widgets. *)
Definition build_ffmpeg_command (self : MainWindow) : option (list string) :=
  let params := widgets self in
  if negb (truthy (input_file params)) || negb (truthy (output_file params))
  then None
  else Some (build_command params).

(** *** [NCMDecoder] *)

Section Ncm.

(** [ncmdump.dump(input_path, output_path)] when the import at the head of
    the file succeeded ([NCM_AVAILABLE]); a routine of a library, taken as
    it comes.  The directory of [tempfile.gettempdir()]. *)
Variable ncmdump :
  option (Os.filesystem -> string -> string -> Os.filesystem * outcome string).
Variable temp_dir : string.

(** [NCMDecoder.decrypt_ncm_file]: the files after the call and its
    outcome; [uuid_hex] is the [uuid.uuid4().hex] of this call. *)
Definition decrypt_ncm_file (uuid_hex : string) (fs : Os.filesystem)
  (ncm_file_path : string) : Os.filesystem * outcome string :=
  match ncmdump with
  | None =>
      (fs, Raises {| exn_type := PlainException;
                     exn_str := "ncmdump库未安装，无法解密NCM文件" |})
  | Some dump =>
      let output_filename := "ncm_decrypted_" +:+ uuid_hex in
      let output_path := Os.path_join temp_dir output_filename in
      let body : Os.filesystem * outcome string :=
        match dump fs ncm_file_path output_path with
        | (fs', Returns _) =>
            match fs' !! output_path with
            | Some _ => (fs', Returns output_path)
            | None => (fs', Raises {| exn_type := PlainException;
                                      exn_str := "解密后的文件未生成" |})
            end
        | (fs', Raises e) => (fs', Raises e)
        | (fs', Blocks) => (fs', Blocks)
        end in
      match body with
      | (fs', Raises e) =>
          (fs', Raises {| exn_type := PlainException;
                          exn_str := "NCM文件解密失败: " +:+ exn_str e |})
      | result => result
      end
  end.

End Ncm.

(** *** [HardwareDetector]: what the window asks of the tables

    [HardwareDetector._t] is the [_t] of the builder: the text of the key
    in [zh_CN]. *)

(** [get_hwaccel_options] *)
Definition get_hwaccel_options (self : HardwareDetector) : list string :=
  let options := [_t "hwaccel_none"] in
  fold_left (fun options entry =>
               if supported (snd entry) then options ++ [name (snd entry)] else options)
            (hardware_acceleration self) options.


(** *** The window: its processing state, the worker, the conversions

    What the slots below read and write of the window ([class FFmpegGUI]
    of this file).  The attribute [self.input_file] is written and never
    read, and the file-information box is filled by [FileProcessor]; both
    are left out.  [QApplication.processEvents()] redraws and is taken to
    run no other slot. *)

Module Window.

Inductive box_kind : Type := information | warning | critical.

(** A [QMessageBox] that was shown. *)
Record box : Type := { kind : box_kind; title : string; text : string }.

Record State : Type := {
  main : MainWindow;               (* the detector, and the widgets that the command reads *)
  format_combo : string;           (* [format_conversion_tab.format_combo.currentText()] *)
  is_processing : bool;
  progress_bar : Z;                (* [progress_widget.progress_bar.value()] *)
  status_label : string;
  process_btn : string;
  command_preview_text : string;
  progress_timer : bool;           (* the timer is running *)
  boxes : list box;                (* the message boxes shown so far, in order *)
  workers : list (list string);    (* the commands of the workers started so far *)
  launched : list (list string)    (* the commands given to [subprocess.run] so far *)
}.

(** [file_operations_tab.output_file_edit.setText(value)] *)
Definition set_output (p : Params) (value : string) : Params :=
  {| input_file := input_file p; output_file := value;
     video_codec := video_codec p; audio_codec := audio_codec p;
     resolution := resolution p; custom_resolution := custom_resolution p;
     fps := fps p; custom_fps := custom_fps p;
     sample_rate := sample_rate p; custom_sample_rate := custom_sample_rate p;
     channels := channels p;
     bitrate := bitrate p; custom_bitrate := custom_bitrate p;
     video_quality := video_quality p; hwaccel := hwaccel p;
     crop_enabled := crop_enabled p; crop_params := crop_params p;
     scale_enabled := scale_enabled p;
     rotate_enabled := rotate_enabled p; rotate_angle := rotate_angle p;
     volume_enabled := volume_enabled p; volume_factor := volume_factor p;
     custom_args := custom_args p |}.

Definition set_output_file (self : State) (value : string) : State :=
  {| main := {| hardware_detector := hardware_detector (main self);
                widgets := set_output (widgets (main self)) value |};
     format_combo := format_combo self; is_processing := is_processing self;
     progress_bar := progress_bar self; status_label := status_label self;
     process_btn := process_btn self;
     command_preview_text := command_preview_text self;
     progress_timer := progress_timer self;
     boxes := boxes self; workers := workers self; launched := launched self |}.

(** [format_combo.setCurrentText(value)] for a [value] that the combo
    holds. *)
Definition set_format (self : State) (value : string) : State :=
  {| main := main self;
     format_combo := value; is_processing := is_processing self;
     progress_bar := progress_bar self; status_label := status_label self;
     process_btn := process_btn self;
     command_preview_text := command_preview_text self;
     progress_timer := progress_timer self;
     boxes := boxes self; workers := workers self; launched := launched self |}.

Definition set_is_processing (self : State) (value : bool) : State :=
  {| main := main self;
     format_combo := format_combo self; is_processing := value;
     progress_bar := progress_bar self; status_label := status_label self;
     process_btn := process_btn self;
     command_preview_text := command_preview_text self;
     progress_timer := progress_timer self;
     boxes := boxes self; workers := workers self; launched := launched self |}.

(** [QProgressBar.setValue] with the range 0 to 100 that the bar is
    created with: a value outside the range changes nothing. *)
Definition setValue (self : State) (value : Z) : State :=
  {| main := main self;
     format_combo := format_combo self; is_processing := is_processing self;
     progress_bar :=
       if (0 <=? value)%Z && (value <=? 100)%Z then value else progress_bar self;
     status_label := status_label self;
     process_btn := process_btn self;
     command_preview_text := command_preview_text self;
     progress_timer := progress_timer self;
     boxes := boxes self; workers := workers self; launched := launched self |}.

Definition set_status (self : State) (value : string) : State :=
  {| main := main self;
     format_combo := format_combo self; is_processing := is_processing self;
     progress_bar := progress_bar self; status_label := value;
     process_btn := process_btn self;
     command_preview_text := command_preview_text self;
     progress_timer := progress_timer self;
     boxes := boxes self; workers := workers self; launched := launched self |}.

Definition set_process_btn (self : State) (value : string) : State :=
  {| main := main self;
     format_combo := format_combo self; is_processing := is_processing self;
     progress_bar := progress_bar self; status_label := status_label self;
     process_btn := value;
     command_preview_text := command_preview_text self;
     progress_timer := progress_timer self;
     boxes := boxes self; workers := workers self; launched := launched self |}.

Definition set_preview (self : State) (value : string) : State :=
  {| main := main self;
     format_combo := format_combo self; is_processing := is_processing self;
     progress_bar := progress_bar self; status_label := status_label self;
     process_btn := process_btn self;
     command_preview_text := value;
     progress_timer := progress_timer self;
     boxes := boxes self; workers := workers self; launched := launched self |}.

Definition set_timer (self : State) (value : bool) : State :=
  {| main := main self;
     format_combo := format_combo self; is_processing := is_processing self;
     progress_bar := progress_bar self; status_label := status_label self;
     process_btn := process_btn self;
     command_preview_text := command_preview_text self;
     progress_timer := value;
     boxes := boxes self; workers := workers self; launched := launched self |}.

(** [QMessageBox.information/warning/critical(self, title, text)] *)
Definition show (self : State) (kind : box_kind) (title text : string) : State :=
  {| main := main self;
     format_combo := format_combo self; is_processing := is_processing self;
     progress_bar := progress_bar self; status_label := status_label self;
     process_btn := process_btn self;
     command_preview_text := command_preview_text self;
     progress_timer := progress_timer self;
     boxes := boxes self ++ [{| kind := kind; title := title; text := text |}];
     workers := workers self; launched := launched self |}.

(** [self.ffmpeg_thread = FFmpegWorker(cmd); ...; self.ffmpeg_thread.start()] *)
Definition start_worker (self : State) (cmd : list string) : State :=
  {| main := main self;
     format_combo := format_combo self; is_processing := is_processing self;
     progress_bar := progress_bar self; status_label := status_label self;
     process_btn := process_btn self;
     command_preview_text := command_preview_text self;
     progress_timer := progress_timer self;
     boxes := boxes self; workers := workers self ++ [cmd]; launched := launched self |}.

Definition launch (self : State) (cmd : list string) : State :=
  {| main := main self;
     format_combo := format_combo self; is_processing := is_processing self;
     progress_bar := progress_bar self; status_label := status_label self;
     process_btn := process_btn self;
     command_preview_text := command_preview_text self;
     progress_timer := progress_timer self;
     boxes := boxes self; workers := workers self; launched := launched self ++ [cmd] |}.

(** **** [FFmpegWorker] *)

Inductive signal : Type :=
| progress_updated (value : Z)
| status_updated (status : string)
| finished_signal (success : bool) (message : string).

(** [FFmpegWorker.run]: the signals it emits, in order.  [stopped_after]
    is the number of lines of output that had been read when [stop] was
    called, if it was; the next line that arrives makes the loop
    terminate the process, which then has the return code
    [returncode_terminated].  There is no timeout: the loop and [wait]
    last as long as the process does. *)
Definition run (stopped_after : option nat) (returncode_terminated : Z)
  (process : Os.behaviour) : outcome (list signal) :=
  let emitted := [status_updated "处理中..."] in
  match process with
  | Os.Fails e =>
      Returns (emitted ++ [finished_signal false ("处理异常: " +:+ exn_str e)])
  | Os.Hangs => Blocks
  | Os.Exits rc out =>
      let returncode :=
        match stopped_after with
        | Some n => if (n <? count_lines out)%nat then returncode_terminated else rc
        | None => rc
        end in
      if (returncode =? 0)%Z
      then Returns (emitted ++ [finished_signal true "处理完成"])
      else Returns (emitted ++
                    [finished_signal false ("处理失败，返回码: " +:+ str_of_Z returncode)])
  end.

Section Slots.

(** [self.t]: the text of a key in the language of the window. *)
Variable t : string -> string.

(** [update_preview] *)
Definition update_preview (self : State) : State :=
  match build_ffmpeg_command (main self) with
  | None => show self critical (t "error") (t "select_input_output")
  | Some cmd =>
      match cmd with
      | [] => self
      | _ => set_preview self (join " " cmd)
      end
  end.

(** The common part of [start_processing] and
    [run_ffmpeg_command_direct]. *)
Definition run_ffmpeg_command_direct (self : State) (cmd : list string) : State :=
  let self := set_is_processing self true in
  let self := set_process_btn self (t "processing") in
  let self := set_status self (t "processing") in
  let self := setValue self 0 in
  let self := start_worker self cmd in
  set_timer self true.

(** [start_processing] *)
Definition start_processing (self : State) : State :=
  if is_processing self then self else
  let params := widgets (main self) in
  if negb (truthy (input_file params)) || negb (truthy (output_file params))
  then show self critical (t "error") (t "select_input_output")
  else
    match build_ffmpeg_command (main self) with
    | None => show self critical (t "error") (t "select_input_output")
    | Some [] => self
    | Some cmd => run_ffmpeg_command_direct self cmd
    end.

(** [simulate_progress], the slot of the timer *)
Definition simulate_progress (self : State) : State :=
  if negb (is_processing self) then set_timer self false else
  let current_value := progress_bar self in
  if (current_value <? 90)%Z
  then setValue self (Z.min (current_value + 5) 90)
  else self.

(** [update_progress], [update_status] *)
Definition update_progress (self : State) (value : Z) : State := setValue self value.

Definition update_status (self : State) (status : string) : State := set_status self status.

(** [on_processing_finished] *)
Definition on_processing_finished (self : State) (success : bool) (message : string) : State :=
  let self := set_is_processing self false in
  let self := set_process_btn self (t "start_processing") in
  let self := setValue self (if success then 100 else 0) in
  if success then
    let self := set_status self (t "completed") in
    show self information (t "success") (t "completed")
  else
    let self := set_status self (t "failed") in
    show self critical (t "error") message.

(** A signal of the worker arrives at the slot it is connected to. *)
Definition deliver (self : State) (s : signal) : State :=
  match s with
  | progress_updated value => update_progress self value
  | status_updated status => update_status self status
  | finished_signal success message => on_processing_finished self success message
  end.

(** [on_input_file_changed], the slot of the input line: [text] is what
    the line holds now. *)
Definition on_input_file_changed (text : string) (self : State) : State :=
  if truthy text && negb (truthy (output_file (widgets (main self)))) then
    let (base, ext) := splitext text in
    let output_ext := "." +:+ format_combo self in
    set_output_file self (base +:+ "_converted" +:+ output_ext)
  else self.

(** [extract_audio], [extract_video] once the dialog has given
    [output_path], the empty string when it was cancelled. *)
Definition extract_audio (output_path : string) (self : State) : State :=
  let input_file := input_file (widgets (main self)) in
  if negb (truthy input_file)
  then show self critical (t "error") (t "select_input_file")
  else if truthy output_path then
    let self := set_output_file self output_path in
    run_ffmpeg_command_direct self
      ["ffmpeg"; "-i"; input_file; "-vn"; "-c:a"; "mp3"; "-b:a"; "192k"; "-y"; output_path]
  else self.

Definition extract_video (output_path : string) (self : State) : State :=
  let input_file := input_file (widgets (main self)) in
  if negb (truthy input_file)
  then show self critical (t "error") (t "select_input_file")
  else if truthy output_path then
    let self := set_output_file self output_path in
    run_ffmpeg_command_direct self
      ["ffmpeg"; "-i"; input_file; "-an"; "-c:v"; "copy"; "-y"; output_path]
  else self.

(** As for [NCMDecoder.decrypt_ncm_file]: the routine of the library when
    it could be imported, the directory for temporary files; and the
    executable behind [subprocess.run(cmd, ...)]. *)
Variable ncmdump :
  option (Os.filesystem -> string -> string -> Os.filesystem * outcome string).
Variable temp_dir : string.
Variable ffmpeg : Os.program.

(** The [finally] of [convert_ncm_to_mp3] *)
Definition finally (self : State) : State :=
  let self := set_process_btn self (t "start_processing") in
  set_is_processing self false.

(** The handler [except Exception as e] of [convert_ncm_to_mp3] *)
Definition decryption_failed (self : State) (e : exn) : State :=
  let self := set_status self (t "failed") in
  show self critical (t "error")
    (t "ncm_decryption_failed" +:+ ":" +:+ String "010" (exn_str e)).

(** [convert_ncm_to_mp3]: the window and the files after the call;
    [uuid_hex] is the [uuid.uuid4().hex] of the decoder. *)
Definition convert_ncm_to_mp3 (uuid_hex : string) (self : State) (fs : Os.filesystem)
  : outcome (State * Os.filesystem) :=
  let input_file := input_file (widgets (main self)) in
  let output_file := output_file (widgets (main self)) in
  let self := set_status self (t "decrypting_ncm") in
  let self := setValue self 10 in
  match decrypt_ncm_file ncmdump temp_dir uuid_hex fs input_file with
  | (fs, Blocks) => Blocks
  | (fs, Raises e) => Returns (finally (decryption_failed self e), fs)
  | (fs, Returns decrypted_file) =>
      if negb (truthy decrypted_file) || negb (Os.exists_ fs decrypted_file) then
        Returns (finally (decryption_failed self
                            {| exn_type := PlainException; exn_str := "解密失败" |}), fs)
      else
        let self := setValue self 50 in
        let self := set_status self (t "converting_to_mp3") in
        let cmd := ["ffmpeg"; "-i"; decrypted_file; "-codec:a"; "libmp3lame";
                    "-q:a"; "2"; "-y"; output_file] in
        let self := launch self cmd in
        let r := ffmpeg cmd fs in
        let fs := Os.after r in
        match Os.subprocess_run true None (Os.ends r) with
        | Returns result =>
            (* [try: os.remove(decrypted_file) except: pass] *)
            let fs := match Os.remove fs decrypted_file with
                      | Returns fs' => fs'
                      | _ => fs
                      end in
            let self := setValue self 100 in
            let self := set_status self (t "ncm_conversion_complete") in
            let self := show self information (t "success")
                          (t "ncm_conversion_complete" +:+ ":" +:+ String "010" output_file) in
            Returns (finally self, fs)
        | Raises e =>
            match exn_type e with
            | CalledProcessError =>
                let self := set_status self (t "failed") in
                let self := show self critical (t "error")
                              ("FFmpeg转换失败:" +:+ String "010"
                               (if truthy (Os.stderr r) then Os.stderr r else "未知错误")) in
                Returns (finally self, fs)
            | _ => Returns (finally (decryption_failed self e), fs)
            end
        | Blocks => Blocks
        end
  end.

(** [quick_ncm_to_mp3] *)
Definition quick_ncm_to_mp3 (uuid_hex : string) (self : State) (fs : Os.filesystem)
  : outcome (State * Os.filesystem) :=
  let input_file := input_file (widgets (main self)) in
  if negb (truthy input_file) then
    Returns (show self critical (t "error") (t "select_input_file"), fs)
  else if negb (endswith (lower input_file) ".ncm") then
    Returns (show self warning (t "warning") "请选择.ncm文件", fs)
  else
    let base := fst (splitext input_file) in
    let output_file := base +:+ ".mp3" in
    let self := set_output_file self output_file in
    let self := set_format self "ncm_to_mp3" in
    convert_ncm_to_mp3 uuid_hex self fs.

(** [convert_format] *)
Definition convert_format (uuid_hex : string) (self : State) (fs : Os.filesystem)
  : outcome (State * Os.filesystem) :=
  let input_file := input_file (widgets (main self)) in
  if negb (truthy input_file) then
    Returns (show self critical (t "error") (t "select_input_file"), fs)
  else if (format_combo self =? "ncm_to_mp3")%string then
    if negb (endswith (lower input_file) ".ncm") then
      Returns (show self warning (t "warning") "NCM转MP3功能只能处理.ncm文件", fs)
    else
      let self :=
        if negb (truthy (output_file (widgets (main self)))) then
          let base := fst (splitext input_file) in
          set_output_file self (base +:+ ".mp3")
        else self in
      convert_ncm_to_mp3 uuid_hex self fs
  else
    let self :=
      if truthy (output_file (widgets (main self))) then
        let base := fst (splitext (output_file (widgets (main self)))) in
        let new_output := base +:+ "." +:+ format_combo self in
        set_output_file self new_output
      else self in
    Returns (start_processing self, fs).

End Slots.

End Window.

End V02.

(** ** The flag groups of a command

    What each statement of the builders contributes to [cmd], as a
    function of the request.  [V02_groups_eq] and [V01_groups_eq] below
    show that the built command is their concatenation. *)

Module Groups02.
Import V02.

Definition hwaccel_args (p : Params) : list string :=
  extend_if [] "-hwaccel" (_get_hwaccel_internal_name (default "" (hwaccel p))).

Definition video_codec_args (p : Params) : list string :=
  match video_codec p with
  | Some codec => if truthy codec && negb (codec =? "copy")%string then ["-c:v"; codec] else []
  | None => []
  end.

Definition resolution_args (p : Params) : list string := extend_if [] "-s" (_get_resolution p).
Definition fps_args (p : Params) : list string := extend_if [] "-r" (_get_fps p).
Definition audio_codec_args (p : Params) : list string := extend_if [] "-c:a" (audio_codec p).
Definition sample_rate_args (p : Params) : list string := extend_if [] "-ar" (_get_sample_rate p).
Definition channels_args (p : Params) : list string := extend_if [] "-ac" (channels p).
Definition bitrate_args (p : Params) : list string := extend_if [] "-b:a" (_get_bitrate p).

Definition vf_args (p : Params) : list string :=
  match _build_video_filters p with
  | [] => []
  | vf_filters => ["-vf"; join "," vf_filters]
  end.

Definition af_args (p : Params) : list string :=
  match _build_audio_filters p with
  | [] => []
  | af_filters => ["-af"; join "," af_filters]
  end.

Definition quality_args (p : Params) : list string := _get_quality_params p.

Definition extra_args (p : Params) : list string :=
  match custom_args p with
  | Some args => if truthy args then split args else []
  | None => []
  end.

(** The command, group after group. *)
Definition grouped (p : Params) : list string :=
  ["ffmpeg"] ++ hwaccel_args p ++ ["-i"; input_file p] ++ ["-y"] ++
  video_codec_args p ++ resolution_args p ++ fps_args p ++
  audio_codec_args p ++ sample_rate_args p ++ channels_args p ++ bitrate_args p ++
  vf_args p ++ af_args p ++ quality_args p ++ extra_args p ++ [output_file p].

End Groups02.

Module Groups01.
Import V01.

Definition hwaccel_args (g : FFmpegGUI) : list string :=
  let t := t (current_language g) in
  let hwaccel := hwaccel_var (vars g) in
  if negb (hwaccel =? t "hwaccel_none")%string then
    if (hwaccel =? t "hwaccel_cuda")%string then ["-hwaccel"; "cuda"]
    else if (hwaccel =? t "hwaccel_qsv")%string then ["-hwaccel"; "qsv"]
    else if (hwaccel =? t "hwaccel_vaapi")%string then ["-hwaccel"; "vaapi"]
    else if (hwaccel =? t "hwaccel_d3d11va")%string then ["-hwaccel"; "d3d11va"]
    else if (hwaccel =? t "hwaccel_videotoolbox")%string then ["-hwaccel"; "videotoolbox"]
    else if (hwaccel =? t "hwaccel_amf")%string then ["-hwaccel"; "amf"]
    else []
  else [].

Definition video_codec_args (g : FFmpegGUI) : list string :=
  if negb (video_codec (vars g) =? "copy")%string then ["-c:v"; video_codec (vars g)] else [].

Definition resolution_args (g : FFmpegGUI) : list string :=
  if negb (resolution (vars g) =? t (current_language g) "original_resolution")%string
  then ["-s"; resolution (vars g)] else [].

Definition fps_args (g : FFmpegGUI) : list string :=
  if negb (fps (vars g) =? t (current_language g) "original_fps")%string
  then ["-r"; fps (vars g)] else [].

Definition audio_codec_args (g : FFmpegGUI) : list string := ["-c:a"; audio_codec (vars g)].
Definition sample_rate_args (g : FFmpegGUI) : list string := ["-ar"; sample_rate (vars g)].

Definition channels_args (g : FFmpegGUI) : list string :=
  if negb (channels (vars g) =?
           replace (t (current_language g) "original_quality") "质量" "声道")%string
  then ["-ac"; channels (vars g)] else [].

Definition bitrate_args (g : FFmpegGUI) : list string := ["-b:a"; audio_bitrate (vars g)].

Definition vf_filters (g : FFmpegGUI) : list string :=
  let v := vars g in
  (if enable_crop v then ["crop=" +:+ crop_params v] else []) ++
  (if enable_scale v && negb (resolution v =? t (current_language g) "original_resolution")%string
   then ["scale=" +:+ replace (resolution v) "x" ":"] else []) ++
  (if enable_rotate v then ["transpose=" +:+ rotate_angle v] else []).

Definition vf_args (g : FFmpegGUI) : list string :=
  match vf_filters g with
  | [] => []
  | filters => ["-vf"; join "," filters]
  end.

Definition af_args (g : FFmpegGUI) : list string :=
  if enable_volume (vars g) then ["-af"; "volume=" +:+ volume_factor (vars g)] else [].

Definition quality_args (g : FFmpegGUI) : list string :=
  let t := t (current_language g) in
  let quality := video_quality (vars g) in
  if (quality =? t "high_quality")%string then ["-crf"; "18"; "-preset"; "slow"]
  else if (quality =? t "medium_quality")%string then ["-crf"; "23"; "-preset"; "medium"]
  else if (quality =? t "low_quality")%string then ["-crf"; "28"; "-preset"; "fast"]
  else [].

Definition extra_args (g : FFmpegGUI) : list string :=
  if truthy (custom_args (vars g)) then split (custom_args (vars g)) else [].

Definition grouped (g : FFmpegGUI) : list string :=
  ["ffmpeg"] ++ hwaccel_args g ++ ["-i"; input_file (vars g)] ++ ["-y"] ++
  video_codec_args g ++ resolution_args g ++ fps_args g ++
  audio_codec_args g ++ sample_rate_args g ++ channels_args g ++ bitrate_args g ++
  vf_args g ++ af_args g ++ quality_args g ++ extra_args g ++ [output_file (vars g)].

End Groups01.

(** ** Vocabulary of the specification *)

Module Spec.

(** A flag group: absent, or the flag followed by its value. *)
Definition group (flag : string) (g : list string) : Prop :=
  g = [] \/ exists value, g = [flag; value].



(** [flag] directly followed by [value] somewhere in the command. *)
Definition has_flag (flag value : string) (cmd : list string) : Prop :=
  exists before after, cmd = before ++ [flag; value] ++ after.

(** The same request with another audio codec selection. *)
Definition with_audio_codec02 (codec : option string) (p : V02.Params) : V02.Params :=
  {| V02.input_file := V02.input_file p; V02.output_file := V02.output_file p;
     V02.video_codec := V02.video_codec p; V02.audio_codec := codec;
     V02.resolution := V02.resolution p;
     V02.custom_resolution := V02.custom_resolution p;
     V02.fps := V02.fps p; V02.custom_fps := V02.custom_fps p;
     V02.sample_rate := V02.sample_rate p;
     V02.custom_sample_rate := V02.custom_sample_rate p;
     V02.channels := V02.channels p;
     V02.bitrate := V02.bitrate p; V02.custom_bitrate := V02.custom_bitrate p;
     V02.video_quality := V02.video_quality p; V02.hwaccel := V02.hwaccel p;
     V02.crop_enabled := V02.crop_enabled p; V02.crop_params := V02.crop_params p;
     V02.scale_enabled := V02.scale_enabled p;
     V02.rotate_enabled := V02.rotate_enabled p; V02.rotate_angle := V02.rotate_angle p;
     V02.volume_enabled := V02.volume_enabled p; V02.volume_factor := V02.volume_factor p;
     V02.custom_args := V02.custom_args p |}.









(** The four settings with a keep/custom policy, and their flags. *)
Inductive setting : Type := Resolution | FrameRate | SampleRate | AudioBitrate.

Definition flag (x : setting) : string :=
  match x with
  | Resolution => "-s"
  | FrameRate => "-r"
  | SampleRate => "-ar"
  | AudioBitrate => "-b:a"
  end.



(** The number of the poll at which a job is first seen completed, the
    polls counted from [n + 1]. *)
Fixpoint first_success_from (job : V01.Job) (n : nat) (observations : list (option Z))
  : option nat :=
  match observations with
  | [] => None
  | observed :: rest =>
      let job' := V01.poll job observed in
      if V01.completed job' then Some (S n) else first_success_from job' (S n) rest
  end.

(** The sample at which the Finalizing phase declares success, for a file
    that exists with the given sizes, one per poll. *)
Definition success_sample (sizes : list Z) : option nat :=
  first_success_from V01.finalizing 0 (map Some sizes).

(** What holds of a job in the Finalizing phase after the sizes [seen], as
    long as it is not completed: either a new size is to be taken, or the
    last size is to be compared with for the first time, or the last two
    sizes were equal and the counter is at 1. *)
Definition between_polls (seen : list Z) (job : V01.Job) : Prop :=
  job = {| V01.is_processing := true; V01.progress_check_count := 0;
           V01.completed := false; V01.faulted := false;
           V01.pending := Some V01.check_completion |} \/
  (exists before size,
      seen = before ++ [size] /\
      job = {| V01.is_processing := true; V01.progress_check_count := 0;
               V01.completed := false; V01.faulted := false;
               V01.pending := Some (V01.verify_stable size) |}) \/
  (exists before size,
      seen = before ++ [size; size] /\
      job = {| V01.is_processing := true; V01.progress_check_count := 1;
               V01.completed := false; V01.faulted := false;
               V01.pending := Some (V01.verify_stable size) |}).

(** The executable comes to an end, or cannot be started at all. *)
Definition comes_back (b : Os.behaviour) : bool :=
  match b with
  | Os.Hangs => false
  | _ => true
  end.

(** The executable ran to its end with exit status 0. *)
Definition clean_exit (b : Os.behaviour) : bool :=
  match b with
  | Os.Exits rc _ => (rc =? 0)%Z
  | _ => false
  end.

Definition output_of (b : Os.behaviour) : string :=
  match b with
  | Os.Exits _ out => out
  | _ => ""
  end.


Definition encoder_ids : list string :=
  ["h264_nvenc"; "hevc_nvenc"; "h264_qsv"; "hevc_qsv"; "h264_amf"; "hevc_amf";
   "h264_vaapi"; "hevc_vaapi"; "h264_videotoolbox"; "hevc_videotoolbox"].



(** *** Encoder listings *)










End Spec.

(** ** Vocabulary for file names *)

Module Paths.

(** The character does not occur in the text. *)
Definition without (c : ascii) (s : string) : bool :=
  forallb (fun x => negb (Ascii.eqb x c)) (list_ascii_of_string s).

(** A word that can stand after the dot of a file name: no separator and
    no dot in it ([mp4], [mp3], [ncm_to_mp3] ...). *)
Definition extension_word (ext : string) : bool :=
  without "/" ext && without "." ext.

(** A file name for which [splitext] looks for an extension: no
    separator in it, and some character that is not a dot. *)
Definition file_name (name : string) : bool :=
  without "/" name &&
  existsb (fun x => negb (Ascii.eqb x ".")) (list_ascii_of_string name).

(** A directory prefix: empty, or ending with the separator. *)
Definition directory (dir : string) : bool :=
  (dir =? "")%string || endswith dir "/".

End Paths.

(** ** What happens to the window of V0.2, event by event *)

Module Session.
Import V02.Window.

(** The events that the processing state of the window answers: a click
    on the process button, on the preview button, on one of the two
    extraction buttons (with the name that the dialog then gives), a
    timeout of the progress timer, a signal of the worker. *)
Inductive event : Type :=
| click_process
| click_update_preview
| click_extract_audio (output_path : string)
| click_extract_video (output_path : string)
| timeout
| from_worker (s : signal).

Definition handle (t : string -> string) (self : State) (e : event) : State :=
  match e with
  | click_process => start_processing t self
  | click_update_preview => update_preview t self
  | click_extract_audio output_path => extract_audio t output_path self
  | click_extract_video output_path => extract_video t output_path self
  | timeout => if progress_timer self then simulate_progress self else self
  | from_worker s => deliver t self s
  end.

Definition handles (t : string -> string) (self : State) (events : list event) : State :=
  fold_left (handle t) events self.

(** A signal that [FFmpegWorker.run] emits: it has no [emit] of
    [progress_updated]. *)
Definition emitted_by_run (e : event) : bool :=
  match e with
  | from_worker (progress_updated _) => false
  | _ => true
  end.

(** The estimate of the progress bar is within its range, and below the
    ceiling of the simulation while a job is processed. *)
Definition estimate_ok (self : State) : Prop :=
  (0 <= progress_bar self <= 100)%Z /\
  (is_processing self = true -> (progress_bar self <= 90)%Z).

End Session.

(** ** The phases of a job of V0.1 *)

Module Journey.
Import V01.Processing.

(** The window is at rest: no job, no pending callback, both paths
    given. *)
Definition at_rest (self : State) : bool :=
  negb (is_processing self) &&
  Nat.eqb (simulate_scheduled self) 0 &&
  match completion_scheduled self with [] => true | _ => false end &&
  truthy (V01.input_file (V01.vars (gui self))) &&
  truthy (V01.output_file (V01.vars (gui self))).

(** The estimate is running: the bar stands at [p], the next
    [simulate_progress] is pending and nothing looks at the output file
    yet. *)
Definition simulating (self : State) (p : Z) : Prop :=
  is_processing self = true /\
  waiting_for_completion self = false /\
  simulate_scheduled self = 1%nat /\
  completion_scheduled self = [] /\
  progress_var self = p.

(** The estimate has come to 99: the first look at the output file is
    pending, and nothing else. *)
Definition finalizing (self : State) : Prop :=
  is_processing self = true /\
  waiting_for_completion self = true /\
  progress_check_count self = 0%Z /\
  simulate_scheduled self = 0%nat /\
  completion_scheduled self = [V01.check_completion] /\
  progress_var self = 99%Z.

(** The output file was seen with [size], [count] comparisons in a row
    have found it unchanged, and the next comparison is pending. *)
Definition comparing (self : State) (size count : Z) : Prop :=
  is_processing self = true /\
  progress_check_count self = count /\
  simulate_scheduled self = 0%nat /\
  completion_scheduled self = [V01.verify_stable size].

(** What a look at the output file leaves alone. *)
Definition same_display (a b : State) : Prop :=
  status_label a = status_label b /\
  progress_var a = progress_var b /\
  process_btn a = process_btn b /\
  threads a = threads b /\
  boxes a = boxes b /\
  completions a = completions b.

(** The callbacks that the main loop runs on its own: a pending
    [simulate_progress], a pending look at the output file. *)
Definition of_main_loop (e : event) : bool :=
  match e with
  | tick => true
  | poll _ _ => true
  | _ => false
  end.

End Journey.

(** ** The container that [decrypt_ncm_fallback] reads

    The source has the reader only.  The layout below is the one its
    offsets walk: the ten bytes of the signature, the key block, the
    metadata block and the cover block, each after its length as four
    little-endian bytes, and then the audio bytes up to the end of the
    file. *)

Module Container.

Definition byte_of_Z (z : Z) : byte := default x00 (Byte.of_N (Z.to_N z)).

(** The inverse of [struct.unpack('<I', b)[0]]: [struct.pack('<I', n)] *)
Definition pack_le32 (n : Z) : list byte :=
  [ byte_of_Z (n mod 256);
    byte_of_Z (n / 256 mod 256);
    byte_of_Z (n / 256 / 256 mod 256);
    byte_of_Z (n / 256 / 256 / 256 mod 256) ]%Z.

Definition block (content : list byte) : list byte :=
  pack_le32 (V01.len content) ++ content.

Definition build (key_data meta image audio : list byte) : list byte :=
  V01.signature ++ block key_data ++ block meta ++ block image ++ audio.

End Container.

(** ** Sample requests *)

Module Samples.

(** The request of the end-to-end example of the specification: the keys
    it names, [resolution] at the keep-original text and the quality tier
    high. *)
Definition example02 : V02.Params :=
  {| V02.input_file := "a.mov"; V02.output_file := "a.mp4";
     V02.video_codec := Some "libx264"; V02.audio_codec := None;
     V02.resolution := Some (V02._t "original_resolution");
     V02.custom_resolution := None;
     V02.fps := None; V02.custom_fps := None;
     V02.sample_rate := None; V02.custom_sample_rate := None;
     V02.channels := None;
     V02.bitrate := None; V02.custom_bitrate := None;
     V02.video_quality := Some (V02._t "high_quality"); V02.hwaccel := None;
     V02.crop_enabled := false; V02.crop_params := None;
     V02.scale_enabled := false;
     V02.rotate_enabled := false; V02.rotate_angle := None;
     V02.volume_enabled := false; V02.volume_factor := None;
     V02.custom_args := None |}.

(** The same request as the window of V0.2 builds it from its widgets
    when nothing else has been touched: every key is there, the audio
    combos at their first entries, the free texts empty. *)
Definition example_widgets02 : V02.Params :=
  {| V02.input_file := "a.mov"; V02.output_file := "a.mp4";
     V02.video_codec := Some "libx264"; V02.audio_codec := Some "aac";
     V02.resolution := Some (V02._t "original_resolution");
     V02.custom_resolution := Some "";
     V02.fps := Some (V02._t "original_fps"); V02.custom_fps := Some "";
     V02.sample_rate := Some "44100"; V02.custom_sample_rate := Some "";
     V02.channels := Some "1";
     V02.bitrate := Some "64k"; V02.custom_bitrate := Some "";
     V02.video_quality := Some (V02._t "high_quality");
     V02.hwaccel := Some (V02._t "hwaccel_none");
     V02.crop_enabled := false; V02.crop_params := Some "iw:ih:0:0";
     V02.scale_enabled := false;
     V02.rotate_enabled := false; V02.rotate_angle := Some "90";
     V02.volume_enabled := false; V02.volume_factor := Some "1.0";
     V02.custom_args := Some "" |}.

Definition no_hardware02 : V02.HardwareDetector :=
  {| V02.hardware_acceleration := []; V02.hardware_encoders := [] |}.

(** A V0.2 request that exercises every optional flag. *)
Definition full02 : V02.Params :=
  {| V02.input_file := "in.mov"; V02.output_file := "out.mp4";
     V02.video_codec := Some "libx265"; V02.audio_codec := Some "aac";
     V02.resolution := Some (V02._t "custom_resolution");
     V02.custom_resolution := Some "1280x720";
     V02.fps := Some "30"; V02.custom_fps := Some "";
     V02.sample_rate := Some "48000"; V02.custom_sample_rate := Some "";
     V02.channels := Some "2";
     V02.bitrate := Some (V02._t "custom_bitrate"); V02.custom_bitrate := Some "96k";
     V02.video_quality := Some (V02._t "high_quality");
     V02.hwaccel := Some (V02._t "hwaccel_cuda");
     V02.crop_enabled := true; V02.crop_params := Some "iw:ih:0:0";
     V02.scale_enabled := true;
     V02.rotate_enabled := true; V02.rotate_angle := Some "90";
     V02.volume_enabled := true; V02.volume_factor := Some "1.5";
     V02.custom_args := Some "-movflags +faststart" |}.



(** A V0.2 request with a sample rate and a bitrate selection, the free
    texts filled in. *)
Definition audio02 (sample_rate bitrate : string) : V02.Params :=
  {| V02.input_file := "a.wav"; V02.output_file := "a.mp3";
     V02.video_codec := None; V02.audio_codec := Some "copy";
     V02.resolution := None; V02.custom_resolution := None;
     V02.fps := None; V02.custom_fps := None;
     V02.sample_rate := Some sample_rate; V02.custom_sample_rate := Some "8000";
     V02.channels := None;
     V02.bitrate := Some bitrate; V02.custom_bitrate := Some "96k";
     V02.video_quality := None; V02.hwaccel := None;
     V02.crop_enabled := false; V02.crop_params := None;
     V02.scale_enabled := false;
     V02.rotate_enabled := false; V02.rotate_angle := None;
     V02.volume_enabled := false; V02.volume_factor := None;
     V02.custom_args := None |}.

(** The Tk variables of V0.1 as [__init__] and the tab builders leave
    them, from [a.mov] to [a.mp4], with the values given for the settings
    that the samples vary. *)
Definition vars01 (lang : V01.language)
  (video_codec audio_codec sample_rate audio_bitrate video_quality custom_args : string)
  : V01.Variables :=
  {| V01.input_file := "a.mov"; V01.output_file := "a.mp4";
     V01.hwaccel_var := V01.t lang "hwaccel_none";
     V01.video_codec := video_codec;
     V01.resolution := V01.t lang "original_resolution";
     V01.fps := V01.t lang "original_fps";
     V01.audio_codec := audio_codec;
     V01.sample_rate := sample_rate;
     V01.channels := "2";
     V01.audio_bitrate := audio_bitrate;
     V01.enable_crop := false; V01.crop_params := "iw:ih:0:0";
     V01.enable_scale := false;
     V01.enable_rotate := false; V01.rotate_angle := "90";
     V01.enable_volume := false; V01.volume_factor := "1.0";
     V01.video_quality := video_quality;
     V01.custom_args := custom_args |}.

Definition state01 (lang : V01.language) (v : V01.Variables) : V01.FFmpegGUI :=
  {| V01.current_language := lang;
     V01.hardware_acceleration := [];
     V01.hardware_encoders := [];
     V01.vars := v |}.

(** The end-to-end example in V0.1: the defaults with the quality tier
    high, no hardware detected. *)
Definition example01 : V01.FFmpegGUI :=
  state01 V01.zh_CN
    (vars01 V01.zh_CN "libx264" "aac" "44100" "128k" (V01.t V01.zh_CN "high_quality") "").

Definition copy01 : V01.FFmpegGUI :=
  state01 V01.zh_CN
    (vars01 V01.zh_CN "copy" "copy" "44100" "128k" (V01.t V01.zh_CN "medium_quality") "").



(** A V0.1 state that exercises every optional flag. *)
Definition full01 : V01.FFmpegGUI :=
  {| V01.current_language := V01.zh_CN;
     V01.hardware_acceleration := [];
     V01.hardware_encoders := [];
     V01.vars :=
       {| V01.input_file := "in.mov"; V01.output_file := "out.mp4";
          V01.hwaccel_var := V01.t V01.zh_CN "hwaccel_qsv";
          V01.video_codec := "libx265";
          V01.resolution := "1280x720";
          V01.fps := "30";
          V01.audio_codec := "aac";
          V01.sample_rate := "48000";
          V01.channels := "2";
          V01.audio_bitrate := "192k";
          V01.enable_crop := true; V01.crop_params := "iw:ih:0:0";
          V01.enable_scale := true;
          V01.enable_rotate := true; V01.rotate_angle := "90";
          V01.enable_volume := true; V01.volume_factor := "1.5";
          V01.video_quality := V01.t V01.zh_CN "low_quality";
          V01.custom_args := "-movflags +faststart" |} |}.

(** The executable is not installed; it is killed by a signal. *)
Definition not_installed : Os.behaviour :=
  Os.Fails {| exn_type := OSError;
              exn_str := "[Errno 2] No such file or directory: 'ffmpeg'" |}.


Definition nl : string := String Regex.newline "".

(** Two lines as [ffmpeg -encoders] prints them. *)
Definition listing_nvenc : string :=
  " V....D h264_nvenc           NVIDIA NVENC H.264 encoder (codec h264)" +:+ nl +:+
  " V....D hevc_nvenc           NVIDIA NVENC hevc encoder (codec hevc)" +:+ nl.


(** Only a longer identifier, of which [h264_nvenc] is a proper prefix. *)
Definition listing_longer : string :=
  " V....D h264_nvenc_ll        low-latency variant" +:+ nl.

(** A file system with one file, which is not an NCM container, and one
    with a file that carries the signature but stops after it. *)
Definition wave_bytes : list byte := list_byte_of_string "RIFF0000WAVEfmt ".

Definition disk : Os.filesystem := {[ "song.ncm" := wave_bytes ]}.

(** [hashlib.md5(b'hzHRAmso5kInbaxW').digest()] is not needed on the path
    that the rejected file takes; any function will do there. *)
Definition no_md5 (data : list byte) : list byte := [].

(** The smallest container that the fallback accepts: the signature, an
    empty key block, an empty metadata block, no cover image, and a
    payload of three bytes; and a digest of two bytes to decrypt it
    with. *)
Definition tiny_ncm : list byte :=
  V01.signature ++ [x00; x00; x00; x00] ++ [x00; x00; x00; x00] ++
  [x00; x00; x00; x00] ++ [x01; x02; x03].

Definition short_md5 (data : list byte) : list byte := [xff; x0f].

(** The request of the window of V0.2 after it was switched to English
    and nothing else was touched: the combos were refilled with the
    [en_US] texts, the first entry of each selected. *)
Definition english_widgets02 : V02.Params :=
  {| V02.input_file := "a.mov"; V02.output_file := "a.mp4";
     V02.video_codec := Some "libx264"; V02.audio_codec := Some "aac";
     V02.resolution := Some (V02.get_text "en_US" "original_resolution");
     V02.custom_resolution := Some "";
     V02.fps := Some (V02.get_text "en_US" "original_fps"); V02.custom_fps := Some "";
     V02.sample_rate := Some "44100"; V02.custom_sample_rate := Some "";
     V02.channels := Some "1";
     V02.bitrate := Some "64k"; V02.custom_bitrate := Some "";
     V02.video_quality := Some (V02.get_text "en_US" "high_quality");
     V02.hwaccel := Some (V02.get_text "en_US" "hwaccel_none");
     V02.crop_enabled := false; V02.crop_params := Some "iw:ih:0:0";
     V02.scale_enabled := false;
     V02.rotate_enabled := false; V02.rotate_angle := Some "90";
     V02.volume_enabled := false; V02.volume_factor := Some "1.0";
     V02.custom_args := Some "" |}.

(** V0.1 with a hardware encoder selected that a detection had found. *)
Definition nvenc01 : V01.FFmpegGUI :=
  {| V01.current_language := V01.zh_CN;
     V01.hardware_acceleration := [];
     V01.hardware_encoders :=
       [("h264_nvenc", {| V01.name := "NVIDIA H.264"; V01.supported := true |})];
     V01.vars := vars01 V01.zh_CN "h264_nvenc" "aac" "44100" "128k"
                   (V01.t V01.zh_CN "high_quality") "" |}.

(** A job of V0.1 that has seen the output file with 100 bytes and is to
    compare its size at the next poll. *)
Definition comparing : V01.Job :=
  {| V01.is_processing := true; V01.progress_check_count := 0;
     V01.completed := false; V01.faulted := false;
     V01.pending := Some (V01.verify_stable 100) |}.

(** The same after a detection that found no encoder. *)
Definition nvenc_lost01 : V01.FFmpegGUI :=
  V01.set_hardware_encoders nvenc01
    (map (fun entry => (fst entry, {| V01.name := snd entry; V01.supported := false |}))
       V01.encoder_mapping).

(** A sixteen-byte digest, as [hashlib.md5] gives one. *)
Definition digest16 (data : list byte) : list byte :=
  [x00; x11; x22; x33; x44; x55; x66; x77; x88; x99; xaa; xbb; xcc; xdd; xee; xff].

(** The widgets of V0.2 with the paths given, the rest as the window
    creates them. *)
Definition widgets02 (input output : string) : V02.Params :=
  {| V02.input_file := input; V02.output_file := output;
     V02.video_codec := Some "libx264"; V02.audio_codec := Some "aac";
     V02.resolution := Some (V02._t "original_resolution");
     V02.custom_resolution := Some "";
     V02.fps := Some (V02._t "original_fps"); V02.custom_fps := Some "";
     V02.sample_rate := Some "44100"; V02.custom_sample_rate := Some "";
     V02.channels := Some "1";
     V02.bitrate := Some "64k"; V02.custom_bitrate := Some "";
     V02.video_quality := Some (V02._t "high_quality");
     V02.hwaccel := Some (V02._t "hwaccel_none");
     V02.crop_enabled := false; V02.crop_params := Some "iw:ih:0:0";
     V02.scale_enabled := false;
     V02.rotate_enabled := false; V02.rotate_angle := Some "90";
     V02.volume_enabled := false; V02.volume_factor := Some "1.0";
     V02.custom_args := Some "" |}.

(** The window of V0.2 at rest, with the paths and the format given. *)
Definition window02 (input output format : string) : V02.Window.State :=
  {| V02.Window.main := {| V02.hardware_detector := no_hardware02;
                           V02.widgets := widgets02 input output |};
     V02.Window.format_combo := format;
     V02.Window.is_processing := false;
     V02.Window.progress_bar := 0;
     V02.Window.status_label := "";
     V02.Window.process_btn := "";
     V02.Window.command_preview_text := "";
     V02.Window.progress_timer := false;
     V02.Window.boxes := [];
     V02.Window.workers := [];
     V02.Window.launched := [] |}.

(** The window of V0.1 at rest, with the paths and the format given. *)
Definition window01 (input output format : string) : V01.Window.State :=
  {| V01.Window.gui := V01.Window.set_paths example01 input output;
     V01.Window.format_var := format;
     V01.Window.is_processing := false;
     V01.Window.progress_var := 0;
     V01.Window.progress_percent := "0%";
     V01.Window.status_label := "";
     V01.Window.process_btn := "";
     V01.Window.boxes := [];
     V01.Window.launched := [] |}.

(** The texts of the window of V0.2 in [zh_CN]. *)
Definition t02 : string -> string := V02.get_text "zh_CN".

(** An [ffmpeg] that writes its last argument and exits with 0, one that
    writes nothing and exits with 1, and an [ncmdump.dump] that copies the
    file to the path it is given. *)
Definition ffmpeg_ok : Os.program :=
  fun cmd fs =>
    {| Os.after := <[List.last cmd "" := []]> fs; Os.ends := Os.Exits 0 ""; Os.stderr := "" |}.

Definition ffmpeg_broken : Os.program :=
  fun cmd fs =>
    {| Os.after := fs; Os.ends := Os.Exits 1 ""; Os.stderr := "Invalid data found" |}.

Definition dump_copy (fs : Os.filesystem) (input output : string)
  : Os.filesystem * outcome string :=
  match fs !! input with
  | Some data => (<[output := data]> fs, Returns output)
  | None => (fs, Raises {| exn_type := OSError; exn_str := "No such file" |})
  end.

(** The window of V0.1 at rest, in the sense of [Journey.at_rest]. *)
Definition idle01 : V01.Processing.State :=
  {| V01.Processing.gui := example01;
     V01.Processing.is_processing := false;
     V01.Processing.waiting_for_completion := false;
     V01.Processing.progress_check_count := 0;
     V01.Processing.progress_var := 0;
     V01.Processing.progress_percent := "0%";
     V01.Processing.status_label := "";
     V01.Processing.waiting_label := "";
     V01.Processing.process_btn := "";
     V01.Processing.command_preview := "";
     V01.Processing.boxes := [];
     V01.Processing.threads := [];
     V01.Processing.simulate_scheduled := 0;
     V01.Processing.completion_scheduled := [];
     V01.Processing.completions := 0;
     V01.Processing.faulted := false |}.

End Samples.

(** * Properties *)

(** ** The built command is the concatenation of its groups *)

Lemma extend_if_app cmd flag value :
  V02.extend_if cmd flag value = cmd ++ V02.extend_if [] flag value.
Proof.
  unfold V02.extend_if. destruct value as [x|]; [destruct (truthy x)|];
    simpl; rewrite ?app_nil_r; reflexivity.
Qed.

Ltac pull_extend_if :=
  repeat match goal with
         | |- context [V02.extend_if (?a ++ ?b) ?f ?v] => rewrite (extend_if_app (a ++ b) f v)
         | |- context [V02.extend_if (?a :: ?b) ?f ?v] => rewrite (extend_if_app (a :: b) f v)
         end.

Lemma V02_groups_eq (p : V02.Params) : V02.build_command p = Groups02.grouped p.
Proof.
  unfold V02.build_command, Groups02.grouped.
  unfold Groups02.hwaccel_args, Groups02.video_codec_args, Groups02.resolution_args,
    Groups02.fps_args, Groups02.audio_codec_args, Groups02.sample_rate_args,
    Groups02.channels_args, Groups02.bitrate_args, Groups02.vf_args, Groups02.af_args,
    Groups02.quality_args, Groups02.extra_args.
  cbv zeta.
  destruct (V02.video_codec p) as [codec|];
    [destruct (truthy codec && negb (codec =? "copy")%string)|];
    destruct (V02._build_video_filters p);
    destruct (V02._build_audio_filters p);
    destruct (V02._get_quality_params p);
    (destruct (V02.custom_args p) as [args|]; [destruct (truthy args)|]);
    pull_extend_if; rewrite ?app_nil_r, <- ?app_assoc; reflexivity.
Qed.

(** *** V0.1, one statement at a time *)

Lemma let_intro {A B} (a : A) (f : A -> B) (r : B) :
  (forall x, x = a -> f x = r) -> (let x := a in f x) = r.
Proof. intros H. apply H. reflexivity. Qed.

(** Name the value of the [let] at the head of the left-hand side. *)
Ltac step_let x H :=
  lazymatch goal with
  | |- (let y := ?a in @?f y) = ?r => refine (let_intro a f r _); intros x H; cbv beta
  end.

Ltac split_ifs :=
  repeat match goal with
         | |- context [if ?b then _ else _] => destruct b
         end.

(** The next [let] adds the group [G] to the command [prev]. *)
Ltac step_cmd x E prev G :=
  let H := fresh "H" in
  step_let x H;
  assert (E : x = prev ++ G)
    by (rewrite H;
        cbv beta zeta delta [Groups01.hwaccel_args Groups01.video_codec_args
          Groups01.resolution_args Groups01.fps_args Groups01.audio_codec_args
          Groups01.sample_rate_args Groups01.channels_args Groups01.bitrate_args
          Groups01.af_args Groups01.quality_args Groups01.extra_args];
        split_ifs; rewrite ?app_nil_r; reflexivity);
  clear H.

Lemma V01_groups_eq (g : V01.FFmpegGUI) :
  truthy (V01.input_file (V01.vars g)) = true ->
  truthy (V01.output_file (V01.vars g)) = true ->
  V01.build_ffmpeg_command g = Some (Groups01.grouped g).
Proof.
  intros Hi Ho. cbv beta delta [V01.build_ffmpeg_command].
  step_let t Ht. step_let v Hv. subst t v. rewrite Hi, Ho.
  change (negb true || negb true) with false. cbv iota.
  step_let cmd0 E0. step_let hw Hhw. subst hw.
  step_cmd cmd1 E1 cmd0 (Groups01.hwaccel_args g).
  step_cmd cmd2 E2 cmd1 (["-i"; V01.input_file (V01.vars g)] ++ ["-y"]).
  step_cmd cmd3 E3 cmd2 (Groups01.video_codec_args g).
  step_cmd cmd4 E4 cmd3 (Groups01.resolution_args g).
  step_cmd cmd5 E5 cmd4 (Groups01.fps_args g).
  step_cmd cmd6 E6 cmd5 (Groups01.audio_codec_args g).
  step_cmd cmd7 E7 cmd6 (Groups01.sample_rate_args g).
  step_cmd cmd8 E8 cmd7 (Groups01.channels_args g).
  step_cmd cmd9 E9 cmd8 (Groups01.bitrate_args g).
  step_let vf0 F0. step_let vf1 F1. step_let vf2 F2. step_let vf3 F3.
  assert (F : vf3 = Groups01.vf_filters g).
  { subst vf3 vf2 vf1 vf0. cbv beta zeta delta [Groups01.vf_filters].
    split_ifs; reflexivity. }
  clear F0 F1 F2 F3.
  step_let cmd10 H10.
  assert (E10 : cmd10 = cmd9 ++ Groups01.vf_args g).
  { rewrite H10, F. unfold Groups01.vf_args.
    destruct (Groups01.vf_filters g); rewrite ?app_nil_r; reflexivity. }
  clear H10 F.
  step_let af0 A0. step_let af1 A1. step_let cmd11 H11.
  assert (E11 : cmd11 = cmd10 ++ Groups01.af_args g).
  { rewrite H11, A1, A0. unfold Groups01.af_args.
    destruct (V01.enable_volume (V01.vars g)); rewrite ?app_nil_r; reflexivity. }
  clear H11 A1 A0.
  step_let quality Hq. subst quality.
  step_cmd cmd12 E12 cmd11 (Groups01.quality_args g).
  step_cmd cmd13 E13 cmd12 (Groups01.extra_args g).
  subst. unfold Groups01.grouped. rewrite <- !app_assoc. reflexivity.
Qed.
(** ** C1: the order of the flag groups *)








Example full02_command :
  V02.build_command Samples.full02 =
  ["ffmpeg"; "-hwaccel"; "cuda"; "-i"; "in.mov"; "-y"; "-c:v"; "libx265";
   "-s"; "1280x720"; "-r"; "30"; "-c:a"; "aac"; "-ar"; "48000"; "-ac"; "2";
   "-b:a"; "96k"; "-vf"; "crop=iw:ih:0:0,scale=1280:720,transpose=90";
   "-af"; "volume=1.5"; "-crf"; "18"; "-preset"; "slow";
   "-movflags"; "+faststart"; "out.mp4"].
Proof. vm_compute. reflexivity. Qed.

Example full01_command :
  V01.build_ffmpeg_command Samples.full01 =
  Some ["ffmpeg"; "-hwaccel"; "qsv"; "-i"; "in.mov"; "-y"; "-c:v"; "libx265";
        "-s"; "1280x720"; "-r"; "30"; "-c:a"; "aac"; "-ar"; "48000"; "-ac"; "2";
        "-b:a"; "192k"; "-vf"; "crop=iw:ih:0:0,scale=1280:720,transpose=90";
        "-af"; "volume=1.5"; "-crf"; "28"; "-preset"; "fast";
        "-movflags"; "+faststart"; "out.mp4"].
Proof. vm_compute. reflexivity. Qed.

(** ** C2: the end-to-end example *)

(** C2.  For input [a.mov], output [a.mp4], video codec [libx264], the
    resolution at its keep-original text and the quality tier high, with
    no hardware detected: the V0.2 builder returns exactly the vector of
    the example for the request that holds these keys only.  When the
    audio settings hold their defaults, as they do when the request comes
    from the widgets of V0.2 or the variables of V0.1, the result is that
    vector with the audio flags between the video codec and the quality
    flags: [-c:a aac -ar 44100 -ac 1 -b:a 64k] in V0.2,
    [-c:a aac -ar 44100 -ac 2 -b:a 128k] in V0.1. *)
Theorem end_to_end_example :
  V02.build_ffmpeg_command
    {| V02.hardware_detector := Samples.no_hardware02;
       V02.widgets := Samples.example02 |}
  = Some ["ffmpeg"; "-i"; "a.mov"; "-y"; "-c:v"; "libx264";
          "-crf"; "18"; "-preset"; "slow"; "a.mp4"] /\
  V02.build_ffmpeg_command
    {| V02.hardware_detector := Samples.no_hardware02;
       V02.widgets := Samples.example_widgets02 |}
  = Some (["ffmpeg"; "-i"; "a.mov"; "-y"; "-c:v"; "libx264"] ++
          ["-c:a"; "aac"; "-ar"; "44100"; "-ac"; "1"; "-b:a"; "64k"] ++
          ["-crf"; "18"; "-preset"; "slow"; "a.mp4"]) /\
  V01.build_ffmpeg_command Samples.example01
  = Some (["ffmpeg"; "-i"; "a.mov"; "-y"; "-c:v"; "libx264"] ++
          ["-c:a"; "aac"; "-ar"; "44100"; "-ac"; "2"; "-b:a"; "128k"] ++
          ["-crf"; "18"; "-preset"; "slow"; "a.mp4"]).
Proof. repeat split; vm_compute; reflexivity. Qed.

(** ** Where the tokens of a command come from *)



















(** *** The same for V0.1 *)









Ltac emitted :=
  right; right; right;
  repeat first [ apply Exists_cons_hd; simpl; split; [reflexivity | assumption]
               | apply Exists_cons_tl ].




(** ** C8: the video codec flag *)






Lemma build_some01 (g : V01.FFmpegGUI) (cmd : list string) :
  V01.build_ffmpeg_command g = Some cmd ->
  truthy (V01.input_file (V01.vars g)) = true /\
  truthy (V01.output_file (V01.vars g)) = true /\
  cmd = Groups01.grouped g.
Proof.
  intros H.
  destruct (truthy (V01.input_file (V01.vars g))) eqn:Hi;
    [destruct (truthy (V01.output_file (V01.vars g))) eqn:Ho|].
  - rewrite (V01_groups_eq g Hi Ho) in H. injection H as <-. auto.
  - unfold V01.build_ffmpeg_command in H. rewrite Hi, Ho in H. discriminate.
  - unfold V01.build_ffmpeg_command in H. rewrite Hi in H. discriminate.
Qed.




(** ** C3: the keep/custom policy of the four settings *)












(** ** C10: the audio codec does not silence the audio flags *)

(** C10.  For every request with a non-empty audio codec selection, the
    passthrough ["copy"] included, the command holds [-c:a] followed by
    the selection, and right after it the sample-rate, channel and bitrate
    groups, which are what their own policies make them: in V0.2 they are
    the groups of the same request under any other audio codec, in V0.1
    [-ar] and [-b:a] are always written. *)
Theorem audio_codec_keeps_audio_flags
  (p : V02.Params) (codec : string) (g : V01.FFmpegGUI) (cmd : list string) :
  V02.audio_codec p = Some codec ->
  truthy codec = true ->
  truthy (V01.audio_codec (V01.vars g)) = true ->
  V01.build_ffmpeg_command g = Some cmd ->
  (exists before after,
      V02.build_command p =
        before ++ ["-c:a"; codec] ++
        V02.extend_if [] "-ar" (V02._get_sample_rate p) ++
        V02.extend_if [] "-ac" (V02.channels p) ++
        V02.extend_if [] "-b:a" (V02._get_bitrate p) ++ after) /\
  (forall other : option string,
      V02._get_sample_rate (Spec.with_audio_codec02 other p) = V02._get_sample_rate p /\
      V02._get_bitrate (Spec.with_audio_codec02 other p) = V02._get_bitrate p) /\
  (exists before after,
      cmd = before ++ ["-c:a"; V01.audio_codec (V01.vars g)] ++
            ["-ar"; V01.sample_rate (V01.vars g)] ++
            Groups01.channels_args g ++
            ["-b:a"; V01.audio_bitrate (V01.vars g)] ++ after).
Proof.
  intros Hc Ht Ht1 Hb. split; [|split].
  - rewrite V02_groups_eq. unfold Groups02.grouped.
    eexists. eexists.
    rewrite !(app_assoc _ _ (Groups02.audio_codec_args p ++ _)).
    assert (Groups02.audio_codec_args p = ["-c:a"; codec]) as ->.
    { unfold Groups02.audio_codec_args, V02.extend_if. rewrite Hc, Ht. reflexivity. }
    unfold Groups02.sample_rate_args, Groups02.channels_args, Groups02.bitrate_args.
    reflexivity.
  - intros other. split; reflexivity.
  - apply build_some01 in Hb as (_ & _ & ->). unfold Groups01.grouped.
    eexists. eexists.
    rewrite !(app_assoc _ _ (Groups01.audio_codec_args g ++ _)).
    unfold Groups01.audio_codec_args, Groups01.sample_rate_args, Groups01.bitrate_args.
    reflexivity.
Qed.

Lemma audio_codec_keeps_audio_flags_witness :
  (exists before after,
      V02.build_command (Samples.audio02 "44100" "128k") =
        before ++ ["-c:a"; "copy"] ++ ["-ar"; "44100"] ++ [] ++ ["-b:a"; "128k"] ++ after) /\
  (forall other : option string,
      V02._get_sample_rate (Spec.with_audio_codec02 other (Samples.audio02 "44100" "128k"))
        = Some "44100" /\
      V02._get_bitrate (Spec.with_audio_codec02 other (Samples.audio02 "44100" "128k"))
        = Some "128k") /\
  (exists before after,
      Groups01.grouped Samples.copy01 =
        before ++ ["-c:a"; "copy"] ++ ["-ar"; "44100"] ++ ["-ac"; "2"] ++
        ["-b:a"; "128k"] ++ after).
Proof.
  apply (audio_codec_keeps_audio_flags (Samples.audio02 "44100" "128k") "copy"
           Samples.copy01 (Groups01.grouped Samples.copy01)); reflexivity.
Defined.

Example audio02_command :
  V02.build_command (Samples.audio02 "44100" "128k") =
  ["ffmpeg"; "-i"; "a.wav"; "-y"; "-c:a"; "copy"; "-ar"; "44100"; "-b:a"; "128k"; "a.mp3"].
Proof. vm_compute. reflexivity. Qed.

(** ** C9: the builders are functions of the request *)

Lemma build02_ignores_hardware (d1 d2 : V02.HardwareDetector) (p : V02.Params) :
  V02.build_ffmpeg_command {| V02.hardware_detector := d1; V02.widgets := p |} =
  V02.build_ffmpeg_command {| V02.hardware_detector := d2; V02.widgets := p |}.
Proof. reflexivity. Qed.

Lemma build01_ignores_hardware (g : V01.FFmpegGUI) (accel encoders : list (string * V01.info)) :
  V01.build_ffmpeg_command
    (V01.set_hardware_encoders (V01.set_hardware_acceleration g accel) encoders) =
  V01.build_ffmpeg_command g.
Proof. reflexivity. Qed.



(** ** C4: completion in the Finalizing phase *)

(** Whenever the Finalizing phase declares success, it does so at the
    third of three equal sizes in a row. *)
Lemma success_from_three_equal (rest : list Z) :
  forall (seen : list Z) (job : V01.Job) (n m : nat),
    Spec.between_polls seen job ->
    length seen = n ->
    Spec.first_success_from job n (map Some rest) = Some m ->
    exists before size after,
      seen ++ rest = before ++ [size; size; size] ++ after /\
      (length before + 3)%nat = m.
Proof.
  induction rest as [|cur rest IH]; intros seen job n m Hinv Hlen H; [discriminate|].
  simpl in H.
  destruct Hinv as [-> | [(before & size & -> & ->) | (before & size & -> & ->)]].
  - unfold V01.poll, V01.check_completion_status in H. simpl in H.
    apply (IH (seen ++ [cur])) in H.
    + destruct H as (b & s & a & E & L). exists b, s, a.
      rewrite <- E, <- app_assoc. auto.
    + right; left. exists seen, cur. auto.
    + rewrite length_app. simpl. lia.
  - unfold V01.poll, V01.verify_file_stable in H. simpl in H.
    destruct (Z.eqb_spec cur size) as [-> | Hne]; simpl in H.
    + apply (IH ((before ++ [size]) ++ [size])) in H.
      * destruct H as (b & s & a & E & L). exists b, s, a.
        rewrite <- E, <- !app_assoc. auto.
      * right; right. exists before, size. rewrite <- app_assoc. auto.
      * rewrite length_app. simpl. lia.
    + apply (IH ((before ++ [size]) ++ [cur])) in H.
      * destruct H as (b & s & a & E & L). exists b, s, a.
        rewrite <- E, <- !app_assoc. auto.
      * left. reflexivity.
      * rewrite length_app. simpl. lia.
  - unfold V01.poll, V01.verify_file_stable in H. simpl in H.
    destruct (Z.eqb_spec cur size) as [-> | Hne]; simpl in H.
    + injection H as <-. exists before, size, rest. split.
      * rewrite <- app_assoc. reflexivity.
      * rewrite length_app in Hlen. simpl in Hlen. lia.
    + apply (IH ((before ++ [size; size]) ++ [cur])) in H.
      * destruct H as (b & s & a & E & L). exists b, s, a.
        rewrite <- E, <- !app_assoc. auto.
      * left. reflexivity.
      * rewrite length_app. simpl. lia.
Qed.

Lemma success_needs_three_equal (sizes : list Z) (n : nat) :
  Spec.success_sample sizes = Some n ->
  exists before size after,
    sizes = before ++ [size; size; size] ++ after /\ (length before + 3)%nat = n.
Proof.
  intros H. apply (success_from_three_equal sizes [] V01.finalizing 0 n); auto.
  left. reflexivity.
Qed.

(** Three equal sizes in a row are not enough when the first of them is
    the one that a comparison found changed. *)
Example three_equal_after_a_change :
  Spec.success_sample [100; 100; 150; 150; 150]%Z = None /\
  Spec.success_sample [100; 100; 150; 150; 150; 150]%Z = Some 6%nat.
Proof. split; reflexivity. Qed.

(** The claim as it stands fails: with the sizes 100, 150, 150, 150 the
    job is not completed at the third sample, nor at the fourth. *)
Lemma not_completed_at_third_sample :
  V01.completed (V01.polls V01.finalizing [Some 100; Some 150; Some 150]%Z) = false /\
  V01.completed (V01.polls V01.finalizing [Some 100; Some 150; Some 150; Some 150]%Z) = false /\
  Spec.success_sample [100; 150; 150; 150]%Z = None.
Proof. repeat split; reflexivity. Qed.

(** C4, amended.  With the sizes 100, 150, 150, 150 the job is still
    processing after the fourth sample, its counter at 1 and one more
    comparison against 150 armed; a fifth sample of 150 completes it, and
    that is the first sample to do so.  In general a comparison that finds
    the size of the poll before adds one to the counter and completes the
    job when the counter comes to 2; a comparison that finds another size
    sets the counter to zero and arms [check_completion_status], which
    takes a new size to compare with and never completes the job itself.
    So the job completes on three equal samples in a row, the first of
    them taken by [check_completion_status]. *)
Theorem completion_after_two_stable_comparisons :
  V01.polls V01.finalizing [Some 100; Some 150; Some 150; Some 150]%Z =
    {| V01.is_processing := true; V01.progress_check_count := 1;
       V01.completed := false; V01.faulted := false;
       V01.pending := Some (V01.verify_stable 150) |} /\
  Spec.success_sample [100; 150; 150; 150; 150]%Z = Some 5%nat /\
  Spec.success_sample [150; 150; 150]%Z = Some 3%nat /\
  (forall count previous_size current_size : Z,
      let job := {| V01.is_processing := true; V01.progress_check_count := count;
                    V01.completed := false; V01.faulted := false;
                    V01.pending := Some (V01.verify_stable previous_size) |} in
      let job' := V01.poll job (Some current_size) in
      V01.progress_check_count job' =
        (if (current_size =? previous_size)%Z then count + 1 else 0)%Z /\
      V01.completed job' =
        ((current_size =? previous_size)%Z && (count + 1 >=? 2)%Z) /\
      V01.pending job' =
        (if (current_size =? previous_size)%Z
         then if (count + 1 >=? 2)%Z then None else Some (V01.verify_stable current_size)
         else Some V01.check_completion)) /\
  (forall (count : Z) (observed : option Z),
      let job := {| V01.is_processing := true; V01.progress_check_count := count;
                    V01.completed := false; V01.faulted := false;
                    V01.pending := Some V01.check_completion |} in
      let job' := V01.poll job observed in
      V01.progress_check_count job' = count /\
      V01.completed job' = false /\
      V01.pending job' =
        match observed with
        | Some size => Some (V01.verify_stable size)
        | None => Some V01.check_completion
        end).
Proof.
  split; [reflexivity|]. split; [reflexivity|]. split; [reflexivity|]. split.
  - intros count previous_size current_size. cbv zeta.
    unfold V01.poll, V01.verify_file_stable. simpl.
    destruct (current_size =? previous_size)%Z; [|auto].
    destruct (count + 1 >=? 2)%Z; auto.
  - intros count observed. cbv zeta.
    unfold V01.poll, V01.check_completion_status. simpl.
    destruct observed; auto.
Qed.

(** ** C5: detection fails softly *)

(** What V0.2 stores, whatever the executable does: an entry per known
    identifier, supported when the executable exited with 0 and its output
    names the identifier. *)
Lemma detect02_acceleration (d : V02.HardwareDetector) (b : Os.behaviour) :
  V02.detect_hardware_acceleration d b =
  Returns
    {| V02.hardware_acceleration :=
         map (fun entry =>
                (fst entry,
                 {| V02.name := snd entry;
                    V02.supported :=
                      Spec.clean_exit b &&
                      contains (fst entry) (lower (Spec.output_of b)) |}))
             V02.hwaccels_to_check;
       V02.hardware_encoders := V02.hardware_encoders d |}.
Proof.
  unfold V02.detect_hardware_acceleration.
  destruct b as [rc out | e |]; simpl Os.subprocess_run; cbv iota beta zeta.
  - simpl Os.returncode. simpl Os.stdout. simpl Spec.clean_exit. simpl Spec.output_of.
    destruct (rc =? 0)%Z; reflexivity.
  - reflexivity.
  - reflexivity.
Qed.

Lemma detect02_encoders (d : V02.HardwareDetector) (b : Os.behaviour) :
  V02.detect_hardware_encoders d b =
  Returns
    {| V02.hardware_acceleration := V02.hardware_acceleration d;
       V02.hardware_encoders :=
         map (fun entry =>
                (fst entry,
                 {| V02.name := snd entry;
                    V02.supported :=
                      Spec.clean_exit b &&
                      Regex.search_bol_multiline (V02.encoder_pattern (fst entry))
                        (Spec.output_of b) |}))
             V02.encoder_mapping |}.
Proof.
  unfold V02.detect_hardware_encoders.
  destruct b as [rc out | e |]; simpl Os.subprocess_run; cbv iota beta zeta.
  - simpl Os.returncode. simpl Os.stdout. simpl Spec.clean_exit. simpl Spec.output_of.
    destruct (rc =? 0)%Z; reflexivity.
  - reflexivity.
  - reflexivity.
Qed.


Lemma detect01_encoders (g : V01.FFmpegGUI) (b : Os.behaviour) :
  V01.detect_hardware_encoders g b =
  match b with
  | Os.Hangs => Blocks
  | _ =>
      Returns
        (V01.set_hardware_encoders g
           (map (fun entry =>
                   (fst entry,
                    {| V01.name := snd entry;
                       V01.supported :=
                         Spec.clean_exit b &&
                         Regex.search_bol_multiline (V01.encoder_pattern (fst entry))
                           (Spec.output_of b) |}))
                V01.encoder_mapping))
  end.
Proof.
  unfold V01.detect_hardware_encoders.
  destruct b as [rc out | e |]; simpl Os.subprocess_run; cbv iota beta zeta.
  - simpl Spec.clean_exit. simpl Spec.output_of.
    destruct (rc =? 0)%Z; reflexivity.
  - reflexivity.
  - reflexivity.
Qed.




(** ** The matcher decides the words of a regular expression *)

Import Regex.









(** ** C6: what the encoder pattern accepts *)

















Example listing_nvenc_detected :
  search_bol_multiline (V02.encoder_pattern "h264_nvenc") Samples.listing_nvenc = true /\
  search_bol_multiline (V02.encoder_pattern "hevc_nvenc") Samples.listing_nvenc = true /\
  search_bol_multiline (V02.encoder_pattern "h264_qsv") Samples.listing_nvenc = false.
Proof. repeat split; vm_compute; reflexivity. Qed.

(** The pattern of V0.1 ends with the identifier: a longer identifier that
    begins with it is enough there.  V0.2 asks for whitespace after it. *)
Example longer_identifier :
  search_bol_multiline (V02.encoder_pattern "h264_nvenc") Samples.listing_longer = false /\
  search_bol_multiline (V01.encoder_pattern "h264_nvenc") Samples.listing_longer = true.
Proof. split; vm_compute; reflexivity. Qed.

(** ** C7: a file without the signature is rejected and nothing is written *)

Lemma bytes_eqb_eq (a b : list byte) : V01.bytes_eqb a b = true <-> a = b.
Proof.
  revert b. induction a as [|x a IH]; intros [|y b]; simpl; split; intros H;
    try discriminate; try reflexivity.
  - apply andb_true_iff in H as [Hx Hr]. apply Byte.byte_dec_bl in Hx. apply IH in Hr.
    congruence.
  - injection H as -> ->. apply andb_true_iff. split; [apply Byte.byte_dec_lb; reflexivity|].
    apply IH. reflexivity.
Qed.

Lemma slice_head (data : list byte) (n : Z) :
  (0 <= n)%Z -> V01.slice data 0 n = take (Z.to_nat n) data.
Proof. intros H. unfold V01.slice. rewrite Z.sub_0_r. reflexivity. Qed.

Lemma decrypt_bytes_bad_signature (md5 : list byte -> list byte) (data : list byte) :
  V01.bytes_eqb (take 10 data) V01.signature = false ->
  V01.decrypt_bytes md5 data = Raises (V01.value_error "不是有效的NCM文件").
Proof.
  intros H. unfold V01.decrypt_bytes. rewrite slice_head by lia.
  change (Z.to_nat 10) with 10%nat. rewrite H.
  rewrite orb_true_r. reflexivity.
Qed.

(** The fallback writes a file only when it returns a path. *)
Lemma fallback_writes_on_success_only
  (md5 : list byte -> list byte) (crypto : bool) (temp_dir uuid : string)
  (fs fs' : Os.filesystem) (path : string) (result : outcome string) :
  V01.decrypt_ncm_fallback md5 crypto temp_dir uuid fs path = (fs', result) ->
  (exists temp_file_path, result = Returns temp_file_path) \/ fs' = fs.
Proof.
  unfold V01.decrypt_ncm_fallback. cbv zeta.
  destruct crypto; simpl negb; cbv iota.
  - destruct (Os.read_bytes fs path) as [data | e |].
    + destruct (V01.decrypt_bytes md5 data) as [decrypted | e |]; intros H;
        injection H as <- <-; eauto.
    + intros H; injection H as <- <-; auto.
    + intros H; injection H as <- <-; auto.
  - intros H; injection H as <- <-; auto.
Qed.

Lemma fallback_rejects_bad_signature
  (md5 : list byte -> list byte) (crypto : bool) (temp_dir uuid : string)
  (fs : Os.filesystem) (path : string) (data : list byte) :
  fs !! path = Some data ->
  V01.bytes_eqb (take 10 data) V01.signature = false ->
  exists e,
    V01.decrypt_ncm_fallback md5 crypto temp_dir uuid fs path = (fs, Raises e) /\
    exn_type e = PlainException /\
    String.prefix "NCM文件解密失败" (exn_str e) = true.
Proof.
  intros Hf Hs. unfold V01.decrypt_ncm_fallback, Os.read_bytes. cbv zeta. rewrite Hf.
  rewrite (decrypt_bytes_bad_signature md5 data Hs).
  destruct crypto; simpl negb; cbv iota; eexists; (split; [reflexivity|]);
    split; reflexivity.
Qed.

(** C7.  For a file whose first ten bytes are not the signature
    [CTENFDAM\0\0] (a shorter file included), [decrypt_ncm_fallback]
    raises its decryption error and leaves the files as they were: no
    temporary file is written.  The same holds for [decrypt_ncm_file] when
    [ncmdump] cannot be imported, where the fallback is the whole of the
    decryption. *)
Theorem decrypt_rejects_bad_signature
  (md5 : list byte -> list byte) (crypto : bool) (temp_dir uuid1 uuid2 : string)
  (fs : Os.filesystem) (path : string) (data : list byte) :
  fs !! path = Some data ->
  V01.bytes_eqb (take 10 data) V01.signature = false ->
  (exists e,
      V01.decrypt_ncm_fallback md5 crypto temp_dir uuid1 fs path = (fs, Raises e) /\
      exn_type e = PlainException /\
      String.prefix "NCM文件解密失败" (exn_str e) = true) /\
  (exists e,
      V01.decrypt_ncm_file md5 crypto temp_dir None uuid1 uuid2 fs path = (fs, Raises e) /\
      exn_type e = PlainException /\
      String.prefix "NCM文件解密失败" (exn_str e) = true).
Proof.
  intros Hf Hs.
  assert (exists e0,
             forall uuid,
               V01.decrypt_ncm_fallback md5 crypto temp_dir uuid fs path =
               (fs, Raises {| exn_type := PlainException; exn_str := V01.error_msg e0 |}))
    as (e0 & H0).
  { unfold V01.decrypt_ncm_fallback, Os.read_bytes. cbv zeta. rewrite Hf.
    rewrite (decrypt_bytes_bad_signature md5 data Hs).
    destruct crypto; simpl negb; cbv iota; eexists; intros uuid; reflexivity. }
  split.
  - eexists. split; [apply H0|]. split; reflexivity.
  - unfold V01.decrypt_ncm_file. cbv zeta. rewrite (H0 uuid1). cbv iota beta.
    eexists. split; [apply H0|]. split; reflexivity.
Qed.

Lemma decrypt_rejects_bad_signature_witness :
  (exists e,
      V01.decrypt_ncm_fallback Samples.no_md5 true "/tmp" "0123" Samples.disk "song.ncm"
        = (Samples.disk, Raises e) /\
      exn_type e = PlainException /\
      String.prefix "NCM文件解密失败" (exn_str e) = true) /\
  (exists e,
      V01.decrypt_ncm_file Samples.no_md5 true "/tmp" None "0123" "4567"
        Samples.disk "song.ncm" = (Samples.disk, Raises e) /\
      exn_type e = PlainException /\
      String.prefix "NCM文件解密失败" (exn_str e) = true).
Proof.
  apply (decrypt_rejects_bad_signature Samples.no_md5 true "/tmp" "0123" "4567"
           Samples.disk "song.ncm" Samples.wave_bytes); reflexivity.
Defined.

(** With the library routine in place: when it raises on the file and
    leaves it as it is, the fallback rejects it in turn and adds nothing
    to the files that the routine left. *)
Lemma decrypt_after_library_failure
  (md5 : list byte -> list byte) (crypto : bool) (temp_dir uuid1 uuid2 : string)
  (dump : Os.filesystem -> string -> Os.filesystem * outcome string)
  (fs fs' : Os.filesystem) (path : string) (data : list byte) (e0 : exn) :
  dump fs path = (fs', Raises e0) ->
  fs' !! path = Some data ->
  V01.bytes_eqb (take 10 data) V01.signature = false ->
  exists e,
    V01.decrypt_ncm_file md5 crypto temp_dir (Some dump) uuid1 uuid2 fs path
      = (fs', Raises e) /\
    exn_type e = PlainException.
Proof.
  intros Hd Hf Hs. unfold V01.decrypt_ncm_file. cbv zeta. rewrite Hd. cbv iota beta.
  destruct (fallback_rejects_bad_signature md5 crypto temp_dir uuid2 fs' path data Hf Hs)
    as (e & E & T & _). exists e. split; assumption.
Qed.

(** The wrapper of V0.2 writes nothing itself: the files after the call
    are the ones that the library routine left, and it returns a path only
    if the file is there. *)
Lemma decrypt02_adds_nothing
  (dump : Os.filesystem -> string -> string -> Os.filesystem * outcome string)
  (temp_dir uuid : string) (fs : Os.filesystem) (path : string) :
  let output_path := Os.path_join temp_dir ("ncm_decrypted_" +:+ uuid) in
  fst (V02.decrypt_ncm_file (Some dump) temp_dir uuid fs path)
    = fst (dump fs path output_path) /\
  (forall p, snd (V02.decrypt_ncm_file (Some dump) temp_dir uuid fs path) = Returns p ->
             p = output_path /\
             is_Some (fst (dump fs path output_path) !! output_path)) /\
  (forall e, snd (V02.decrypt_ncm_file (Some dump) temp_dir uuid fs path) = Raises e ->
             exn_type e = PlainException).
Proof.
  cbv zeta. unfold V02.decrypt_ncm_file. cbv zeta.
  destruct (dump fs path _) as [fs' [r | e |]]; simpl.
  - destruct (fs' !! _) eqn:E; simpl.
    + split; [reflexivity|]. split; [|discriminate].
      intros q [= <-]. split; [reflexivity | eauto].
    + split; [reflexivity|]. split; [discriminate|].
      intros e [= <-]. reflexivity.
  - split; [reflexivity|]. split; [discriminate|]. intros e' [= <-]. reflexivity.
  - split; [reflexivity|]. split; discriminate.
Qed.

(** Without the library V0.2 refuses every file. *)
Lemma decrypt02_without_library (temp_dir uuid : string) (fs : Os.filesystem) (path : string) :
  exists e,
    V02.decrypt_ncm_file None temp_dir uuid fs path = (fs, Raises e) /\
    exn_type e = PlainException.
Proof. eexists. split; reflexivity. Qed.

(** A container that carries the signature is decrypted and written. *)
Example tiny_ncm_is_written :
  V01.decrypt_ncm_fallback Samples.short_md5 true "/tmp" "0123"
    {[ "tiny.ncm" := Samples.tiny_ncm ]} "tiny.ncm" =
  (<[ "/tmp/ncm_decrypted_0123.mp3" := [xfe; x0d; xfc] ]>
     {[ "tiny.ncm" := Samples.tiny_ncm ]},
   Returns "/tmp/ncm_decrypted_0123.mp3").
Proof. reflexivity. Qed.

(** ** The choices offered after detection *)

Lemma fold_left_append_if {A B} (test : A -> bool) (g : A -> B) (l : list A) :
  forall init : list B,
    fold_left (fun acc x => if test x then acc ++ [g x] else acc) l init
    = init ++ map g (List.filter test l).
Proof.
  induction l as [|x l IH]; intros init; simpl.
  - rewrite app_nil_r. reflexivity.
  - rewrite IH. destruct (test x); simpl.
    + rewrite <- app_assoc. reflexivity.
    + reflexivity.
Qed.

Lemma filter_map_entries {A B} (test : B -> bool) (f : A -> B) (g : B -> A) (l : list A) :
  (forall x, g (f x) = x) ->
  map g (List.filter test (map f l)) = List.filter (fun x => test (f x)) l.
Proof.
  intros Hg. induction l as [|x l IH]; simpl; [reflexivity|].
  destruct (test (f x)); simpl; rewrite IH, ?Hg; reflexivity.
Qed.


Lemma options02_eq (self : V02.HardwareDetector) :
  V02.get_hwaccel_options self =
  [V02._t "hwaccel_none"] ++
  map (fun entry => V02.name (snd entry))
    (List.filter (fun entry => V02.supported (snd entry)) (V02.hardware_acceleration self)).
Proof.
  apply (fold_left_append_if (fun entry => V02.supported (snd entry))
           (fun entry : string * V02.info => V02.name (snd entry))).
Qed.


Lemma codecs01_eq (self : V01.FFmpegGUI) :
  fst (V01.refresh_video_encoder_options self) =
  ["libx264"; "libx265"; "mpeg4"; "vp9"; "copy"] ++
  map fst (List.filter (fun entry => V01.supported (snd entry)) (V01.hardware_encoders self)).
Proof.
  unfold V01.refresh_video_encoder_options.
  rewrite (fold_left_append_if (fun entry => V01.supported (snd entry))
             (fun entry : string * V01.info => fst entry)).
  destruct (negb _); reflexivity.
Qed.

Lemma existsb_eqb_In (x : string) (l : list string) :
  existsb (String.eqb x) l = true <-> In x l.
Proof.
  rewrite existsb_exists. split.
  - intros (y & Hy & E). apply String.eqb_eq in E. subst. assumption.
  - intros H. exists x. split; [assumption | apply String.eqb_refl].
Qed.


(** V0.2, [get_hwaccel_options] against [_get_hwaccel_internal_name]: the
    accelerator box is filled with the plain names of the table
    ("NVIDIA CUDA", ...), the builder looks the selection up under the
    [zh_CN] texts of the keys [hwaccel_*], which carry a symbol in front.
    So, whatever the detection found, no entry of the box has an internal
    name, and a request that carries one gets no [-hwaccel] group: the
    command goes on with [-i] right after the executable. *)
Theorem offered_accelerator_is_never_written
  (d : V02.HardwareDetector) (hwaccels encoders : Os.behaviour) :
  exists d',
    V02.detect_all d hwaccels encoders = Returns d' /\
    forall option,
      In option (V02.get_hwaccel_options d') ->
      V02._get_hwaccel_internal_name option = None /\
      forall p, V02.hwaccel p = Some option ->
        exists rest,
          V02.build_command p = "ffmpeg" :: "-i" :: V02.input_file p :: "-y" :: rest.
Proof.
  unfold V02.detect_all. rewrite detect02_acceleration, detect02_encoders.
  eexists. split; [reflexivity|].
  intros option Hin.
  assert (Hname : V02._get_hwaccel_internal_name option = None).
  { rewrite options02_eq in Hin. cbn [V02.hardware_acceleration] in Hin.
    apply in_app_or in Hin. destruct Hin as [Hin | Hin].
    - destruct Hin as [<- | []]. vm_compute. reflexivity.
    - apply in_map_iff in Hin. destruct Hin as (entry & <- & Hin).
      apply filter_In in Hin. destruct Hin as [Hin _].
      apply in_map_iff in Hin. destruct Hin as (e0 & <- & Hin). cbn [snd V02.name].
      unfold V02.hwaccels_to_check in Hin. simpl in Hin.
      destruct Hin as [<- | [<- | [<- | [<- | [<- | [<- | []]]]]]];
        vm_compute; reflexivity. }
  split; [assumption|].
  intros p Hp. rewrite V02_groups_eq. unfold Groups02.grouped, Groups02.hwaccel_args.
  rewrite Hp. change (default "" (Some option)) with option.
  rewrite Hname. cbn [V02.extend_if app].
  eexists. reflexivity.
Qed.



Lemma refresh01_eq (g : V01.FFmpegGUI) :
  let codecs :=
    ["libx264"; "libx265"; "mpeg4"; "vp9"; "copy"] ++
    map fst (List.filter (fun entry => V01.supported (snd entry)) (V01.hardware_encoders g)) in
  V01.refresh_video_encoder_options g =
  (codecs,
   if existsb (String.eqb (V01.video_codec (V01.vars g))) codecs
   then g else V01.set_video_codec g "libx264").
Proof.
  cbv zeta. unfold V01.refresh_video_encoder_options.
  rewrite (fold_left_append_if (fun entry => V01.supported (snd entry))
             (fun entry : string * V01.info => fst entry)).
  destruct (existsb _ _); reflexivity.
Qed.

(** V0.1, [refresh_video_encoder_options]: after the call the selected
    video codec is one of the values of the box.  A selection that is
    still offered is kept, with everything else; one that is not is
    replaced by [libx264]. *)
Theorem refresh_keeps_selection_offered (g : V01.FFmpegGUI) :
  let codecs := fst (V01.refresh_video_encoder_options g) in
  let g' := snd (V01.refresh_video_encoder_options g) in
  In (V01.video_codec (V01.vars g')) codecs /\
  (In (V01.video_codec (V01.vars g)) codecs -> g' = g) /\
  (~ In (V01.video_codec (V01.vars g)) codecs ->
   g' = V01.set_video_codec g "libx264").
Proof.
  cbv zeta. rewrite refresh01_eq. cbn [fst snd].
  set (codecs := _ ++ _).
  destruct (existsb (String.eqb (V01.video_codec (V01.vars g))) codecs) eqn:E.
  - apply existsb_eqb_In in E. split; [assumption|]. split; [reflexivity|].
    intros H. contradiction.
  - split; [|split].
    + cbn. left. reflexivity.
    + intros H. apply existsb_eqb_In in H. congruence.
    + reflexivity.
Qed.

(** V0.1, [detect_hardware_encoders] then
    [refresh_video_encoder_options]: after a detection whose run did not
    end with exit status 0 the box offers the five software codecs and
    nothing else, and the selection is one of them: a hardware encoder
    that was selected before is replaced by [libx264], so that the next
    command does not name an encoder that was not found. *)
Theorem failed_detection_resets_codec01 (g g1 : V01.FFmpegGUI) (b : Os.behaviour) :
  V01.detect_hardware_encoders g b = Returns g1 ->
  Spec.clean_exit b = false ->
  let codecs := fst (V01.refresh_video_encoder_options g1) in
  let g2 := snd (V01.refresh_video_encoder_options g1) in
  codecs = ["libx264"; "libx265"; "mpeg4"; "vp9"; "copy"] /\
  In (V01.video_codec (V01.vars g2)) codecs /\
  (In (V01.video_codec (V01.vars g)) Spec.encoder_ids ->
   V01.video_codec (V01.vars g2) = "libx264").
Proof.
  intros Hdet Hclean. cbv zeta. rewrite detect01_encoders in Hdet.
  assert (Hg1 : V01.hardware_encoders g1 =
                map (fun entry => (fst entry, {| V01.name := snd entry;
                                                 V01.supported := false |}))
                    V01.encoder_mapping /\
                V01.vars g1 = V01.vars g).
  { destruct b; try discriminate Hdet; injection Hdet as <-; simpl in Hclean |- *;
      rewrite ?Hclean; split; reflexivity. }
  destruct Hg1 as [Henc Hvars].
  rewrite refresh01_eq, Henc, Hvars. cbn [fst snd map List.filter V01.supported snd app].
  split; [reflexivity|].
  destruct (existsb _ _) eqn:E.
  - apply existsb_eqb_In in E. rewrite Hvars. split; [assumption|].
    intros Hsel. exfalso. simpl in E, Hsel.
    repeat match goal with
           | H : _ \/ _ |- _ => destruct H as [H | H]
           end; try contradiction; congruence.
  - split; [cbn; left; reflexivity | intros _; reflexivity].
Qed.

Lemma failed_detection_resets_codec01_witness :
  fst (V01.refresh_video_encoder_options Samples.nvenc_lost01)
    = ["libx264"; "libx265"; "mpeg4"; "vp9"; "copy"] /\
  In (V01.video_codec (V01.vars (snd (V01.refresh_video_encoder_options Samples.nvenc_lost01))))
     (fst (V01.refresh_video_encoder_options Samples.nvenc_lost01)) /\
  (In (V01.video_codec (V01.vars Samples.nvenc01)) Spec.encoder_ids ->
   V01.video_codec (V01.vars (snd (V01.refresh_video_encoder_options Samples.nvenc_lost01)))
     = "libx264").
Proof.
  apply (failed_detection_resets_codec01 Samples.nvenc01 Samples.nvenc_lost01
           Samples.not_installed).
  - reflexivity.
  - reflexivity.
Defined.
(** ** The builder of V0.2 and the language of the window *)

Lemma has_flag_in_groups (flag value : string) (before group after : list string) :
  group = [flag; value] -> Spec.has_flag flag value (before ++ group ++ after).
Proof. intros ->. exists before, after. reflexivity. Qed.

(** V0.2, [FFmpegCommandBuilder._t] against the [t] of the tabs: the
    builder compares the selections with the [zh_CN] texts whatever the
    language of the window is, while the tabs fill their combos with the
    texts of the current language.  For a request that carries the
    [en_US] texts: the keep-original and the custom entries of the
    resolution and of the frame rate are written as the values of [-s] and
    [-r] (the free text is not read), and none of the [en_US] quality
    texts selects quality flags. *)
Theorem builder_compares_with_zh_CN_texts (p : V02.Params) :
  (forall key, In key ["original_resolution"; "custom_resolution"] ->
     V02.resolution p = Some (V02.get_text "en_US" key) ->
     Spec.has_flag "-s" (V02.get_text "en_US" key) (V02.build_command p)) /\
  (forall key, In key ["original_fps"; "custom_fps"] ->
     V02.fps p = Some (V02.get_text "en_US" key) ->
     Spec.has_flag "-r" (V02.get_text "en_US" key) (V02.build_command p)) /\
  (forall key, In key ["high_quality"; "medium_quality"; "low_quality"; "original_quality"] ->
     V02.video_quality p = Some (V02.get_text "en_US" key) ->
     V02._get_quality_params p = []).
Proof.
  rewrite V02_groups_eq. unfold Groups02.grouped. repeat split.
  - intros key Hkey Hres.
    assert (E : Groups02.resolution_args p = ["-s"; V02.get_text "en_US" key]).
    { unfold Groups02.resolution_args, V02._get_resolution. rewrite Hres.
      simpl in Hkey. destruct Hkey as [<- | [<- | []]]; vm_compute; reflexivity. }
    rewrite E.
    exists (["ffmpeg"] ++ Groups02.hwaccel_args p ++ ["-i"; V02.input_file p] ++ ["-y"] ++
            Groups02.video_codec_args p). eexists.
    rewrite <- !app_assoc. reflexivity.
  - intros key Hkey Hfps.
    assert (E : Groups02.fps_args p = ["-r"; V02.get_text "en_US" key]).
    { unfold Groups02.fps_args, V02._get_fps. rewrite Hfps.
      simpl in Hkey. destruct Hkey as [<- | [<- | []]]; vm_compute; reflexivity. }
    rewrite E.
    exists (["ffmpeg"] ++ Groups02.hwaccel_args p ++ ["-i"; V02.input_file p] ++ ["-y"] ++
            Groups02.video_codec_args p ++ Groups02.resolution_args p). eexists.
    rewrite <- !app_assoc. reflexivity.
  - intros key Hkey Hq. unfold V02._get_quality_params. rewrite Hq.
    simpl in Hkey. destruct Hkey as [<- | [<- | [<- | [<- | []]]]]; vm_compute; reflexivity.
Qed.

Lemma builder_compares_with_zh_CN_texts_witness :
  Spec.has_flag "-s" "Original Resolution" (V02.build_command Samples.english_widgets02) /\
  Spec.has_flag "-r" "Original FPS" (V02.build_command Samples.english_widgets02) /\
  V02._get_quality_params Samples.english_widgets02 = [].
Proof.
  destruct (builder_compares_with_zh_CN_texts Samples.english_widgets02) as (Hs & Hr & Hq).
  split; [|split].
  - apply (Hs "original_resolution"); [left; reflexivity | reflexivity].
  - apply (Hr "original_fps"); [left; reflexivity | reflexivity].
  - apply (Hq "high_quality"); [left; reflexivity | reflexivity].
Defined.
(** ** The encoder tables of the two versions *)






(** ** Polling for a file that is not there *)

Lemma polls_idle (job : V01.Job) (observations : list (option Z)) :
  V01.pending job = None -> V01.polls job observations = job.
Proof.
  intros H. unfold V01.polls. induction observations as [|o rest IH]; simpl.
  - reflexivity.
  - unfold V01.poll at 2. rewrite H. exact IH.
Qed.

Lemma polls_cons (job : V01.Job) (o : option Z) (rest : list (option Z)) :
  V01.polls job (o :: rest) = V01.polls (V01.poll job o) rest.
Proof. reflexivity. Qed.

(** V0.1, [check_completion_status] and [verify_file_stable] when the
    output file is missing.  As long as the file has not appeared,
    [check_completion_status] re-arms itself: however many polls pass, the
    job is where it was, there is no limit to the waiting.  When the file
    was seen and is gone at the poll that compares its size,
    [os.path.getsize] raises in the callback: nothing is re-armed, and
    whatever is observed afterwards the job stays in processing, neither
    completed nor failed. *)
Theorem polling_without_output_file :
  (forall (n : nat), V01.polls V01.finalizing (repeat None n) = V01.finalizing) /\
  (forall (job : V01.Job) (previous_size : Z) (later : list (option Z)),
      V01.is_processing job = true ->
      V01.pending job = Some (V01.verify_stable previous_size) ->
      let job' := V01.polls job (None :: later) in
      V01.is_processing job' = true /\
      V01.completed job' = V01.completed job /\
      V01.progress_check_count job' = V01.progress_check_count job /\
      V01.faulted job' = true /\
      V01.pending job' = None).
Proof.
  split.
  - induction n as [|n IH]; [reflexivity|].
    cbn [repeat]. rewrite polls_cons. exact IH.
  - intros job previous_size later Hproc Hpend. cbv zeta.
    rewrite polls_cons.
    assert (E : V01.poll job None =
                {| V01.is_processing := V01.is_processing job;
                   V01.progress_check_count := V01.progress_check_count job;
                   V01.completed := V01.completed job; V01.faulted := true;
                   V01.pending := None |}).
    { unfold V01.poll. rewrite Hpend. unfold V01.verify_file_stable.
      rewrite Hproc. reflexivity. }
    rewrite E, polls_idle by reflexivity. cbn. repeat split. assumption.
Qed.

Lemma polling_without_output_file_witness :
  V01.polls V01.finalizing (repeat None 5) = V01.finalizing /\
  (let job' := V01.polls Samples.comparing [None; Some 100; Some 100; Some 100]%Z in
   V01.is_processing job' = true /\
   V01.completed job' = V01.completed Samples.comparing /\
   V01.progress_check_count job' = V01.progress_check_count Samples.comparing /\
   V01.faulted job' = true /\
   V01.pending job' = None).
Proof.
  destruct polling_without_output_file as [Hwait Hgone].
  split.
  - apply (Hwait 5%nat).
  - apply (Hgone Samples.comparing 100%Z [Some 100; Some 100; Some 100]%Z); reflexivity.
Defined.
(** ** The container and its reader *)

Lemma to_N_byte_of_Z (z : Z) :
  (0 <= z < 256)%Z -> Z.of_N (Byte.to_N (Container.byte_of_Z z)) = z.
Proof.
  intros H. unfold Container.byte_of_Z.
  destruct (Byte.of_N (Z.to_N z)) as [b|] eqn:E.
  - apply Byte.to_of_N in E. cbn [default]. simpl. rewrite E. lia.
  - apply Byte.of_N_None_iff in E. lia.
Qed.

Lemma unpack_pack_le32 (n : Z) :
  (0 <= n < 2 ^ 32)%Z -> V01.unpack_le32 (Container.pack_le32 n) = n.
Proof.
  intros H. unfold Container.pack_le32, V01.unpack_le32. cbn [fold_right].
  rewrite !to_N_byte_of_Z by (apply Z.mod_pos_bound; lia).
  change (2 ^ 32)%Z with 4294967296%Z in H.
  pose proof (Z.div_mod n 256 ltac:(lia)) as E0.
  pose proof (Z.div_mod (n / 256) 256 ltac:(lia)) as E1.
  pose proof (Z.div_mod (n / 256 / 256) 256 ltac:(lia)) as E2.
  pose proof (Z.div_mod (n / 256 / 256 / 256) 256 ltac:(lia)) as E3.
  pose proof (Z.mod_pos_bound n 256 ltac:(lia)) as B0.
  pose proof (Z.mod_pos_bound (n / 256) 256 ltac:(lia)) as B1.
  pose proof (Z.mod_pos_bound (n / 256 / 256) 256 ltac:(lia)) as B2.
  pose proof (Z.mod_pos_bound (n / 256 / 256 / 256) 256 ltac:(lia)) as B3.
  generalize dependent (n mod 256)%Z. intros r0 E0 B0.
  generalize dependent (n / 256 mod 256)%Z. intros r1 E1 B1.
  generalize dependent (n / 256 / 256 mod 256)%Z. intros r2 E2 B2.
  generalize dependent (n / 256 / 256 / 256 mod 256)%Z. intros r3 E3 B3.
  generalize dependent (n / 256 / 256 / 256 / 256)%Z. intros q4 E3.
  generalize dependent (n / 256 / 256 / 256)%Z. intros q3 E2 E3.
  generalize dependent (n / 256 / 256)%Z. intros q2 E1 E2.
  generalize dependent (n / 256)%Z. intros q1 E0 E1.
  lia.
Qed.

Lemma unpack_le32_nonneg (b : list byte) : (0 <= V01.unpack_le32 b)%Z.
Proof.
  unfold V01.unpack_le32. induction b as [|x b IH]; cbn [fold_right]; lia.
Qed.

Lemma slice_middle (pre mid post : list byte) :
  V01.slice (pre ++ mid ++ post) (V01.len pre) (V01.len pre + V01.len mid) = mid.
Proof.
  unfold V01.slice, V01.len.
  replace (Z.to_nat (Z.of_nat (length pre) + Z.of_nat (length mid) - Z.of_nat (length pre)))
    with (length mid) by lia.
  rewrite Nat2Z.id, drop_app_length, take_app_length. reflexivity.
Qed.

Lemma slice_from_end (pre post : list byte) :
  V01.slice_from (pre ++ post) (V01.len pre) = post.
Proof.
  unfold V01.slice_from, V01.len. rewrite Nat2Z.id, drop_app_length. reflexivity.
Qed.

Lemma byte_xor_to_N (a k : byte) :
  Byte.to_N (V01.byte_xor a k) = N.lxor (Byte.to_N a) (Byte.to_N k).
Proof.
  unfold V01.byte_xor.
  destruct (Byte.of_N (N.lxor (Byte.to_N a) (Byte.to_N k))) as [b|] eqn:E.
  - apply Byte.to_of_N in E. exact E.
  - exfalso. apply Byte.of_N_None_iff in E.
    pose proof (Byte.to_N_bounded a) as Ha. pose proof (Byte.to_N_bounded k) as Hk.
    assert (Hlt : (N.lxor (Byte.to_N a) (Byte.to_N k) < 2 ^ 8)%N).
    { destruct (N.eq_dec (N.lxor (Byte.to_N a) (Byte.to_N k)) 0%N) as [-> | Hnz]; [reflexivity|].
      apply N.log2_lt_pow2; [lia|].
      eapply N.le_lt_trans; [apply N.log2_lxor|].
      apply N.max_lub_lt.
      - destruct (N.eq_dec (Byte.to_N a) 0%N) as [-> | Hn]; [reflexivity|].
        apply N.log2_lt_pow2; [lia|]. change (2 ^ 8)%N with 256%N. lia.
      - destruct (N.eq_dec (Byte.to_N k) 0%N) as [-> | Hn]; [reflexivity|].
        apply N.log2_lt_pow2; [lia|]. change (2 ^ 8)%N with 256%N. lia. }
    change (2 ^ 8)%N with 256%N in Hlt. lia.
Qed.

Lemma byte_xor_involutive (a k : byte) : V01.byte_xor (V01.byte_xor a k) k = a.
Proof.
  assert (H : Byte.to_N (V01.byte_xor (V01.byte_xor a k) k) = Byte.to_N a).
  { rewrite !byte_xor_to_N, N.lxor_assoc, N.lxor_nilpotent, N.lxor_0_r. reflexivity. }
  pose proof (Byte.of_to_N (V01.byte_xor (V01.byte_xor a k) k)) as H1.
  pose proof (Byte.of_to_N a) as H2. congruence.
Qed.

Lemma xor_with_key_involutive (key data : list byte) :
  V01.xor_with_key key (V01.xor_with_key key data) = data.
Proof.
  apply list_eq. intros i. unfold V01.xor_with_key.
  rewrite !list_lookup_imap.
  destruct (data !! i) as [b|]; cbn; [|reflexivity].
  rewrite byte_xor_involutive. reflexivity.
Qed.

Lemma xor_with_key_length (key data : list byte) :
  length (V01.xor_with_key key data) = length data.
Proof. apply length_imap. Qed.

Lemma len_app (a b : list byte) : V01.len (a ++ b) = (V01.len a + V01.len b)%Z.
Proof. unfold V01.len. rewrite length_app. lia. Qed.

Lemma len_pack_le32 (n : Z) : V01.len (Container.pack_le32 n) = 4%Z.
Proof. reflexivity. Qed.

Lemma len_nonneg (a : list byte) : (0 <= V01.len a)%Z.
Proof. unfold V01.len. lia. Qed.

Lemma slice_at (data pre mid post : list byte) (lo hi : Z) :
  data = pre ++ mid ++ post -> lo = V01.len pre -> hi = (lo + V01.len mid)%Z ->
  V01.slice data lo hi = mid.
Proof. intros -> -> ->. apply slice_middle. Qed.

Lemma slice_from_at (data pre post : list byte) (lo : Z) :
  data = pre ++ post -> lo = V01.len pre -> V01.slice_from data lo = post.
Proof. intros -> ->. apply slice_from_end. Qed.

Ltac container_layout :=
  unfold Container.build, Container.block; rewrite <- ?app_assoc; reflexivity.

Ltac container_offset :=
  rewrite ?len_app, ?len_pack_le32; change (V01.len V01.signature) with 10%Z; lia.

Lemma decrypt_bytes_container (md5 : list byte -> list byte)
  (key_data meta image audio : list byte) :
  (V01.len key_data < 2 ^ 32)%Z ->
  (V01.len meta < 2 ^ 32)%Z ->
  (V01.len image < 2 ^ 32)%Z ->
  audio <> [] ->
  md5 V01.core_key <> [] ->
  V01.decrypt_bytes md5 (Container.build key_data meta image audio)
  = Returns (V01.xor_with_key (md5 V01.core_key) audio).
Proof.
  intros Hk Hm Hi Haudio Hkey.
  pose proof (len_nonneg key_data) as Pk. pose proof (len_nonneg meta) as Pm.
  pose proof (len_nonneg image) as Pi. pose proof (len_nonneg audio) as Pa.
  assert (Pa' : (0 < V01.len audio)%Z).
  { unfold V01.len. destruct audio; [contradiction | simpl; lia]. }
  set (data := Container.build key_data meta image audio).
  assert (Hlen : V01.len data =
                 (22 + V01.len key_data + V01.len meta + V01.len image + V01.len audio)%Z).
  { unfold data, Container.build, Container.block. container_offset. }
  assert (Hsig : V01.slice data 0 10 = V01.signature).
  { apply (slice_at data [] V01.signature
             (Container.block key_data ++ Container.block meta ++
              Container.block image ++ audio)); [reflexivity | reflexivity | reflexivity]. }
  assert (Hklen : V01.unpack_le32 (V01.slice data 10 (10 + 4)) = V01.len key_data).
  { rewrite (slice_at data V01.signature (Container.pack_le32 (V01.len key_data))
               (key_data ++ Container.block meta ++ Container.block image ++ audio));
      [apply unpack_pack_le32; lia | unfold data; container_layout
       | container_offset | container_offset]. }
  assert (Hmlen : V01.unpack_le32
                    (V01.slice data (10 + 4 + V01.len key_data)
                       (10 + 4 + V01.len key_data + 4)) = V01.len meta).
  { rewrite (slice_at data (V01.signature ++ Container.block key_data)
               (Container.pack_le32 (V01.len meta))
               (meta ++ Container.block image ++ audio));
      [apply unpack_pack_le32; lia | unfold data; container_layout
       | unfold Container.block; container_offset | container_offset]. }
  assert (Hilen : V01.unpack_le32
                    (V01.slice data (10 + 4 + V01.len key_data + 4 + V01.len meta)
                       (10 + 4 + V01.len key_data + 4 + V01.len meta + 4))
                  = V01.len image).
  { rewrite (slice_at data
               (V01.signature ++ Container.block key_data ++ Container.block meta)
               (Container.pack_le32 (V01.len image)) (image ++ audio));
      [apply unpack_pack_le32; lia | unfold data; container_layout
       | unfold Container.block; container_offset | container_offset]. }
  assert (Haud : V01.slice_from data
                   (10 + 4 + V01.len key_data + 4 + V01.len meta + 4 + V01.len image)
                 = audio).
  { apply (slice_from_at data
             (V01.signature ++ Container.block key_data ++ Container.block meta ++
              Container.block image));
      [unfold data; container_layout | unfold Container.block; container_offset]. }
  unfold V01.decrypt_bytes. cbv zeta.
  rewrite Hsig, Hklen, Hmlen, Hilen, Hlen.
  change (V01.bytes_eqb V01.signature V01.signature) with true.
  repeat match goal with
         | |- context [(?a <? ?b)%Z] => destruct (Z.ltb_spec a b); [lia|]
         end.
  cbn [orb negb andb].
  destruct (Z.gtb_spec (V01.len image) 0) as [Hpos | Hzero]; cbn [andb].
  - destruct (Z.ltb_spec
                (22 + V01.len key_data + V01.len meta + V01.len image + V01.len audio)
                (10 + 4 + V01.len key_data + 4 + V01.len meta + 4 + V01.len image));
      [lia|].
    rewrite Haud. destruct audio; [contradiction|].
    destruct (md5 V01.core_key); [contradiction | reflexivity].
  - assert (Hz : V01.len image = 0%Z) by lia.
    replace (10 + 4 + V01.len key_data + 4 + V01.len meta + 4)%Z
      with (10 + 4 + V01.len key_data + 4 + V01.len meta + 4 + V01.len image)%Z by lia.
    rewrite Haud. destruct audio; [contradiction|].
    destruct (md5 V01.core_key); [contradiction | reflexivity].
Qed.

(** V0.1, [decrypt_ncm_fallback], the bytes it decrypts: whenever the
    parsing comes to its end, the file begins with the signature and the
    result is a non-empty tail of the file, starting no earlier than byte
    22 (signature and three length fields), combined byte by byte with the
    digest of the fixed core key, repeated.  Key block, metadata and cover
    are stepped over: no byte of them enters the result. *)
Theorem decrypted_bytes_are_xor_of_tail
  (md5 : list byte -> list byte) (data out : list byte) :
  V01.decrypt_bytes md5 data = Returns out ->
  exists offset,
    (22 <= offset < V01.len data)%Z /\
    take 10 data = V01.signature /\
    out = V01.xor_with_key (md5 V01.core_key) (V01.slice_from data offset) /\
    V01.len out = (V01.len data - offset)%Z.
Proof.
  intros H. unfold V01.decrypt_bytes in H. cbv zeta in H.
  destruct ((V01.len data <? 10)%Z || negb (V01.bytes_eqb (V01.slice data 0 10) V01.signature))
    eqn:C0; [discriminate H|].
  apply orb_false_iff in C0. destruct C0 as [_ Csig].
  apply negb_false_iff, bytes_eqb_eq in Csig.
  rewrite slice_head in Csig by lia.
  set (kl := V01.unpack_le32 (V01.slice data 10 (10 + 4))) in *.
  set (ml := V01.unpack_le32 (V01.slice data (10 + 4 + kl) (10 + 4 + kl + 4))) in *.
  set (il := V01.unpack_le32
               (V01.slice data (10 + 4 + kl + 4 + ml) (10 + 4 + kl + 4 + ml + 4))) in *.
  pose proof (unpack_le32_nonneg (V01.slice data 10 (10 + 4))) as Pk.
  pose proof (unpack_le32_nonneg (V01.slice data (10 + 4 + kl) (10 + 4 + kl + 4))) as Pm.
  pose proof (unpack_le32_nonneg
                (V01.slice data (10 + 4 + kl + 4 + ml) (10 + 4 + kl + 4 + ml + 4))) as Pi.
  fold kl in Pk. fold ml in Pm. fold il in Pi.
  assert (H' : exists offset,
             (22 <= offset <= V01.len data)%Z /\
             match V01.slice_from data offset with
             | [] => Raises (V01.value_error "没有找到加密的音乐数据")
             | _ :: _ =>
                 match md5 V01.core_key with
                 | [] => Raises {| exn_type := ZeroDivisionError;
                                   exn_str := "integer division or modulo by zero" |}
                 | _ :: _ => Returns (V01.xor_with_key (md5 V01.core_key)
                                        (V01.slice_from data offset))
                 end
             end = Returns out).
  { destruct (Z.gtb_spec il 0); cbn [andb] in H;
      repeat match type of H with
             | context [(?a <? ?b)%Z] =>
                 destruct (Z.ltb_spec a b); [discriminate H|]
             end;
      eexists; (split; [|exact H]); lia. }
  destruct H' as (offset & Hrange & H').
  clear H. exists offset.
  assert (Hl : V01.len (V01.slice_from data offset) = (V01.len data - offset)%Z).
  { unfold V01.slice_from, V01.len in *. rewrite length_drop. lia. }
  destruct (V01.slice_from data offset) as [|b tail] eqn:Etail; [discriminate H'|].
  destruct (md5 V01.core_key) as [|k0 key] eqn:Ekey; [discriminate H'|].
  injection H' as <-.
  split; [|split; [exact Csig | split; [reflexivity|]]].
  - unfold V01.len in Hl, Hrange |- *. cbn [length] in Hl. lia.
  - unfold V01.len at 1. rewrite xor_with_key_length. exact Hl.
Qed.

Lemma decrypted_bytes_are_xor_of_tail_witness :
  exists offset,
    (22 <= offset < V01.len Samples.tiny_ncm)%Z /\
    take 10 Samples.tiny_ncm = V01.signature /\
    [xfe; x0d; xfc] =
      V01.xor_with_key (Samples.short_md5 V01.core_key)
        (V01.slice_from Samples.tiny_ncm offset) /\
    V01.len [xfe; x0d; xfc] = (V01.len Samples.tiny_ncm - offset)%Z.
Proof.
  apply (decrypted_bytes_are_xor_of_tail Samples.short_md5 Samples.tiny_ncm [xfe; x0d; xfc]).
  reflexivity.
Defined.

(** V0.1, [decrypt_ncm_fallback] on a well-formed container: a file laid
    out as the signature, the key block, the metadata block and the cover
    block, each after its little-endian length, and then at least one
    audio byte, is accepted, and the result is the audio bytes combined
    with the repeated digest: as many bytes as the audio section has,
    and the same for every content of the three blocks. *)
Theorem container_is_accepted (md5 : list byte -> list byte)
  (key_data meta image audio : list byte) :
  (V01.len key_data < 2 ^ 32)%Z ->
  (V01.len meta < 2 ^ 32)%Z ->
  (V01.len image < 2 ^ 32)%Z ->
  audio <> [] ->
  md5 V01.core_key <> [] ->
  exists out,
    V01.decrypt_bytes md5 (Container.build key_data meta image audio) = Returns out /\
    out = V01.xor_with_key (md5 V01.core_key) audio /\
    length out = length audio /\
    V01.decrypt_bytes md5 (Container.build [] [] [] audio) = Returns out.
Proof.
  intros Hk Hm Hi Haudio Hkey. eexists. split; [|split; [reflexivity|split]].
  - apply decrypt_bytes_container; assumption.
  - apply xor_with_key_length.
  - apply decrypt_bytes_container; try assumption; reflexivity.
Qed.

Lemma container_is_accepted_witness :
  exists out,
    V01.decrypt_bytes Samples.digest16
      (Container.build [x01; x02] [x03] [x04; x05; x06] [x10; x20; x30]) = Returns out /\
    out = V01.xor_with_key (Samples.digest16 V01.core_key) [x10; x20; x30] /\
    length out = length [x10; x20; x30] /\
    V01.decrypt_bytes Samples.digest16 (Container.build [] [] [] [x10; x20; x30])
      = Returns out.
Proof.
  apply (container_is_accepted Samples.digest16 [x01; x02] [x03] [x04; x05; x06]
           [x10; x20; x30]); try reflexivity; discriminate.
Defined.

(** V0.1, the decryption loop of [decrypt_ncm_fallback] is its own
    inverse: audio bytes that were combined with the repeated digest and
    put into a container come back unchanged. *)
Theorem container_round_trip (md5 : list byte -> list byte)
  (key_data meta image plain : list byte) :
  (V01.len key_data < 2 ^ 32)%Z ->
  (V01.len meta < 2 ^ 32)%Z ->
  (V01.len image < 2 ^ 32)%Z ->
  plain <> [] ->
  md5 V01.core_key <> [] ->
  V01.decrypt_bytes md5
    (Container.build key_data meta image (V01.xor_with_key (md5 V01.core_key) plain))
  = Returns plain.
Proof.
  intros Hk Hm Hi Hplain Hkey.
  rewrite decrypt_bytes_container; try assumption.
  - rewrite xor_with_key_involutive. reflexivity.
  - intros E. apply (f_equal (@length byte)) in E.
    rewrite xor_with_key_length in E. destruct plain; [contradiction | discriminate E].
Qed.

Lemma container_round_trip_witness :
  V01.decrypt_bytes Samples.digest16
    (Container.build [x01; x02] [x03] [x04; x05; x06]
       (V01.xor_with_key (Samples.digest16 V01.core_key) (list_byte_of_string "ID3 audio")))
  = Returns (list_byte_of_string "ID3 audio").
Proof.
  apply (container_round_trip Samples.digest16 [x01; x02] [x03] [x04; x05; x06]
           (list_byte_of_string "ID3 audio")); try reflexivity; discriminate.
Defined.
(** ** File names *)

Lemma chars_app (a b : string) :
  list_ascii_of_string (a +:+ b) = list_ascii_of_string a ++ list_ascii_of_string b.
Proof. induction a as [|c a IH]; simpl; [reflexivity | rewrite IH; reflexivity]. Qed.

Lemma string_of_chars_app (a b : list ascii) :
  string_of_list_ascii (a ++ b) = string_of_list_ascii a +:+ string_of_list_ascii b.
Proof. induction a as [|c a IH]; simpl; [reflexivity | rewrite IH; reflexivity]. Qed.

Lemma starts_with_iff (prefix s : list ascii) :
  starts_with prefix s = true <-> exists rest, s = prefix ++ rest.
Proof.
  revert s. induction prefix as [|x prefix IH]; intros s; simpl.
  - split; [intros _; exists s; reflexivity | reflexivity].
  - destruct s as [|y s].
    + split; [discriminate | intros (rest & E); discriminate E].
    + rewrite andb_true_iff, IH. split.
      * intros (E & rest & ->). apply Ascii.eqb_eq in E. subst. exists rest. reflexivity.
      * intros (rest & E). injection E as -> ->. split; [apply Ascii.eqb_refl | eauto].
Qed.

Lemma endswith_iff (s suffix : string) :
  endswith s suffix = true <-> exists stem, s = stem +:+ suffix.
Proof.
  unfold endswith. rewrite starts_with_iff. split.
  - intros (rest & E). exists (string_of_list_ascii (rev rest)).
    apply (f_equal (@rev ascii)) in E. rewrite rev_involutive, rev_app_distr, rev_involutive in E.
    rewrite <- (string_of_list_ascii_of_string s), E, string_of_chars_app,
      string_of_list_ascii_of_string. reflexivity.
  - intros (stem & ->). exists (rev (list_ascii_of_string stem)).
    rewrite chars_app, rev_app_distr. reflexivity.
Qed.

Lemma rfind_last_app (c : ascii) (a b : list ascii) :
  rfind_last c (a ++ b) =
  match rfind_last c b with
  | Some i => Some (length a + i)%nat
  | None => rfind_last c a
  end.
Proof.
  induction a as [|x a IH]; simpl.
  - destruct (rfind_last c b); reflexivity.
  - rewrite IH. destruct (rfind_last c b); [reflexivity|].
    destruct (rfind_last c a); reflexivity.
Qed.

Lemma rfind_last_None (c : ascii) (s : list ascii) :
  forallb (fun x => negb (Ascii.eqb x c)) s = true -> rfind_last c s = None.
Proof.
  induction s as [|x s IH]; simpl; [reflexivity|].
  intros H. apply andb_true_iff in H. destruct H as [Hx Hs].
  rewrite (IH Hs). apply negb_true_iff in Hx. rewrite Hx. reflexivity.
Qed.

Lemma rfind_last_lt (c : ascii) (s : list ascii) (i : nat) :
  rfind_last c s = Some i -> (i < length s)%nat.
Proof.
  revert i. induction s as [|x s IH]; simpl; intros i H; [discriminate H|].
  destruct (rfind_last c s) as [j|].
  - injection H as <-. specialize (IH j eq_refl). lia.
  - destruct (Ascii.eqb x c); [injection H as <-; lia | discriminate H].
Qed.

Lemma splitext_chars_join (p : list ascii) :
  fst (splitext_chars p) ++ snd (splitext_chars p) = p.
Proof.
  unfold splitext_chars.
  destruct (_ >? _)%Z; [|apply app_nil_r].
  destruct (existsb _ _); [apply take_drop | apply app_nil_r].
Qed.

(** The extension of [dir/name.ext]. *)
Lemma splitext_chars_ext (dir name ext : list ascii) :
  (dir = [] \/ exists d, dir = d ++ ["/"%char]) ->
  forallb (fun x => negb (Ascii.eqb x "/")) name = true ->
  existsb (fun x => negb (Ascii.eqb x ".")) name = true ->
  forallb (fun x => negb (Ascii.eqb x "/")) ext = true ->
  forallb (fun x => negb (Ascii.eqb x ".")) ext = true ->
  splitext_chars (dir ++ name ++ "."%char :: ext) = (dir ++ name, "."%char :: ext).
Proof.
  intros Hdir Hname Hsome Hext Hdot.
  assert (Edot : rfind "." (dir ++ name ++ "."%char :: ext)
                 = Z.of_nat (length (dir ++ name))).
  { unfold rfind. rewrite app_assoc, rfind_last_app. cbn [rfind_last].
    rewrite (rfind_last_None "." ext Hdot). cbn. f_equal. lia. }
  assert (Esep : rfind "/" (dir ++ name ++ "."%char :: ext)
                 = (Z.of_nat (length dir) - 1)%Z).
  { unfold rfind. rewrite rfind_last_app, rfind_last_app. cbn [rfind_last].
    rewrite (rfind_last_None "/" ext Hext). cbn [Ascii.eqb].
    change (Ascii.eqb "." "/") with false. cbv iota.
    rewrite (rfind_last_None "/" name Hname).
    destruct Hdir as [-> | (d & ->)]; [reflexivity|].
    rewrite rfind_last_app. cbn. rewrite length_app. cbn. lia. }
  unfold splitext_chars. rewrite Edot, Esep. cbv zeta.
  destruct (Z.gtb_spec (Z.of_nat (length (dir ++ name))) (Z.of_nat (length dir) - 1));
    [|rewrite length_app in *; lia].
  replace (Z.to_nat (Z.of_nat (length dir) - 1 + 1)) with (length dir) by lia.
  replace (Z.to_nat (Z.of_nat (length (dir ++ name)) - (Z.of_nat (length dir) - 1 + 1)))
    with (length name) by (rewrite length_app; lia).
  rewrite drop_app_length, take_app_length, Hsome, Nat2Z.id.
  rewrite app_assoc, take_app_length, drop_app_length. reflexivity.
Qed.

Lemma directory_chars (dir : string) :
  Paths.directory dir = true ->
  list_ascii_of_string dir = [] \/
  exists d, list_ascii_of_string dir = d ++ ["/"%char].
Proof.
  unfold Paths.directory. intros H. apply orb_true_iff in H. destruct H as [H | H].
  - apply String.eqb_eq in H. subst. left. reflexivity.
  - apply endswith_iff in H. destruct H as (stem & ->). right.
    exists (list_ascii_of_string stem). rewrite chars_app. reflexivity.
Qed.

(** [splitext] on [dir/name.ext], for texts. *)
Lemma splitext_ext (dir name ext : string) :
  Paths.directory dir = true ->
  Paths.file_name name = true ->
  Paths.extension_word ext = true ->
  splitext (dir +:+ name +:+ "." +:+ ext) = (dir +:+ name, "." +:+ ext).
Proof.
  intros Hdir Hname Hext. unfold splitext.
  unfold Paths.file_name in Hname. apply andb_true_iff in Hname. destruct Hname as [Hn1 Hn2].
  unfold Paths.extension_word in Hext. apply andb_true_iff in Hext. destruct Hext as [He1 He2].
  rewrite !chars_app. cbn [list_ascii_of_string app].
  rewrite (splitext_chars_ext _ _ _ (directory_chars dir Hdir) Hn1 Hn2 He1 He2).
  rewrite string_of_chars_app, !string_of_list_ascii_of_string.
  cbn [string_of_list_ascii]. rewrite string_of_list_ascii_of_string. reflexivity.
Qed.

Lemma splitext_join (p : string) : fst (splitext p) +:+ snd (splitext p) = p.
Proof.
  unfold splitext.
  pose proof (splitext_chars_join (list_ascii_of_string p)) as H.
  destruct (splitext_chars (list_ascii_of_string p)) as [root ext]. cbn [fst snd] in *.
  rewrite <- string_of_chars_app, H. apply string_of_list_ascii_of_string.
Qed.
(** ** The names that the windows give to output files *)

Lemma lower_app (a b : string) : lower (a +:+ b) = lower a +:+ lower b.
Proof. induction a as [|c a IH]; simpl; [reflexivity | rewrite IH; reflexivity]. Qed.

Lemma append_assoc (a b c : string) : (a +:+ b) +:+ c = a +:+ b +:+ c.
Proof.
  rewrite <- (string_of_list_ascii_of_string ((a +:+ b) +:+ c)).
  rewrite !chars_app, <- app_assoc, <- !chars_app.
  apply string_of_list_ascii_of_string.
Qed.

Lemma truthy_app_r (a b : string) : truthy b = true -> truthy (a +:+ b) = true.
Proof. destruct a; [trivial | reflexivity]. Qed.

Lemma truthy_app_l (a b : string) : truthy a = true -> truthy (a +:+ b) = true.
Proof. destruct a; [discriminate | reflexivity]. Qed.

Lemma file_name_truthy (name : string) : Paths.file_name name = true -> truthy name = true.
Proof.
  unfold Paths.file_name. destruct name; [|reflexivity].
  cbn. discriminate.
Qed.

Lemma lower_char_fixes (c x : ascii) :
  lower_char x = x -> lower_char c <> x -> c <> x.
Proof. intros Hx Hc ->. contradiction. Qed.

(** An extension that reads [ncm] in lower case is a word. *)
Lemma ncm_is_word (ext : string) : lower ext = "ncm" -> Paths.extension_word ext = true.
Proof.
  destruct ext as [|c1 [|c2 [|c3 [|c4 ext]]]]; try discriminate.
  cbn [lower]. intros H. injection H as H1 H2 H3.
  unfold Paths.extension_word, Paths.without. cbn [list_ascii_of_string forallb].
  assert (N : forall (c x y : ascii), lower_char c = y -> lower_char x = x -> x <> y ->
                                      negb (Ascii.eqb c x) = true).
  { intros c x y Hc Hx Hxy. apply negb_true_iff, Ascii.eqb_neq. intros ->. congruence. }
  rewrite (N c1 "/" "n")%char, (N c2 "/" "c")%char, (N c3 "/" "m")%char,
          (N c1 "." "n")%char, (N c2 "." "c")%char, (N c3 "." "m")%char;
    first [reflexivity | assumption | discriminate].
Qed.

Lemma set_output_file02_same (self : V02.Window.State) (value : string) :
  V02.output_file (V02.widgets (V02.Window.main self)) = value ->
  V02.Window.set_output_file self value = self.
Proof.
  destruct self as [[d p] ? ? ? ? ? ? ? ? ? ?]. destruct p. cbn. intros <-. reflexivity.
Qed.

Lemma build_command_not_nil (p : V02.Params) : V02.build_command p <> [].
Proof. rewrite V02_groups_eq. discriminate. Qed.

(** V0.2, [convert_format] with an ordinary format, for an output name
    [dir/name] with or without an extension: the extension gives way to
    the selected format and the job is started with the new name as the
    last word of its command; a second click while the job is running
    changes nothing, the name included. *)
Theorem convert_format_replaces_extension
  (t : string -> string)
  (ncmdump : option (Os.filesystem -> string -> string -> Os.filesystem * outcome string))
  (temp_dir : string) (ffmpeg : Os.program) (uuid_hex : string)
  (self : V02.Window.State) (fs : Os.filesystem) (dir name ext : string) :
  truthy (V02.input_file (V02.widgets (V02.Window.main self))) = true ->
  V02.Window.is_processing self = false ->
  splitext (V02.output_file (V02.widgets (V02.Window.main self))) = (dir +:+ name, ext) ->
  Paths.directory dir = true ->
  Paths.file_name name = true ->
  Paths.extension_word (V02.Window.format_combo self) = true ->
  (V02.Window.format_combo self =? "ncm_to_mp3")%string = false ->
  exists self',
    V02.Window.convert_format t ncmdump temp_dir ffmpeg uuid_hex self fs
      = Returns (self', fs) /\
    V02.output_file (V02.widgets (V02.Window.main self'))
      = dir +:+ name +:+ "." +:+ V02.Window.format_combo self /\
    V02.Window.is_processing self' = true /\
    (exists words,
        V02.Window.workers self' =
        V02.Window.workers self ++
        [words ++ [dir +:+ name +:+ "." +:+ V02.Window.format_combo self]]) /\
    V02.Window.convert_format t ncmdump temp_dir ffmpeg uuid_hex self' fs
      = Returns (self', fs).
Proof.
  intros Hin Hidle Hsplit Hdir Hname Hword Hfmt.
  set (old := V02.output_file (V02.widgets (V02.Window.main self))) in *.
  set (new := dir +:+ name +:+ "." +:+ V02.Window.format_combo self).
  assert (Hold : truthy old = true).
  { rewrite <- (splitext_join old), Hsplit. cbn [fst snd].
    apply truthy_app_l, truthy_app_r, file_name_truthy, Hname. }
  assert (Hnew : truthy new = true).
  { apply truthy_app_r, truthy_app_l, file_name_truthy, Hname. }
  assert (E1 : V02.Window.convert_format t ncmdump temp_dir ffmpeg uuid_hex self fs =
               Returns (V02.Window.start_processing t (V02.Window.set_output_file self new), fs)).
  { unfold V02.Window.convert_format. rewrite Hin, Hfmt. cbn [negb].
    fold old. rewrite Hold, Hsplit. cbn [fst]. rewrite append_assoc. reflexivity. }
  set (renamed := V02.Window.set_output_file self new) in *.
  assert (E2 : V02.Window.start_processing t renamed =
               V02.Window.run_ffmpeg_command_direct t renamed
                 (V02.build_command (V02.widgets (V02.Window.main renamed)))).
  { unfold V02.Window.start_processing, V02.build_ffmpeg_command.
    change (V02.Window.is_processing renamed) with (V02.Window.is_processing self).
    rewrite Hidle.
    change (V02.input_file (V02.widgets (V02.Window.main renamed)))
      with (V02.input_file (V02.widgets (V02.Window.main self))).
    change (V02.output_file (V02.widgets (V02.Window.main renamed))) with new.
    rewrite Hin, Hnew. cbn [negb orb].
    pose proof (build_command_not_nil (V02.widgets (V02.Window.main renamed))) as Hne.
    destruct (V02.build_command (V02.widgets (V02.Window.main renamed)));
      [contradiction | reflexivity]. }
  eexists. split; [rewrite E1, E2; reflexivity|].
  split; [reflexivity|]. split; [reflexivity|]. split.
  - cbn [V02.Window.run_ffmpeg_command_direct V02.Window.workers V02.Window.set_timer
         V02.Window.start_worker V02.Window.setValue V02.Window.set_status
         V02.Window.set_process_btn V02.Window.set_is_processing].
    rewrite V02_groups_eq. unfold Groups02.grouped.
    change (V02.output_file (V02.widgets (V02.Window.main renamed))) with new.
    eexists. f_equal. f_equal. rewrite !app_assoc. reflexivity.
  - set (self' := V02.Window.run_ffmpeg_command_direct t renamed _).
    unfold V02.Window.convert_format.
    change (V02.input_file (V02.widgets (V02.Window.main self')))
      with (V02.input_file (V02.widgets (V02.Window.main self))).
    change (V02.Window.format_combo self') with (V02.Window.format_combo self).
    change (V02.output_file (V02.widgets (V02.Window.main self'))) with new.
    rewrite Hin, Hfmt, Hnew. cbn [negb].
    unfold new at 1.
    rewrite (splitext_ext dir name (V02.Window.format_combo self) Hdir Hname Hword).
    cbn [fst]. rewrite append_assoc. fold new.
    rewrite (set_output_file02_same self' new eq_refl).
    unfold V02.Window.start_processing.
    change (V02.Window.is_processing self') with true. reflexivity.
Qed.

Lemma convert_format_replaces_extension_witness :
  exists self',
    V02.Window.convert_format Samples.t02 None "/tmp" Samples.ffmpeg_ok "0123"
      (Samples.window02 "clips/a.mov" "clips/a.mov" "mp4") ∅
      = Returns (self', ∅) /\
    V02.output_file (V02.widgets (V02.Window.main self')) = "clips/" +:+ "a" +:+ "." +:+ "mp4" /\
    V02.Window.is_processing self' = true /\
    (exists words,
        V02.Window.workers self' = [] ++ [words ++ ["clips/" +:+ "a" +:+ "." +:+ "mp4"]]) /\
    V02.Window.convert_format Samples.t02 None "/tmp" Samples.ffmpeg_ok "0123" self' ∅
      = Returns (self', ∅).
Proof.
  apply (convert_format_replaces_extension Samples.t02 None "/tmp" Samples.ffmpeg_ok "0123"
           (Samples.window02 "clips/a.mov" "clips/a.mov" "mp4") ∅ "clips/" "a" ".mov");
    reflexivity.
Defined.

Lemma dotted_truthy (dir name rest : string) :
  Paths.file_name name = true -> truthy (dir +:+ name +:+ rest) = true.
Proof. intros H. apply truthy_app_r, truthy_app_l, file_name_truthy, H. Qed.

Lemma truthy_false (s : string) : truthy s = false -> s = "".
Proof. destruct s; [reflexivity | discriminate]. Qed.

(** The output name that is proposed when an input file is chosen
    ([on_input_file_changed] of V0.2, [browse_input_file] of V0.1), for
    an input [dir/name.ext]: as long as no output name is there, it is
    [dir/name_converted.] followed by the selected format; an output name
    that is there is left as it is. *)
Theorem proposed_output_name (dir name ext : string) :
  Paths.directory dir = true ->
  Paths.file_name name = true ->
  Paths.extension_word ext = true ->
  let text := dir +:+ name +:+ "." +:+ ext in
  (forall self : V02.Window.State,
      V02.output_file (V02.widgets (V02.Window.main self)) = "" ->
      V02.output_file (V02.widgets (V02.Window.main (V02.Window.on_input_file_changed text self)))
      = (dir +:+ name) +:+ "_converted" +:+ "." +:+ V02.Window.format_combo self) /\
  (forall self : V02.Window.State,
      truthy (V02.output_file (V02.widgets (V02.Window.main self))) = true ->
      V02.Window.on_input_file_changed text self = self) /\
  (forall self : V01.Window.State,
      V01.output_file (V01.vars (V01.Window.gui self)) = "" ->
      let self' := V01.Window.browse_input_file text self in
      V01.input_file (V01.vars (V01.Window.gui self')) = text /\
      V01.output_file (V01.vars (V01.Window.gui self'))
      = (dir +:+ name) +:+ "_converted" +:+ "." +:+ V01.Window.format_var self) /\
  (forall self : V01.Window.State,
      truthy (V01.output_file (V01.vars (V01.Window.gui self))) = true ->
      let self' := V01.Window.browse_input_file text self in
      V01.input_file (V01.vars (V01.Window.gui self')) = text /\
      V01.output_file (V01.vars (V01.Window.gui self'))
      = V01.output_file (V01.vars (V01.Window.gui self))).
Proof.
  intros Hdir Hname Hext text.
  assert (Ht : truthy text = true) by (apply dotted_truthy, Hname).
  assert (Hs : splitext text = (dir +:+ name, "." +:+ ext))
    by (apply splitext_ext; assumption).
  repeat split.
  - intros self Hout. unfold V02.Window.on_input_file_changed.
    rewrite Ht, Hout, Hs. reflexivity.
  - intros self Hout. unfold V02.Window.on_input_file_changed.
    rewrite Ht, Hout. reflexivity.
  - unfold V01.Window.browse_input_file. rewrite Ht.
    destruct (negb _); [rewrite Hs|]; reflexivity.
  - unfold V01.Window.browse_input_file. rewrite Ht.
    change (V01.output_file (V01.vars (V01.Window.gui (V01.Window.set_input_file self text))))
      with (V01.output_file (V01.vars (V01.Window.gui self))).
    rewrite H, Hs. reflexivity.
  - unfold V01.Window.browse_input_file. rewrite Ht.
    destruct (negb _); [rewrite Hs|]; reflexivity.
  - unfold V01.Window.browse_input_file. rewrite Ht.
    change (V01.output_file (V01.vars (V01.Window.gui (V01.Window.set_input_file self text))))
      with (V01.output_file (V01.vars (V01.Window.gui self))).
    rewrite H. reflexivity.
Qed.

Lemma proposed_output_name_witness :
  V02.output_file (V02.widgets (V02.Window.main
      (V02.Window.on_input_file_changed ("clips/" +:+ "a" +:+ "." +:+ "mov")
         (Samples.window02 "clips/a.mov" "" "mp4"))))
    = ("clips/" +:+ "a") +:+ "_converted" +:+ "." +:+ "mp4" /\
  V01.output_file (V01.vars (V01.Window.gui
      (V01.Window.browse_input_file ("clips/" +:+ "a" +:+ "." +:+ "mov")
         (Samples.window01 "" "out.avi" "mp4")))) = "out.avi".
Proof.
  destruct (proposed_output_name "clips/" "a" "mov" eq_refl eq_refl eq_refl)
    as (H1 & _ & _ & H4).
  split.
  - apply (H1 (Samples.window02 "clips/a.mov" "" "mp4")). reflexivity.
  - apply (H4 (Samples.window01 "" "out.avi" "mp4")). reflexivity.
Defined.

(** V0.1, [browse_output_file]: the name chosen in the dialog for the
    output goes to the input variable, in every case.  The callback comes
    to its end only when no output name was there and the chosen name has
    the extension [.ncm] (in any case of the letters), and only then does
    the output variable receive the chosen name; in every other case it
    dies on a local that was not assigned ([base] when an output name was
    there, [output_ext] otherwise) and the output variable keeps what it
    held. *)
Theorem browse_output_file_sets_the_input (filename : string) (self : V01.Window.State) :
  truthy filename = true ->
  let before := V01.output_file (V01.vars (V01.Window.gui self)) in
  let self' := fst (V01.Window.browse_output_file filename self) in
  let ending := snd (V01.Window.browse_output_file filename self) in
  V01.input_file (V01.vars (V01.Window.gui self')) = filename /\
  (ending = V01.Window.returned <->
   before = "" /\ lower (snd (splitext filename)) = ".ncm") /\
  (ending = V01.Window.returned ->
   V01.output_file (V01.vars (V01.Window.gui self')) = filename) /\
  (truthy before = true ->
   ending = V01.Window.UnboundLocalError "base" /\
   V01.output_file (V01.vars (V01.Window.gui self')) = before) /\
  (before = "" -> lower (snd (splitext filename)) <> ".ncm" ->
   ending = V01.Window.UnboundLocalError "output_ext" /\
   V01.output_file (V01.vars (V01.Window.gui self')) = "").
Proof.
  intros Ht. cbv zeta. unfold V01.Window.browse_output_file. rewrite Ht.
  change (V01.output_file (V01.vars (V01.Window.gui (V01.Window.set_input_file self filename))))
    with (V01.output_file (V01.vars (V01.Window.gui self))).
  destruct (truthy (V01.output_file (V01.vars (V01.Window.gui self)))) eqn:Hout; cbn [negb].
  - cbn [fst snd]. split; [reflexivity|]. split; [|split; [|split]].
    + split; [discriminate|]. intros [E _]. rewrite E in Hout. discriminate Hout.
    + discriminate.
    + intros _. split; reflexivity.
    + intros E. rewrite E in Hout. discriminate Hout.
  - apply truthy_false in Hout.
    destruct (splitext filename) as [base ext]. cbn [snd].
    destruct (String.eqb_spec (lower ext) ".ncm") as [E | E]; cbn [fst snd].
    + split; [reflexivity|]. split; [tauto|]. split; [reflexivity|].
      split; [rewrite Hout; discriminate | contradiction].
    + split; [reflexivity|]. split; [|split; [|split]].
      * split; [discriminate | intros [_ E']; contradiction].
      * discriminate.
      * rewrite Hout. discriminate.
      * intros _ _. split; [reflexivity | exact Hout].
Qed.

Lemma browse_output_file_sets_the_input_witness :
  let before := V01.output_file (V01.vars (V01.Window.gui (Samples.window01 "a.mov" "a.mp4" "mp4"))) in
  let self' := fst (V01.Window.browse_output_file "b.mkv" (Samples.window01 "a.mov" "a.mp4" "mp4")) in
  let ending := snd (V01.Window.browse_output_file "b.mkv" (Samples.window01 "a.mov" "a.mp4" "mp4")) in
  V01.input_file (V01.vars (V01.Window.gui self')) = "b.mkv" /\
  (ending = V01.Window.returned <->
   before = "" /\ lower (snd (splitext "b.mkv")) = ".ncm") /\
  (ending = V01.Window.returned ->
   V01.output_file (V01.vars (V01.Window.gui self')) = "b.mkv") /\
  (truthy before = true ->
   ending = V01.Window.UnboundLocalError "base" /\
   V01.output_file (V01.vars (V01.Window.gui self')) = before) /\
  (before = "" -> lower (snd (splitext "b.mkv")) <> ".ncm" ->
   ending = V01.Window.UnboundLocalError "output_ext" /\
   V01.output_file (V01.vars (V01.Window.gui self')) = "").
Proof.
  apply (browse_output_file_sets_the_input "b.mkv" (Samples.window01 "a.mov" "a.mp4" "mp4")).
  reflexivity.
Defined.

Lemma append_inv_head (a b c : string) : a +:+ b = a +:+ c -> b = c.
Proof.
  intros H. apply (f_equal list_ascii_of_string) in H. rewrite !chars_app in H.
  apply app_inv_head in H.
  rewrite <- (string_of_list_ascii_of_string b), H. apply string_of_list_ascii_of_string.
Qed.

Lemma ncm_input_ends (dir name ext : string) :
  lower ext = "ncm" -> endswith (lower (dir +:+ name +:+ "." +:+ ext)) ".ncm" = true.
Proof.
  intros H. apply endswith_iff. exists (lower (dir +:+ name)).
  rewrite <- append_assoc, lower_app. f_equal.
  change ("." +:+ ext) with (String "." ext). cbn [lower]. rewrite H. reflexivity.
Qed.

(** [quick_ncm_to_mp3] of both versions, for an input [dir/name.ext]
    whose extension reads [ncm] in any case of its letters: the output
    name becomes [dir/name.mp3], which is never the input name, the format
    becomes [ncm_to_mp3], and the conversion of [convert_ncm_to_mp3] runs
    on that. *)
Theorem quick_ncm_names_the_output (dir name ext : string) :
  Paths.directory dir = true ->
  Paths.file_name name = true ->
  lower ext = "ncm" ->
  let input := dir +:+ name +:+ "." +:+ ext in
  let output := (dir +:+ name) +:+ ".mp3" in
  output <> input /\
  (forall (t : string -> string)
          (ncmdump : option (Os.filesystem -> string -> string ->
                             Os.filesystem * outcome string))
          (temp_dir : string) (ffmpeg : Os.program) (uuid_hex : string)
          (self : V02.Window.State) (fs : Os.filesystem),
      V02.input_file (V02.widgets (V02.Window.main self)) = input ->
      V02.Window.quick_ncm_to_mp3 t ncmdump temp_dir ffmpeg uuid_hex self fs =
      V02.Window.convert_ncm_to_mp3 t ncmdump temp_dir ffmpeg uuid_hex
        (V02.Window.set_format (V02.Window.set_output_file self output) "ncm_to_mp3") fs) /\
  (forall (t : string -> string) (md5 : list byte -> list byte) (crypto : bool)
          (temp_dir : string)
          (dump : option (Os.filesystem -> string -> Os.filesystem * outcome string))
          (ffmpeg : Os.program) (uuid_hex : string)
          (self : V01.Window.State) (fs : Os.filesystem),
      V01.input_file (V01.vars (V01.Window.gui self)) = input ->
      V01.Window.quick_ncm_to_mp3 t md5 crypto temp_dir dump ffmpeg uuid_hex self fs =
      V01.Window.convert_ncm_to_mp3 t md5 crypto temp_dir dump ffmpeg uuid_hex
        (V01.Window.set_format_var (V01.Window.set_output_file self output) "ncm_to_mp3") fs).
Proof.
  intros Hdir Hname Hext input output.
  assert (Ht : truthy input = true) by (apply dotted_truthy, Hname).
  assert (He : endswith (lower input) ".ncm" = true) by (apply ncm_input_ends, Hext).
  assert (Hs : splitext input = (dir +:+ name, "." +:+ ext))
    by (apply splitext_ext; [assumption | assumption | apply ncm_is_word, Hext]).
  split; [|split].
  - unfold output, input. rewrite append_assoc. intros E.
    apply append_inv_head, append_inv_head in E.
    change ("." +:+ ext) with (String "." ext) in E.
    injection E as E. rewrite <- E in Hext. discriminate Hext.
  - intros t ncmdump temp_dir ffmpeg uuid_hex self fs Hin.
    unfold V02.Window.quick_ncm_to_mp3. rewrite Hin, Ht, He, Hs. reflexivity.
  - intros t md5 crypto temp_dir dump ffmpeg uuid_hex self fs Hin.
    unfold V01.Window.quick_ncm_to_mp3. rewrite Hin, Ht, He, Hs. reflexivity.
Qed.

Lemma quick_ncm_names_the_output_witness :
  let input := "music/" +:+ "song" +:+ "." +:+ "NCM" in
  let output := ("music/" +:+ "song") +:+ ".mp3" in
  output <> input /\
  V02.Window.quick_ncm_to_mp3 Samples.t02 None "/tmp" Samples.ffmpeg_ok "0123"
    (Samples.window02 "music/song.NCM" "" "mp4") ∅ =
  V02.Window.convert_ncm_to_mp3 Samples.t02 None "/tmp" Samples.ffmpeg_ok "0123"
    (V02.Window.set_format
       (V02.Window.set_output_file (Samples.window02 "music/song.NCM" "" "mp4") output)
       "ncm_to_mp3") ∅.
Proof.
  cbv zeta.
  destruct (quick_ncm_names_the_output "music/" "song" "NCM" eq_refl eq_refl eq_refl)
    as (H1 & H2 & _).
  split; [exact H1|].
  apply (H2 Samples.t02 None "/tmp" Samples.ffmpeg_ok "0123"
           (Samples.window02 "music/song.NCM" "" "mp4") ∅). reflexivity.
Defined.
(** ** The conversion of NCM files *)

Lemma remove_or_keep (fs : Os.filesystem) (path : string) :
  match Os.remove fs path with
  | Returns fs' => fs'
  | _ => fs
  end = delete path fs.
Proof.
  unfold Os.remove. destruct (fs !! path) eqn:E; [reflexivity|].
  symmetry. apply delete_id. exact E.
Qed.

Lemma run_with_check (b : Os.behaviour) :
  match Os.subprocess_run true None b with
  | Returns _ => Spec.clean_exit b = true
  | Raises _ => Spec.clean_exit b = false /\ Spec.comes_back b = true
  | Blocks => b = Os.Hangs
  end.
Proof.
  destruct b as [rc out | e |]; cbn; [|split; reflexivity | reflexivity].
  destruct (rc =? 0)%Z; cbn; [reflexivity | split; reflexivity].
Qed.

Lemma path_join_truthy (a b : string) : truthy b = true -> truthy (Os.path_join a b) = true.
Proof.
  intros H. unfold Os.path_join. destruct a as [|c a]; [exact H|].
  destruct (String.eqb _ _); reflexivity.
Qed.

(** V0.2, [convert_ncm_to_mp3] when [ncmdump] could not be imported:
    V0.2 has no decryption of its own, so the conversion ends at once.
    The files are as they were, no command was given to [ffmpeg], the bar
    stands at 10, the status is the text for failure, one error box was
    shown, and the window is not processing. *)
Theorem ncm_conversion_needs_the_library02
  (t : string -> string) (temp_dir : string) (ffmpeg : Os.program) (uuid_hex : string)
  (self : V02.Window.State) (fs : Os.filesystem) :
  exists self',
    V02.Window.convert_ncm_to_mp3 t None temp_dir ffmpeg uuid_hex self fs
      = Returns (self', fs) /\
    V02.Window.is_processing self' = false /\
    V02.Window.progress_bar self' = 10%Z /\
    V02.Window.status_label self' = t "failed" /\
    V02.Window.process_btn self' = t "start_processing" /\
    V02.Window.launched self' = V02.Window.launched self /\
    V02.Window.workers self' = V02.Window.workers self /\
    V02.Window.main self' = V02.Window.main self /\
    V02.Window.boxes self' =
      V02.Window.boxes self ++
      [{| V02.Window.kind := V02.Window.critical;
          V02.Window.title := t "error";
          V02.Window.text :=
            t "ncm_decryption_failed" +:+ ":" +:+ String "010"
              "ncmdump库未安装，无法解密NCM文件" |}].
Proof. eexists. repeat split. Qed.

(** V0.2, [convert_ncm_to_mp3], every way it can come back.  It never
    raises; when it returns the window is not processing and the button is
    reset, and one of three things happened.  The decryption failed: the
    bar stands at 10, nothing was given to [ffmpeg], the files are as the
    decoder left them.  Or the decrypted file was given to [ffmpeg] with
    [libmp3lame] and the output name, and it did not exit with 0: the bar
    stands at 50 and the files are as [ffmpeg] left them - the decrypted
    temporary file is not removed.  Or it exited with 0: the bar stands at
    100 and the temporary file is removed. *)
Theorem ncm_conversion_outcomes02
  (t : string -> string)
  (ncmdump : option (Os.filesystem -> string -> string -> Os.filesystem * outcome string))
  (temp_dir : string) (ffmpeg : Os.program) (uuid_hex : string)
  (self self' : V02.Window.State) (fs fs' : Os.filesystem) :
  V02.Window.convert_ncm_to_mp3 t ncmdump temp_dir ffmpeg uuid_hex self fs
    = Returns (self', fs') ->
  let input := V02.input_file (V02.widgets (V02.Window.main self)) in
  let output := V02.output_file (V02.widgets (V02.Window.main self)) in
  let decrypted := Os.path_join temp_dir ("ncm_decrypted_" +:+ uuid_hex) in
  let cmd := ["ffmpeg"; "-i"; decrypted; "-codec:a"; "libmp3lame"; "-q:a"; "2"; "-y"; output] in
  let decoding := V02.decrypt_ncm_file ncmdump temp_dir uuid_hex fs input in
  let r := ffmpeg cmd (fst decoding) in
  V02.Window.is_processing self' = false /\
  V02.Window.process_btn self' = t "start_processing" /\
  V02.Window.main self' = V02.Window.main self /\
  V02.Window.workers self' = V02.Window.workers self /\
  length (V02.Window.boxes self') = S (length (V02.Window.boxes self)) /\
  ((exists e, snd decoding = Raises e /\
      V02.Window.progress_bar self' = 10%Z /\
      V02.Window.status_label self' = t "failed" /\
      V02.Window.launched self' = V02.Window.launched self /\
      fs' = fst decoding) \/
   (snd decoding = Returns decrypted /\
      Spec.clean_exit (Os.ends r) = false /\
      V02.Window.progress_bar self' = 50%Z /\
      V02.Window.status_label self' = t "failed" /\
      V02.Window.launched self' = V02.Window.launched self ++ [cmd] /\
      fs' = Os.after r) \/
   (snd decoding = Returns decrypted /\
      Spec.clean_exit (Os.ends r) = true /\
      V02.Window.progress_bar self' = 100%Z /\
      V02.Window.status_label self' = t "ncm_conversion_complete" /\
      V02.Window.launched self' = V02.Window.launched self ++ [cmd] /\
      fs' = delete decrypted (Os.after r))).
Proof.
  intros H. cbv zeta. unfold V02.Window.convert_ncm_to_mp3 in H. cbv zeta in H.
  destruct (V02.decrypt_ncm_file ncmdump temp_dir uuid_hex fs
              (V02.input_file (V02.widgets (V02.Window.main self))))
    as [fs1 [path | e |]] eqn:Ed; cbn [fst snd]; [| |discriminate H].
  - assert (Hp : path = Os.path_join temp_dir ("ncm_decrypted_" +:+ uuid_hex) /\
                 is_Some (fs1 !! path)).
    { destruct ncmdump as [dump|]; [|discriminate Ed].
      pose proof (decrypt02_adds_nothing dump temp_dir uuid_hex fs
                    (V02.input_file (V02.widgets (V02.Window.main self)))) as (E1 & E2 & _).
      rewrite Ed in E1, E2. cbn [fst snd] in E1, E2.
      destruct (E2 path eq_refl) as [-> Hs]. rewrite <- E1 in Hs. split; [reflexivity | exact Hs]. }
    destruct Hp as [-> [data Hdata]].
    assert (Ht : truthy (Os.path_join temp_dir ("ncm_decrypted_" +:+ uuid_hex)) = true)
      by (apply path_join_truthy; reflexivity).
    unfold Os.exists_ in H. rewrite Ht, Hdata in H. cbn [negb orb] in H.
    rewrite remove_or_keep in H.
    match type of H with
    | context [Os.subprocess_run true None ?b] =>
        pose proof (run_with_check b) as Hrun;
        destruct (Os.subprocess_run true None b) as [result | e |]
    end; [| |discriminate H].
    + injection H as <- <-. repeat split; try reflexivity.
      * cbn. rewrite !length_app. cbn. lia.
      * right. right. repeat split; try reflexivity. exact Hrun.
    + destruct Hrun as [Hrun _].
      destruct (exn_type e); injection H as <- <-; repeat split; try reflexivity;
        try (cbn; rewrite !length_app; cbn; lia);
        right; left; repeat split; try reflexivity; exact Hrun.
  - injection H as <- <-. repeat split; try reflexivity.
    + cbn. rewrite !length_app. cbn. lia.
    + left. exists e. repeat split; reflexivity.
Qed.

Lemma ncm_conversion_outcomes02_witness :
  let self := Samples.window02 "song.ncm" "song.mp3" "ncm_to_mp3" in
  let fs : Os.filesystem := {[ "song.ncm" := Samples.tiny_ncm ]} in
  let self' :=
    {| V02.Window.main := V02.Window.main self;
       V02.Window.format_combo := "ncm_to_mp3";
       V02.Window.is_processing := false;
       V02.Window.progress_bar := 50;
       V02.Window.status_label := Samples.t02 "failed";
       V02.Window.process_btn := Samples.t02 "start_processing";
       V02.Window.command_preview_text := "";
       V02.Window.progress_timer := false;
       V02.Window.boxes :=
         [{| V02.Window.kind := V02.Window.critical;
             V02.Window.title := Samples.t02 "error";
             V02.Window.text := "FFmpeg转换失败:" +:+ String "010" "Invalid data found" |}];
       V02.Window.workers := [];
       V02.Window.launched :=
         [["ffmpeg"; "-i"; "/tmp/ncm_decrypted_0123"; "-codec:a"; "libmp3lame";
           "-q:a"; "2"; "-y"; "song.mp3"]] |} in
  let fs' : Os.filesystem := <[ "/tmp/ncm_decrypted_0123" := Samples.tiny_ncm ]> fs in
  let input := V02.input_file (V02.widgets (V02.Window.main self)) in
  let output := V02.output_file (V02.widgets (V02.Window.main self)) in
  let decrypted := Os.path_join "/tmp" ("ncm_decrypted_" +:+ "0123") in
  let cmd := ["ffmpeg"; "-i"; decrypted; "-codec:a"; "libmp3lame"; "-q:a"; "2"; "-y"; output] in
  let decoding := V02.decrypt_ncm_file (Some Samples.dump_copy) "/tmp" "0123" fs input in
  let r := Samples.ffmpeg_broken cmd (fst decoding) in
  V02.Window.is_processing self' = false /\
  V02.Window.process_btn self' = Samples.t02 "start_processing" /\
  V02.Window.main self' = V02.Window.main self /\
  V02.Window.workers self' = V02.Window.workers self /\
  length (V02.Window.boxes self') = S (length (V02.Window.boxes self)) /\
  ((exists e, snd decoding = Raises e /\
      V02.Window.progress_bar self' = 10%Z /\
      V02.Window.status_label self' = Samples.t02 "failed" /\
      V02.Window.launched self' = V02.Window.launched self /\
      fs' = fst decoding) \/
   (snd decoding = Returns decrypted /\
      Spec.clean_exit (Os.ends r) = false /\
      V02.Window.progress_bar self' = 50%Z /\
      V02.Window.status_label self' = Samples.t02 "failed" /\
      V02.Window.launched self' = V02.Window.launched self ++ [cmd] /\
      fs' = Os.after r) \/
   (snd decoding = Returns decrypted /\
      Spec.clean_exit (Os.ends r) = true /\
      V02.Window.progress_bar self' = 100%Z /\
      V02.Window.status_label self' = Samples.t02 "ncm_conversion_complete" /\
      V02.Window.launched self' = V02.Window.launched self ++ [cmd] /\
      fs' = delete decrypted (Os.after r))).
Proof.
  cbv zeta.
  apply (ncm_conversion_outcomes02 Samples.t02 (Some Samples.dump_copy) "/tmp"
           Samples.ffmpeg_broken "0123").
  vm_compute. reflexivity.
Defined.






(** ** The processing state of the window of V0.2 *)

Lemma handles_app (t : string -> string) (self : V02.Window.State)
  (a b : list Session.event) :
  Session.handles t self (a ++ b) = Session.handles t (Session.handles t self a) b.
Proof. unfold Session.handles. apply fold_left_app. Qed.

Lemma handles_cons (t : string -> string) (self : V02.Window.State)
  (e : Session.event) (events : list Session.event) :
  Session.handles t self (e :: events) = Session.handles t (Session.handle t self e) events.
Proof. reflexivity. Qed.

Lemma timeouts_while_processing (t : string -> string) (n : nat) :
  forall (self : V02.Window.State) (k : Z),
    V02.Window.is_processing self = true ->
    V02.Window.progress_timer self = true ->
    (0 <= k)%Z ->
    V02.Window.progress_bar self = Z.min (5 * k) 90 ->
    let now := Session.handles t self (repeat Session.timeout n) in
    V02.Window.progress_bar now = Z.min (5 * (k + Z.of_nat n)) 90 /\
    V02.Window.is_processing now = true /\
    V02.Window.progress_timer now = true /\
    V02.Window.workers now = V02.Window.workers self /\
    V02.Window.boxes now = V02.Window.boxes self /\
    V02.Window.main now = V02.Window.main self.
Proof.
  induction n as [|n IH]; intros self k Hproc Htimer Hk Hbar; cbv zeta.
  - cbn. rewrite Z.add_0_r. repeat split; assumption.
  - cbn [repeat]. rewrite handles_cons.
    set (next := Session.handle t self Session.timeout).
    assert (Hnext : V02.Window.progress_bar next = Z.min (5 * (k + 1)) 90 /\
                    V02.Window.is_processing next = true /\
                    V02.Window.progress_timer next = true /\
                    V02.Window.workers next = V02.Window.workers self /\
                    V02.Window.boxes next = V02.Window.boxes self /\
                    V02.Window.main next = V02.Window.main self).
    { unfold next, Session.handle. rewrite Htimer.
      unfold V02.Window.simulate_progress. rewrite Hproc. cbn [negb].
      destruct (Z.ltb_spec (V02.Window.progress_bar self) 90) as [Hlt | Hge].
      - cbn. rewrite Hproc, Htimer.
        destruct (Z.leb_spec 0 (Z.min (V02.Window.progress_bar self + 5) 90));
          destruct (Z.leb_spec (Z.min (V02.Window.progress_bar self + 5) 90) 100);
          cbn [andb]; repeat split; lia.
      - repeat split; try assumption. lia. }
    destruct Hnext as (Hb & Hp & Ht & Hw & Hx & Hm).
    destruct (IH next (k + 1)%Z Hp Ht ltac:(lia) Hb) as (Ib & Ip & It & Iw & Ix & Im).
    repeat split; try congruence.
    rewrite Ib. f_equal. lia.
Qed.

(** V0.2, [run_ffmpeg_command_direct] and [simulate_progress]: once a job
    is started, the bar shows five times the number of timeouts that have
    passed, up to 90: it is at 90 after eighteen timeouts (nine seconds)
    and stays there, whatever the job does, and the timeouts change
    nothing else. *)
Theorem simulated_progress_after_timeouts
  (t : string -> string) (self : V02.Window.State) (cmd : list string) (n : nat) :
  let started := V02.Window.run_ffmpeg_command_direct t self cmd in
  let now := Session.handles t started (repeat Session.timeout n) in
  V02.Window.progress_bar now = Z.min (5 * Z.of_nat n) 90 /\
  V02.Window.is_processing now = true /\
  V02.Window.progress_timer now = true /\
  V02.Window.workers now = V02.Window.workers self ++ [cmd] /\
  V02.Window.boxes now = V02.Window.boxes self /\
  V02.Window.main now = V02.Window.main self.
Proof.
  cbv zeta.
  apply (timeouts_while_processing t n (V02.Window.run_ffmpeg_command_direct t self cmd) 0%Z);
    try reflexivity.
Qed.

Lemma run_signals (stopped_after : option nat) (returncode_terminated : Z)
  (process : Os.behaviour) (signals : list V02.Window.signal) :
  V02.Window.run stopped_after returncode_terminated process = Returns signals ->
  exists success message,
    signals = [V02.Window.status_updated "处理中...";
               V02.Window.finished_signal success message] /\
    (stopped_after = None -> success = Spec.clean_exit process).
Proof.
  unfold V02.Window.run. destruct process as [rc out | e |]; [| |discriminate].
  - destruct stopped_after as [k|].
    + destruct (_ =? 0)%Z; intros H; injection H as <-;
        eexists; eexists; (split; [reflexivity | discriminate]).
    + cbn. destruct (rc =? 0)%Z; intros H; injection H as <-;
        eexists; eexists; (split; [reflexivity | reflexivity]).
  - intros H. injection H as <-. eexists. eexists. split; reflexivity.
Qed.

(** V0.2, [FFmpegWorker.run] and [on_processing_finished]: a worker that
    comes back has emitted the status "处理中..." and then exactly one
    [finished_signal].  When [stop] was not called, it reports success
    exactly when the process could be started and ended with return code
    0.  When its signals have arrived, after any number of timeouts, the
    window is not processing, the bar is at 100 for success and at 0
    otherwise, the status is the text for completed or failed - the
    output file is not looked at - and the next timeout stops the timer
    and leaves the bar alone. *)
Theorem worker_result_decides_the_outcome
  (t : string -> string) (self : V02.Window.State) (cmd : list string) (n : nat)
  (stopped_after : option nat) (returncode_terminated : Z) (process : Os.behaviour)
  (signals : list V02.Window.signal) :
  V02.Window.run stopped_after returncode_terminated process = Returns signals ->
  let started := V02.Window.run_ffmpeg_command_direct t self cmd in
  let ticked := Session.handles t started (repeat Session.timeout n) in
  let final := Session.handles t ticked (map Session.from_worker signals) in
  exists success message,
    signals = [V02.Window.status_updated "处理中...";
               V02.Window.finished_signal success message] /\
    (stopped_after = None -> success = Spec.clean_exit process) /\
    V02.Window.is_processing final = false /\
    V02.Window.progress_bar final = (if success then 100 else 0)%Z /\
    V02.Window.status_label final = t (if success then "completed" else "failed") /\
    V02.Window.process_btn final = t "start_processing" /\
    length (V02.Window.boxes final) = S (length (V02.Window.boxes self)) /\
    V02.Window.progress_timer (Session.handle t final Session.timeout) = false /\
    V02.Window.progress_bar (Session.handle t final Session.timeout)
      = V02.Window.progress_bar final.
Proof.
  intros Hrun. cbv zeta.
  destruct (run_signals _ _ _ _ Hrun) as (success & message & -> & Hsuccess).
  exists success, message. split; [reflexivity|]. split; [exact Hsuccess|].
  destruct (timeouts_while_processing t n (V02.Window.run_ffmpeg_command_direct t self cmd) 0%Z eq_refl eq_refl ltac:(lia) eq_refl) as (_ & _ & Ht & _ & Hx & _).
  set (ticked := Session.handles t (V02.Window.run_ffmpeg_command_direct t self cmd)
                   (repeat Session.timeout n)) in *.
  cbn [map Session.handles fold_left Session.handle V02.Window.deliver].
  unfold V02.Window.on_processing_finished, V02.Window.update_status.
  destruct success; cbn; rewrite ?Ht, ?Hx, ?length_app; cbn; repeat split; lia.
Qed.

Lemma worker_result_decides_the_outcome_witness :
  let self := Samples.window02 "a.mov" "a.mp4" "mp4" in
  let signals := [V02.Window.status_updated "处理中...";
                  V02.Window.finished_signal false "处理失败，返回码: 1"] in
  let started := V02.Window.run_ffmpeg_command_direct Samples.t02 self ["ffmpeg"] in
  let ticked := Session.handles Samples.t02 started (repeat Session.timeout 30) in
  let final := Session.handles Samples.t02 ticked (map Session.from_worker signals) in
  exists success message,
    signals = [V02.Window.status_updated "处理中...";
               V02.Window.finished_signal success message] /\
    (@None nat = None -> success = Spec.clean_exit (Os.Exits 1 "")) /\
    V02.Window.is_processing final = false /\
    V02.Window.progress_bar final = (if success then 100 else 0)%Z /\
    V02.Window.status_label final = Samples.t02 (if success then "completed" else "failed") /\
    V02.Window.process_btn final = Samples.t02 "start_processing" /\
    length (V02.Window.boxes final) = S (length (V02.Window.boxes self)) /\
    V02.Window.progress_timer (Session.handle Samples.t02 final Session.timeout) = false /\
    V02.Window.progress_bar (Session.handle Samples.t02 final Session.timeout)
      = V02.Window.progress_bar final.
Proof.
  cbv zeta.
  apply (worker_result_decides_the_outcome Samples.t02 (Samples.window02 "a.mov" "a.mp4" "mp4")
           ["ffmpeg"] 30 None 0%Z (Os.Exits 1 "")).
  reflexivity.
Defined.

Lemma handle_keeps_estimate (t : string -> string) (self : V02.Window.State)
  (e : Session.event) :
  Session.emitted_by_run e = true ->
  Session.estimate_ok self -> Session.estimate_ok (Session.handle t self e).
Proof.
  intros He [Hrange Hceil]. unfold Session.estimate_ok.
  assert (Hsame : forall self' : V02.Window.State,
             V02.Window.progress_bar self' = V02.Window.progress_bar self ->
             V02.Window.is_processing self' = V02.Window.is_processing self ->
             (0 <= V02.Window.progress_bar self' <= 100)%Z /\
             (V02.Window.is_processing self' = true ->
              (V02.Window.progress_bar self' <= 90)%Z)).
  { intros self' -> ->. split; assumption. }
  destruct e as [| | output_path | output_path | |[value | status | success message]];
    cbn [Session.handle]; [| | | | | discriminate He | | ].
  - unfold V02.Window.start_processing.
    destruct (V02.Window.is_processing self) eqn:Hp;
      [apply Hsame; first [reflexivity | exact Hp]|].
    destruct (negb _ || negb _);
      [apply Hsame; first [reflexivity | exact Hp]|].
    destruct (V02.build_ffmpeg_command (V02.Window.main self)) as [[|w cmd]|];
      [apply Hsame; first [reflexivity | exact Hp] | |
       apply Hsame; first [reflexivity | exact Hp]].
    cbn. split; [lia | intros _; lia].
  - unfold V02.Window.update_preview.
    destruct (V02.build_ffmpeg_command (V02.Window.main self)) as [[|w cmd]|];
      apply Hsame; reflexivity.
  - unfold V02.Window.extract_audio.
    destruct (negb _); [apply Hsame; reflexivity|].
    destruct (truthy output_path); [|apply Hsame; reflexivity].
    cbn. split; [lia | intros _; lia].
  - unfold V02.Window.extract_video.
    destruct (negb _); [apply Hsame; reflexivity|].
    destruct (truthy output_path); [|apply Hsame; reflexivity].
    cbn. split; [lia | intros _; lia].
  - destruct (V02.Window.progress_timer self); [|split; assumption].
    unfold V02.Window.simulate_progress.
    destruct (V02.Window.is_processing self) eqn:Hp; cbn [negb].
    + specialize (Hceil eq_refl).
      destruct (Z.ltb_spec (V02.Window.progress_bar self) 90).
      * cbn. rewrite Hp.
        destruct (Z.leb_spec 0 (Z.min (V02.Window.progress_bar self + 5) 90));
          destruct (Z.leb_spec (Z.min (V02.Window.progress_bar self + 5) 90) 100);
          cbn [andb]; split; try intros _; lia.
      * rewrite Hp. split; [assumption | intros _; assumption].
    + cbn. rewrite Hp. split; [assumption | discriminate].
  - cbn. split; assumption.
  - unfold V02.Window.deliver, V02.Window.on_processing_finished.
    destruct success; cbn; split; first [lia | discriminate].
Qed.

Lemma handle_to_100 (t : string -> string) (self : V02.Window.State) (e : Session.event) :
  Session.emitted_by_run e = true ->
  V02.Window.progress_bar (Session.handle t self e) = 100%Z ->
  V02.Window.progress_bar self = 100%Z \/
  exists message, e = Session.from_worker (V02.Window.finished_signal true message).
Proof.
  intros He.
  destruct e as [| | output_path | output_path | |[value | status | success message]];
    cbn [Session.handle]; [| | | | | discriminate He | | ].
  - unfold V02.Window.start_processing.
    destruct (V02.Window.is_processing self); [tauto|].
    destruct (negb _ || negb _); [cbn; tauto|].
    destruct (V02.build_ffmpeg_command (V02.Window.main self)) as [[|w cmd]|]; cbn;
      first [tauto | discriminate].
  - unfold V02.Window.update_preview.
    destruct (V02.build_ffmpeg_command (V02.Window.main self)) as [[|w cmd]|]; cbn; tauto.
  - unfold V02.Window.extract_audio.
    destruct (negb _); [cbn; tauto|].
    destruct (truthy output_path); [cbn; discriminate | tauto].
  - unfold V02.Window.extract_video.
    destruct (negb _); [cbn; tauto|].
    destruct (truthy output_path); [cbn; discriminate | tauto].
  - destruct (V02.Window.progress_timer self); [|tauto].
    unfold V02.Window.simulate_progress.
    destruct (V02.Window.is_processing self); cbn [negb]; [|cbn; tauto].
    destruct (Z.ltb_spec (V02.Window.progress_bar self) 90); [|tauto].
    cbn.
    destruct (Z.leb_spec 0 (Z.min (V02.Window.progress_bar self + 5) 90));
      destruct (Z.leb_spec (Z.min (V02.Window.progress_bar self + 5) 90) 100);
      cbn [andb]; intros; lia.
  - cbn. tauto.
  - destruct success; [intros _; right; exists message; reflexivity|].
    unfold V02.Window.deliver, V02.Window.on_processing_finished. cbn. discriminate.
Qed.

(** V0.2, the estimate of the progress bar under every sequence of clicks
    on the process, preview and extraction buttons, timeouts of the
    progress timer and signals of the worker: it stays between 0 and 100, it is at most 90 as long as
    the window is processing, and when it stands at 100 it stood there
    from the start or a [finished_signal] with success has arrived. *)
Theorem progress_estimate_stays_below_the_ceiling
  (t : string -> string) (events : list Session.event) :
  forall self : V02.Window.State,
    Session.estimate_ok self ->
    forallb Session.emitted_by_run events = true ->
    Session.estimate_ok (Session.handles t self events) /\
    (V02.Window.progress_bar (Session.handles t self events) = 100%Z ->
     V02.Window.progress_bar self = 100%Z \/
     exists message,
       In (Session.from_worker (V02.Window.finished_signal true message)) events).
Proof.
  induction events as [|e events IH]; intros self Hok Hev; [split; [exact Hok | tauto]|].
  cbn [forallb] in Hev. apply andb_true_iff in Hev. destruct Hev as [He Hev].
  rewrite handles_cons.
  destruct (IH (Session.handle t self e) (handle_keeps_estimate t self e He Hok) Hev)
    as [Hest H100].
  split; [exact Hest|].
  intros H. destruct (H100 H) as [H1 | (message & Hin)].
  - destruct (handle_to_100 t self e He H1) as [H0 | (message & ->)].
    + left. exact H0.
    + right. exists message. left. reflexivity.
  - right. exists message. right. exact Hin.
Qed.

Lemma progress_estimate_stays_below_the_ceiling_witness :
  let events :=
    [Session.click_process; Session.timeout; Session.timeout; Session.click_process;
     Session.from_worker (V02.Window.status_updated "处理中...");
     Session.click_extract_audio "a.mp3"; Session.click_update_preview;
     Session.timeout] in
  let self := Samples.window02 "a.mov" "a.mp4" "mp4" in
  Session.estimate_ok (Session.handles Samples.t02 self events) /\
  (V02.Window.progress_bar (Session.handles Samples.t02 self events) = 100%Z ->
   V02.Window.progress_bar self = 100%Z \/
   exists message,
     In (Session.from_worker (V02.Window.finished_signal true message)) events).
Proof.
  cbv zeta.
  apply (progress_estimate_stays_below_the_ceiling Samples.t02).
  - split; [cbn; lia | intros _; cbn; lia].
  - reflexivity.
Defined.
(** ** A job of V0.1, from the click to its completion *)

Lemma journey_cons (t : string -> string) (self : V01.Processing.State)
  (e : V01.Processing.event) (events : list V01.Processing.event) :
  V01.Processing.handles t self (e :: events)
  = V01.Processing.handles t (V01.Processing.handle t self e) events.
Proof. reflexivity. Qed.

Lemma journey_app (t : string -> string) (self : V01.Processing.State)
  (a b : list V01.Processing.event) :
  V01.Processing.handles t self (a ++ b)
  = V01.Processing.handles t (V01.Processing.handles t self a) b.
Proof. unfold V01.Processing.handles. apply fold_left_app. Qed.

Lemma grouped01_not_nil (g : V01.FFmpegGUI) : Groups01.grouped g <> [].
Proof. discriminate. Qed.

Lemma at_rest_inv (self : V01.Processing.State) :
  Journey.at_rest self = true ->
  V01.Processing.is_processing self = false /\
  V01.Processing.simulate_scheduled self = 0%nat /\
  V01.Processing.completion_scheduled self = [] /\
  truthy (V01.input_file (V01.vars (V01.Processing.gui self))) = true /\
  truthy (V01.output_file (V01.vars (V01.Processing.gui self))) = true.
Proof.
  unfold Journey.at_rest. rewrite !andb_true_iff, negb_true_iff, Nat.eqb_eq.
  intros ((((H1 & H2) & H3) & H4) & H5).
  destruct (V01.Processing.completion_scheduled self); [tauto | discriminate H3].
Qed.

(** The fields of a window after the setters. *)
Ltac fields01 :=
  cbn [V01.Processing.gui V01.Processing.is_processing
       V01.Processing.waiting_for_completion V01.Processing.progress_check_count
       V01.Processing.progress_var V01.Processing.progress_percent
       V01.Processing.status_label V01.Processing.waiting_label
       V01.Processing.process_btn V01.Processing.command_preview
       V01.Processing.boxes V01.Processing.threads
       V01.Processing.simulate_scheduled V01.Processing.completion_scheduled
       V01.Processing.completions V01.Processing.faulted
       V01.Processing.set_flags V01.Processing.set_progress V01.Processing.set_labels
       V01.Processing.set_status V01.Processing.set_waiting_label
       V01.Processing.set_process_btn V01.Processing.set_preview
       V01.Processing.set_rest V01.Processing.show V01.Processing.start_thread
       V01.Processing.schedule_simulate V01.Processing.schedule_completion
       V01.Processing.set_pending V01.Processing.mark].

(** The click and the first part of the thread. *)
Lemma job_started (t : string -> string) (self : V01.Processing.State) :
  Journey.at_rest self = true ->
  let started :=
    V01.Processing.handles t self [V01.Processing.click_process; V01.Processing.thread_begins] in
  Journey.simulating started 2 /\
  V01.Processing.status_label started = t "processing" /\
  V01.Processing.process_btn started = t "processing" /\
  V01.Processing.threads started
    = V01.Processing.threads self ++ [Groups01.grouped (V01.Processing.gui self)] /\
  V01.Processing.boxes started = V01.Processing.boxes self /\
  V01.Processing.gui started = V01.Processing.gui self /\
  V01.Processing.faulted started = V01.Processing.faulted self /\
  V01.Processing.completions started = V01.Processing.completions self.
Proof.
  intros H. apply at_rest_inv in H. destruct H as (Hp & Hs & Hc & Hi & Ho). cbv zeta.
  rewrite !journey_cons. cbn [V01.Processing.handles fold_left].
  cbn [V01.Processing.handle].
  assert (E1 : V01.Processing.start_processing t self =
               V01.Processing.start_thread
                 (V01.Processing.set_process_btn
                    (V01.Processing.set_waiting_label
                       (V01.Processing.set_progress
                          (V01.Processing.set_flags self true false 0) 0 "0%") "")
                    (t "processing"))
                 (Groups01.grouped (V01.Processing.gui self))).
  { unfold V01.Processing.start_processing. rewrite Hp, Hi, Ho. cbn [negb orb].
    fields01. rewrite (V01_groups_eq _ Hi Ho).
    pose proof (grouped01_not_nil (V01.Processing.gui self)) as Hne.
    destruct (Groups01.grouped (V01.Processing.gui self)); [contradiction | reflexivity]. }
  rewrite E1. unfold V01.Processing.run_ffmpeg_command_begins, V01.Processing.update_preview.
  fields01. rewrite (V01_groups_eq _ Hi Ho).
  pose proof (grouped01_not_nil (V01.Processing.gui self)) as Hne.
  destruct (Groups01.grouped (V01.Processing.gui self)) as [|w cmd] eqn:Eg; [contradiction|].
  unfold V01.Processing.simulate_progress. fields01.
  cbn [Z.ltb Z.compare andb Z.add Z.min Pos.add Pos.compare Pos.compare_cont].
  unfold Journey.simulating. fields01. rewrite Hs, Hc. repeat split.
Qed.

(** One more [simulate_progress] below 99. *)
Lemma tick_below_99 (t : string -> string) (self : V01.Processing.State) (p : Z) :
  Journey.simulating self p -> (p < 99)%Z ->
  let next := V01.Processing.handle t self V01.Processing.tick in
  Journey.simulating next (Z.min (p + 2) 99) /\
  V01.Processing.status_label next = V01.Processing.status_label self /\
  V01.Processing.threads next = V01.Processing.threads self /\
  V01.Processing.boxes next = V01.Processing.boxes self /\
  V01.Processing.faulted next = V01.Processing.faulted self /\
  V01.Processing.completions next = V01.Processing.completions self.
Proof.
  intros (Hp & Hw & Hs & Hc & Hv) Hlt. cbv zeta.
  unfold V01.Processing.handle. rewrite Hs.
  unfold V01.Processing.simulate_progress. fields01.
  rewrite Hv, Hp. destruct (Z.ltb_spec p 99); [|lia]. cbn [andb].
  unfold Journey.simulating. fields01. rewrite ?Hp, ?Hw, ?Hc. repeat split.
Qed.

(** The [simulate_progress] that finds the bar at 99. *)
Lemma tick_at_99 (t : string -> string) (self : V01.Processing.State) :
  Journey.simulating self 99 ->
  let next := V01.Processing.handle t self V01.Processing.tick in
  Journey.finalizing next /\
  V01.Processing.status_label next = V01.Processing.status_label self /\
  V01.Processing.threads next = V01.Processing.threads self /\
  V01.Processing.boxes next = V01.Processing.boxes self /\
  V01.Processing.faulted next = V01.Processing.faulted self /\
  V01.Processing.completions next = V01.Processing.completions self.
Proof.
  intros (Hp & Hw & Hs & Hc & Hv). cbv zeta.
  unfold V01.Processing.handle. rewrite Hs.
  unfold V01.Processing.simulate_progress. fields01.
  rewrite Hv, Hp, Hw. cbn [Z.ltb Z.geb Z.compare Pos.compare Pos.compare_cont andb negb].
  unfold Journey.finalizing. fields01. rewrite ?Hp, ?Hc, ?Hv. repeat split.
Qed.

(** A [simulate_progress] that is not pending does not run. *)
Lemma tick_finalizing (t : string -> string) (self : V01.Processing.State) :
  V01.Processing.simulate_scheduled self = 0%nat ->
  V01.Processing.handle t self V01.Processing.tick = self.
Proof. intros H. unfold V01.Processing.handle. rewrite H. reflexivity. Qed.

Lemma ticks_finalizing (t : string -> string) (self : V01.Processing.State) (n : nat) :
  V01.Processing.simulate_scheduled self = 0%nat ->
  V01.Processing.handles t self (repeat V01.Processing.tick n) = self.
Proof.
  intros H. induction n as [|n IH]; [reflexivity|].
  cbn [repeat]. rewrite journey_cons, tick_finalizing by exact H. exact IH.
Qed.

Lemma ticks_simulating (t : string -> string) (k : nat) :
  forall (self : V01.Processing.State) (j : Z),
    Journey.simulating self (Z.min (2 * j) 99) ->
    (1 <= j)%Z -> (j + Z.of_nat k <= 50)%Z ->
    let now := V01.Processing.handles t self (repeat V01.Processing.tick k) in
    Journey.simulating now (Z.min (2 * (j + Z.of_nat k)) 99) /\
    V01.Processing.status_label now = V01.Processing.status_label self /\
    V01.Processing.threads now = V01.Processing.threads self /\
    V01.Processing.boxes now = V01.Processing.boxes self /\
    V01.Processing.faulted now = V01.Processing.faulted self /\
    V01.Processing.completions now = V01.Processing.completions self.
Proof.
  induction k as [|k IH]; intros self j Hsim Hj Hk; cbv zeta.
  - cbn [repeat V01.Processing.handles fold_left]. rewrite Z.add_0_r.
    split; [exact Hsim | repeat split].
  - cbn [repeat]. rewrite journey_cons.
    destruct (tick_below_99 t self _ Hsim ltac:(lia)) as (Hnext & H1 & H2 & H3 & H4 & H5).
    replace (Z.min (Z.min (2 * j) 99 + 2) 99) with (Z.min (2 * (j + 1)) 99) in Hnext by lia.
    destruct (IH _ (j + 1)%Z Hnext ltac:(lia) ltac:(lia)) as (Hnow & I1 & I2 & I3 & I4 & I5).
    replace (j + 1 + Z.of_nat k)%Z with (j + Z.of_nat (S k))%Z in Hnow by lia.
    split; [exact Hnow | repeat split; congruence].
Qed.

Lemma finalizing_after_99 (t : string -> string) (self : V01.Processing.State) (n : nat) :
  Journey.simulating self 99 ->
  let now := V01.Processing.handles t self (repeat V01.Processing.tick (S n)) in
  Journey.finalizing now /\
  V01.Processing.status_label now = V01.Processing.status_label self /\
  V01.Processing.threads now = V01.Processing.threads self /\
  V01.Processing.boxes now = V01.Processing.boxes self /\
  V01.Processing.faulted now = V01.Processing.faulted self /\
  V01.Processing.completions now = V01.Processing.completions self.
Proof.
  intros Hsim. cbv zeta. cbn [repeat]. rewrite journey_cons.
  destruct (tick_at_99 t self Hsim) as (Hfin & H1 & H2 & H3 & H4 & H5).
  rewrite ticks_finalizing by apply Hfin.
  split; [exact Hfin | repeat split; assumption].
Qed.

(** Fifty timeouts or more after the start. *)
Lemma estimate_polling_aux (t : string -> string) (self : V01.Processing.State) (k : nat) :
  Journey.at_rest self = true ->
  (50 <= k)%nat ->
  let started :=
    V01.Processing.handles t self [V01.Processing.click_process; V01.Processing.thread_begins] in
  let now := V01.Processing.handles t started (repeat V01.Processing.tick k) in
  Journey.finalizing now /\
  V01.Processing.status_label now = t "processing" /\
  V01.Processing.threads now
    = V01.Processing.threads self ++ [Groups01.grouped (V01.Processing.gui self)] /\
  V01.Processing.boxes now = V01.Processing.boxes self /\
  V01.Processing.completions now = V01.Processing.completions self.
Proof.
  intros Hrest Hk. cbv zeta.
  destruct (job_started t self Hrest) as (Hsim & Hst & _ & Hth & Hbx & _ & _ & Hcm).
  set (started := V01.Processing.handles t self _) in *.
  replace k with (49 + S (k - 50))%nat by lia.
  rewrite repeat_app, journey_app.
  destruct (ticks_simulating t 49 started 1 Hsim ltac:(lia) ltac:(lia))
    as (H49 & H1 & H2 & H3 & _ & H5).
  change (Z.min (2 * (1 + Z.of_nat 49)) 99) with 99%Z in H49.
  destruct (finalizing_after_99 t _ (k - 50) H49) as (Hfin & F1 & F2 & F3 & _ & F5).
  split; [exact Hfin | repeat split; congruence].
Qed.

(** The phase after any number of timeouts. *)
Lemma estimate_handover_aux (t : string -> string) (self : V01.Processing.State) (k : nat) :
  Journey.at_rest self = true ->
  let started :=
    V01.Processing.handles t self [V01.Processing.click_process; V01.Processing.thread_begins] in
  let now := V01.Processing.handles t started (repeat V01.Processing.tick k) in
  ((exists p, Journey.simulating now p) \/ Journey.finalizing now) /\
  V01.Processing.status_label now = t "processing" /\
  V01.Processing.process_btn now = t "processing" /\
  V01.Processing.threads now
    = V01.Processing.threads self ++ [Groups01.grouped (V01.Processing.gui self)] /\
  V01.Processing.boxes now = V01.Processing.boxes self /\
  V01.Processing.completions now = V01.Processing.completions self.
Proof.
  intros Hrest. cbv zeta.
  destruct (job_started t self Hrest) as (Hsim & Hst & Hbt & Hth & Hbx & _ & _ & Hcm).
  set (started := V01.Processing.handles t self _) in *.
  assert (Hbtn : forall n,
             V01.Processing.process_btn
               (V01.Processing.handles t started (repeat V01.Processing.tick n))
             = V01.Processing.process_btn started).
  { clear. generalize started. intros s n. revert s.
    induction n as [|n IH]; intros s; [reflexivity|].
    cbn [repeat]. rewrite journey_cons, IH.
    unfold V01.Processing.handle.
    destruct (V01.Processing.simulate_scheduled s); [reflexivity|].
    unfold V01.Processing.simulate_progress. fields01.
    destruct ((V01.Processing.progress_var s <? 99)%Z && V01.Processing.is_processing s);
      [reflexivity|].
    destruct ((V01.Processing.progress_var s >=? 99)%Z && V01.Processing.is_processing s);
      [|reflexivity].
    destruct (negb (V01.Processing.waiting_for_completion s)); reflexivity. }
  destruct (Nat.le_gt_cases k 49) as [Hk | Hk].
  - destruct (ticks_simulating t k started 1 Hsim ltac:(lia) ltac:(lia))
      as (Hnow & H1 & H2 & H3 & _ & H5).
    split; [left; eexists; exact Hnow |]. rewrite Hbtn. repeat split; congruence.
  - rewrite Hbtn.
    replace k with (49 + S (k - 50))%nat by lia.
    rewrite repeat_app, journey_app.
    destruct (ticks_simulating t 49 started 1 Hsim ltac:(lia) ltac:(lia))
      as (H49 & H1 & H2 & H3 & _ & H5).
    change (Z.min (2 * (1 + Z.of_nat 49)) 99) with 99%Z in H49.
    destruct (finalizing_after_99 t _ (k - 50) H49) as (Hfin & F1 & F2 & F3 & _ & F5).
    split; [right; exact Hfin | repeat split; congruence].
Qed.

(** V0.1, [start_processing], [run_ffmpeg_command] and
    [simulate_progress]: after the click and the start of the thread the
    bar shows [2 (k + 1)] when [k] pending timeouts have run, up to 99,
    which it reaches with the 49th.  The 50th finds it at 99 and, instead
    of moving it, arms [check_completion_status]: twenty-five seconds
    after the click the window begins to poll the output file, whether or
    not [ffmpeg] has ended, and no further timeout is pending.  Up to
    there the status reads processing, no box is shown, and nothing is
    counted as completed. *)
Theorem estimate_hands_over_to_polling
  (t : string -> string) (self : V01.Processing.State) (k : nat) :
  Journey.at_rest self = true ->
  let started :=
    V01.Processing.handles t self [V01.Processing.click_process; V01.Processing.thread_begins] in
  let now := V01.Processing.handles t started (repeat V01.Processing.tick k) in
  ((k <= 49)%nat -> Journey.simulating now (Z.min (2 * (Z.of_nat k + 1)) 99)) /\
  ((50 <= k)%nat -> Journey.finalizing now) /\
  V01.Processing.status_label now = t "processing" /\
  V01.Processing.threads now
    = V01.Processing.threads self ++ [Groups01.grouped (V01.Processing.gui self)] /\
  V01.Processing.boxes now = V01.Processing.boxes self /\
  V01.Processing.completions now = V01.Processing.completions self.
Proof.
  intros Hrest. cbv zeta.
  destruct (job_started t self Hrest) as (Hsim & Hst & _ & Hth & Hbx & _ & _ & Hcm).
  set (started := V01.Processing.handles t self _) in *.
  destruct (Nat.le_gt_cases k 49) as [Hk | Hk].
  - destruct (ticks_simulating t k started 1 Hsim ltac:(lia) ltac:(lia))
      as (Hnow & H1 & H2 & H3 & _ & H5).
    split; [|split; [|repeat split; congruence]].
    + intros _. replace (Z.of_nat k + 1)%Z with (1 + Z.of_nat k)%Z by lia. exact Hnow.
    + intros Hk'. lia.
  - replace k with (49 + S (k - 50))%nat by lia.
    rewrite repeat_app, journey_app.
    destruct (ticks_simulating t 49 started 1 Hsim ltac:(lia) ltac:(lia))
      as (H49 & H1 & H2 & H3 & _ & H5).
    change (Z.min (2 * (1 + Z.of_nat 49)) 99) with 99%Z in H49.
    destruct (finalizing_after_99 t _ (k - 50) H49) as (Hfin & F1 & F2 & F3 & _ & F5).
    split; [|split; [|repeat split; congruence]].
    + intros Hk'. lia.
    + intros _. exact Hfin.
Qed.

Lemma estimate_hands_over_to_polling_witness :
  let started :=
    V01.Processing.handles Samples.t02 Samples.idle01
      [V01.Processing.click_process; V01.Processing.thread_begins] in
  let now := V01.Processing.handles Samples.t02 started (repeat V01.Processing.tick 10) in
  ((10 <= 49)%nat -> Journey.simulating now (Z.min (2 * (Z.of_nat 10 + 1)) 99)) /\
  ((50 <= 10)%nat -> Journey.finalizing now) /\
  V01.Processing.status_label now = Samples.t02 "processing" /\
  V01.Processing.threads now
    = V01.Processing.threads Samples.idle01 ++
      [Groups01.grouped (V01.Processing.gui Samples.idle01)] /\
  V01.Processing.boxes now = V01.Processing.boxes Samples.idle01 /\
  V01.Processing.completions now = V01.Processing.completions Samples.idle01.
Proof.
  cbv zeta. apply (estimate_hands_over_to_polling Samples.t02 Samples.idle01 10).
  reflexivity.
Defined.

Lemma first_look (t : string -> string) (self : V01.Processing.State) (size : Z) :
  Journey.finalizing self ->
  let next := V01.Processing.handle t self (V01.Processing.poll 0 (Some size)) in
  Journey.comparing next size 0 /\ Journey.same_display next self.
Proof.
  intros (Hp & Hw & Hn & Hs & Hc & Hv). destruct self. cbn in *. subst.
  unfold Journey.comparing, Journey.same_display. cbn. repeat split.
Qed.

Lemma equal_look (t : string -> string) (self : V01.Processing.State) (size : Z) :
  Journey.comparing self size 0 ->
  let next := V01.Processing.handle t self (V01.Processing.poll 0 (Some size)) in
  Journey.comparing next size 1 /\ Journey.same_display next self.
Proof.
  intros (Hp & Hn & Hs & Hc). destruct self. cbn in *. subst.
  unfold Journey.comparing, Journey.same_display. cbn. rewrite Z.eqb_refl. cbn. repeat split.
Qed.

Lemma second_equal_look (t : string -> string) (self : V01.Processing.State) (size : Z) :
  Journey.comparing self size 1 ->
  let final := V01.Processing.handle t self (V01.Processing.poll 0 (Some size)) in
  V01.Processing.completions final = S (V01.Processing.completions self) /\
  V01.Processing.is_processing final = false /\
  V01.Processing.progress_var final = 100%Z /\
  V01.Processing.status_label final = t "completed" /\
  V01.Processing.process_btn final = t "start_processing" /\
  V01.Processing.simulate_scheduled final = 0%nat /\
  V01.Processing.completion_scheduled final = [] /\
  V01.Processing.threads final = V01.Processing.threads self /\
  V01.Processing.boxes final =
    V01.Processing.boxes self ++
    [{| V01.Window.kind := V01.Window.showinfo; V01.Window.title := t "success";
        V01.Window.message := t "completed" |}].
Proof.
  intros (Hp & Hn & Hs & Hc). destruct self. cbn in *. subst.
  cbn. rewrite Z.eqb_refl. cbn. repeat split.
Qed.

(** Three looks at the output file that find the same size. *)
Lemma three_equal_polls (t : string -> string) (self : V01.Processing.State) (size : Z) :
  Journey.finalizing self ->
  let final :=
    V01.Processing.handles t self
      [V01.Processing.poll 0 (Some size); V01.Processing.poll 0 (Some size);
       V01.Processing.poll 0 (Some size)] in
  V01.Processing.completions final = S (V01.Processing.completions self) /\
  V01.Processing.is_processing final = false /\
  V01.Processing.progress_var final = 100%Z /\
  V01.Processing.status_label final = t "completed" /\
  V01.Processing.process_btn final = t "start_processing" /\
  V01.Processing.simulate_scheduled final = 0%nat /\
  V01.Processing.completion_scheduled final = [] /\
  V01.Processing.threads final = V01.Processing.threads self /\
  V01.Processing.boxes final =
    V01.Processing.boxes self ++
    [{| V01.Window.kind := V01.Window.showinfo; V01.Window.title := t "success";
        V01.Window.message := t "completed" |}].
Proof.
  intros Hfin. cbv zeta. rewrite !journey_cons. cbn [V01.Processing.handles fold_left].
  destruct (first_look t self size Hfin) as (H1 & _ & _ & _ & T1 & B1 & C1).
  destruct (equal_look t _ size H1) as (H2 & _ & _ & _ & T2 & B2 & C2).
  destruct (second_equal_look t _ size H2) as (F1 & F2 & F3 & F4 & F5 & F6 & F7 & F8 & F9).
  repeat split; congruence.
Qed.

(** V0.1, [simulate_progress] with [check_completion_status] and
    [verify_file_stable]: completion is declared from the size of the
    output file alone.  After the click, fifty timeouts and three looks
    that find the file with the same size, the window reports the job as
    completed - status, bar at 100, success box, button reset, not
    processing - although the thread has not come back from its
    [subprocess.run]: an [ffmpeg] that is still running, or one that has
    stalled, is reported as done. *)
Theorem completion_without_the_process_ending
  (t : string -> string) (self : V01.Processing.State) (size : Z) :
  Journey.at_rest self = true ->
  let events :=
    [V01.Processing.click_process; V01.Processing.thread_begins] ++
    repeat V01.Processing.tick 50 ++
    [V01.Processing.poll 0 (Some size); V01.Processing.poll 0 (Some size);
     V01.Processing.poll 0 (Some size)] in
  let final := V01.Processing.handles t self events in
  V01.Processing.completions final = S (V01.Processing.completions self) /\
  V01.Processing.is_processing final = false /\
  V01.Processing.progress_var final = 100%Z /\
  V01.Processing.status_label final = t "completed" /\
  V01.Processing.process_btn final = t "start_processing" /\
  V01.Processing.threads final
    = V01.Processing.threads self ++ [Groups01.grouped (V01.Processing.gui self)] /\
  V01.Processing.boxes final =
    V01.Processing.boxes self ++
    [{| V01.Window.kind := V01.Window.showinfo; V01.Window.title := t "success";
        V01.Window.message := t "completed" |}].
Proof.
  intros Hrest. cbv zeta. rewrite !journey_app.
  destruct (estimate_polling_aux t self 50 Hrest ltac:(lia)) as (Hfin & _ & Hth & Hbx & Hcm).
  set (now := V01.Processing.handles t (V01.Processing.handles t self _) _) in *.
  destruct (three_equal_polls t now size Hfin)
    as (C1 & C2 & C3 & C4 & C5 & _ & _ & C8 & C9).
  repeat split; congruence.
Qed.

Lemma completion_without_the_process_ending_witness :
  let events :=
    [V01.Processing.click_process; V01.Processing.thread_begins] ++
    repeat V01.Processing.tick 50 ++
    [V01.Processing.poll 0 (Some 4096%Z); V01.Processing.poll 0 (Some 4096%Z);
     V01.Processing.poll 0 (Some 4096%Z)] in
  let final := V01.Processing.handles Samples.t02 Samples.idle01 events in
  V01.Processing.completions final = S (V01.Processing.completions Samples.idle01) /\
  V01.Processing.is_processing final = false /\
  V01.Processing.progress_var final = 100%Z /\
  V01.Processing.status_label final = Samples.t02 "completed" /\
  V01.Processing.process_btn final = Samples.t02 "start_processing" /\
  V01.Processing.threads final
    = V01.Processing.threads Samples.idle01 ++
      [Groups01.grouped (V01.Processing.gui Samples.idle01)] /\
  V01.Processing.boxes final =
    V01.Processing.boxes Samples.idle01 ++
    [{| V01.Window.kind := V01.Window.showinfo; V01.Window.title := Samples.t02 "success";
        V01.Window.message := Samples.t02 "completed" |}].
Proof.
  cbv zeta. apply (completion_without_the_process_ending Samples.t02 Samples.idle01 4096%Z).
  reflexivity.
Defined.

(** The thread comes back from an [ffmpeg] that exited with 0. *)
Lemma clean_return (t : string -> string) (self : V01.Processing.State)
  (out stderr : string) :
  V01.Processing.is_processing self = true ->
  V01.Processing.handle t self (V01.Processing.thread_ends (Os.Exits 0 out) stderr)
  = V01.Processing.set_progress self 99 "99%".
Proof.
  intros Hp. cbn [V01.Processing.handle]. unfold V01.Processing.run_ffmpeg_command_ends.
  cbn. rewrite Hp. reflexivity.
Qed.

(** The timeout after a clean return leaves the first look at the output
    file pending, whatever the phase the return came in. *)
Lemma tick_after_clean_return (t : string -> string) (self : V01.Processing.State) :
  (exists p, Journey.simulating self p) \/ Journey.finalizing self ->
  let returned := V01.Processing.set_progress self 99 "99%" in
  let next := V01.Processing.handle t returned V01.Processing.tick in
  V01.Processing.is_processing self = true /\
  Journey.finalizing next /\
  V01.Processing.status_label next = V01.Processing.status_label self /\
  V01.Processing.process_btn next = V01.Processing.process_btn self /\
  V01.Processing.threads next = V01.Processing.threads self /\
  V01.Processing.boxes next = V01.Processing.boxes self /\
  V01.Processing.completions next = V01.Processing.completions self.
Proof.
  intros [(p & Hp & Hw & Hs & Hc & Hv) | (Hp & Hw & Hn & Hs & Hc & Hv)];
    destruct self; cbn in *; subst; unfold Journey.finalizing; cbn; repeat split.
Qed.

(** V0.1, [run_ffmpeg_command] after an exit with status 0, with
    [simulate_progress] and the looks at the output file: the exit alone
    completes nothing.  Whenever it comes, after any number of timeouts,
    the window stays in processing with the bar at 99, the status and the
    button still reading processing, no box shown and nothing counted as
    completed.  Completion is declared only later, by the third look that
    finds the output file with one size. *)
Theorem clean_exit_is_confirmed_by_polls
  (t : string -> string) (self : V01.Processing.State) (k : nat)
  (out stderr : string) (size : Z) :
  Journey.at_rest self = true ->
  let started :=
    V01.Processing.handles t self [V01.Processing.click_process; V01.Processing.thread_begins] in
  let running := V01.Processing.handles t started (repeat V01.Processing.tick k) in
  let returned :=
    V01.Processing.handle t running (V01.Processing.thread_ends (Os.Exits 0 out) stderr) in
  let final :=
    V01.Processing.handles t returned
      [V01.Processing.tick; V01.Processing.poll 0 (Some size);
       V01.Processing.poll 0 (Some size); V01.Processing.poll 0 (Some size)] in
  (V01.Processing.is_processing returned = true /\
   V01.Processing.progress_var returned = 99%Z /\
   V01.Processing.status_label returned = t "processing" /\
   V01.Processing.process_btn returned = t "processing" /\
   V01.Processing.boxes returned = V01.Processing.boxes self /\
   V01.Processing.completions returned = V01.Processing.completions self) /\
  (V01.Processing.is_processing final = false /\
   V01.Processing.progress_var final = 100%Z /\
   V01.Processing.status_label final = t "completed" /\
   V01.Processing.process_btn final = t "start_processing" /\
   V01.Processing.boxes final =
     V01.Processing.boxes self ++
     [{| V01.Window.kind := V01.Window.showinfo; V01.Window.title := t "success";
         V01.Window.message := t "completed" |}] /\
   V01.Processing.completions final = S (V01.Processing.completions self)).
Proof.
  intros Hrest. cbv zeta.
  destruct (estimate_handover_aux t self k Hrest) as (Hphase & Hst & Hbt & Hth & Hbx & Hcm).
  set (running := V01.Processing.handles t (V01.Processing.handles t self _) _) in *.
  destruct (tick_after_clean_return t running Hphase)
    as (Hp & Hfin & D1 & D2 & D3 & D4 & D5).
  rewrite (clean_return t running out stderr Hp).
  split.
  - fields01. repeat split; assumption.
  - rewrite journey_cons.
    destruct (three_equal_polls t _ size Hfin) as (C1 & C2 & C3 & C4 & C5 & _ & _ & _ & C9).
    repeat split; congruence.
Qed.

Lemma clean_exit_is_confirmed_by_polls_witness :
  let started :=
    V01.Processing.handles Samples.t02 Samples.idle01
      [V01.Processing.click_process; V01.Processing.thread_begins] in
  let running := V01.Processing.handles Samples.t02 started (repeat V01.Processing.tick 7) in
  let returned :=
    V01.Processing.handle Samples.t02 running
      (V01.Processing.thread_ends (Os.Exits 0 "") "") in
  let final :=
    V01.Processing.handles Samples.t02 returned
      [V01.Processing.tick; V01.Processing.poll 0 (Some 4096%Z);
       V01.Processing.poll 0 (Some 4096%Z); V01.Processing.poll 0 (Some 4096%Z)] in
  (V01.Processing.is_processing returned = true /\
   V01.Processing.progress_var returned = 99%Z /\
   V01.Processing.status_label returned = Samples.t02 "processing" /\
   V01.Processing.process_btn returned = Samples.t02 "processing" /\
   V01.Processing.boxes returned = V01.Processing.boxes Samples.idle01 /\
   V01.Processing.completions returned = V01.Processing.completions Samples.idle01) /\
  (V01.Processing.is_processing final = false /\
   V01.Processing.progress_var final = 100%Z /\
   V01.Processing.status_label final = Samples.t02 "completed" /\
   V01.Processing.process_btn final = Samples.t02 "start_processing" /\
   V01.Processing.boxes final =
     V01.Processing.boxes Samples.idle01 ++
     [{| V01.Window.kind := V01.Window.showinfo; V01.Window.title := Samples.t02 "success";
         V01.Window.message := Samples.t02 "completed" |}] /\
   V01.Processing.completions final = S (V01.Processing.completions Samples.idle01)).
Proof.
  cbv zeta.
  apply (clean_exit_is_confirmed_by_polls Samples.t02 Samples.idle01 7 "" "" 4096%Z).
  reflexivity.
Defined.

(** A callback of the main loop that finds no job in progress. *)
Lemma main_loop_when_idle (t : string -> string) (self : V01.Processing.State)
  (e : V01.Processing.event) :
  V01.Processing.is_processing self = false ->
  Journey.of_main_loop e = true ->
  V01.Processing.is_processing (V01.Processing.handle t self e) = false /\
  Journey.same_display (V01.Processing.handle t self e) self.
Proof.
  intros Hp He. unfold Journey.same_display.
  destruct e as [| | ended stderr | | i observed]; try discriminate He;
    cbn [V01.Processing.handle].
  - destruct (V01.Processing.simulate_scheduled self) as [|n]; [repeat split; exact Hp|].
    unfold V01.Processing.simulate_progress. fields01. rewrite Hp, !andb_false_r.
    fields01. repeat split. exact Hp.
  - destruct (V01.Processing.completion_scheduled self !! i) as [[|previous_size]|];
      [| |repeat split; exact Hp].
    + unfold V01.Processing.check_completion_status. fields01. rewrite Hp. cbn [negb].
      fields01. repeat split. exact Hp.
    + unfold V01.Processing.verify_file_stable. fields01. rewrite Hp. cbn [negb].
      fields01. repeat split. exact Hp.
Qed.

Lemma main_loop_idle_events (t : string -> string) (events : list V01.Processing.event) :
  forall self : V01.Processing.State,
    V01.Processing.is_processing self = false ->
    forallb Journey.of_main_loop events = true ->
    V01.Processing.is_processing (V01.Processing.handles t self events) = false /\
    Journey.same_display (V01.Processing.handles t self events) self.
Proof.
  induction events as [|e events IH]; intros self Hp Hev.
  - split; [exact Hp | repeat split].
  - cbn [forallb] in Hev. apply andb_true_iff in Hev. destruct Hev as [He Hev].
    rewrite journey_cons.
    destruct (main_loop_when_idle t self e Hp He) as (Hp' & D1 & D2 & D3 & D4 & D5 & D6).
    destruct (IH _ Hp' Hev) as (Hp'' & E1 & E2 & E3 & E4 & E5 & E6).
    split; [exact Hp''|]. unfold Journey.same_display. repeat split; congruence.
Qed.

(** V0.1, the handlers of [run_ffmpeg_command], with
    [simulate_progress], [check_completion_status] and
    [verify_file_stable]: when [ffmpeg] cannot be started or does not exit
    with 0 the job is over at once - not processing, bar at 0, status
    failed, one error box more - and the timeouts and looks at the output
    file that the main loop still has pending change none of it: no
    completion is declared for a job that failed, even when the output
    file is there and keeps its size.  The button is not reset: it keeps
    the text it had. *)
Theorem failure_ends_the_job
  (t : string -> string) (self : V01.Processing.State)
  (ended : Os.behaviour) (stderr : string) (later : list V01.Processing.event) :
  Spec.clean_exit ended = false ->
  Spec.comes_back ended = true ->
  forallb Journey.of_main_loop later = true ->
  let failed := V01.Processing.handle t self (V01.Processing.thread_ends ended stderr) in
  let final := V01.Processing.handles t failed later in
  V01.Processing.is_processing final = false /\
  V01.Processing.progress_var final = 0%Z /\
  V01.Processing.status_label final = t "failed" /\
  V01.Processing.process_btn final = V01.Processing.process_btn self /\
  V01.Processing.completions final = V01.Processing.completions self /\
  V01.Processing.threads final = V01.Processing.threads self /\
  exists message,
    V01.Processing.boxes final =
      V01.Processing.boxes self ++
      [{| V01.Window.kind := V01.Window.showerror; V01.Window.title := t "error";
          V01.Window.message := message |}] /\
    (forall rc out, ended = Os.Exits rc out ->
       message = t "failed" +:+ ":" +:+ String "010" stderr).
Proof.
  intros Hclean Hback Hlater. cbv zeta.
  assert (Hfailed : exists message,
             V01.Processing.handle t self (V01.Processing.thread_ends ended stderr)
             = V01.Processing.processing_failed t self message /\
             (forall rc out, ended = Os.Exits rc out ->
                message = t "failed" +:+ ":" +:+ String "010" stderr)).
  { cbn [V01.Processing.handle]. unfold V01.Processing.run_ffmpeg_command_ends.
    destruct ended as [rc o | e |]; [| |discriminate Hback].
    - cbn in Hclean |- *. rewrite Hclean. cbn. eexists. split; reflexivity.
    - cbn. destruct (exn_type e); eexists; (split; [reflexivity | discriminate]). }
  destruct Hfailed as (message & -> & Hmessage).
  destruct (main_loop_idle_events t later (V01.Processing.processing_failed t self message)
              eq_refl Hlater) as (Hp & D1 & D2 & D3 & D4 & D5 & D6).
  split; [exact Hp|]. rewrite D1, D2, D3, D4, D5, D6.
  repeat split. exists message. split; [reflexivity | exact Hmessage].
Qed.

Lemma failure_ends_the_job_witness :
  let self :=
    V01.Processing.handles Samples.t02 Samples.idle01
      [V01.Processing.click_process; V01.Processing.thread_begins; V01.Processing.tick] in
  let failed :=
    V01.Processing.handle Samples.t02 self
      (V01.Processing.thread_ends (Os.Exits 1 "") "Invalid data found") in
  let final :=
    V01.Processing.handles Samples.t02 failed
      [V01.Processing.tick; V01.Processing.poll 0 (Some 4096%Z)] in
  V01.Processing.is_processing final = false /\
  V01.Processing.progress_var final = 0%Z /\
  V01.Processing.status_label final = Samples.t02 "failed" /\
  V01.Processing.process_btn final = V01.Processing.process_btn self /\
  V01.Processing.completions final = V01.Processing.completions self /\
  V01.Processing.threads final = V01.Processing.threads self /\
  exists message,
    V01.Processing.boxes final =
      V01.Processing.boxes self ++
      [{| V01.Window.kind := V01.Window.showerror; V01.Window.title := Samples.t02 "error";
          V01.Window.message := message |}] /\
    (forall rc out, Os.Exits 1 "" = Os.Exits rc out ->
       message = Samples.t02 "failed" +:+ ":" +:+ String "010" "Invalid data found").
Proof.
  cbv zeta.
  apply (failure_ends_the_job Samples.t02
           (V01.Processing.handles Samples.t02 Samples.idle01
              [V01.Processing.click_process; V01.Processing.thread_begins;
               V01.Processing.tick])
           (Os.Exits 1 "") "Invalid data found"
           [V01.Processing.tick; V01.Processing.poll 0 (Some 4096%Z)]); reflexivity.
Defined.
